(** * Lightstream WebRTC client: Session and Media state machines

    A shallow embedding of the two generations of the client that live in
    the repository:

    - the XState machines [mediaMachine] and [roomMachine] with its
      [roomServices] (both in src/media.ts), modules [MediaMachine] and
      [RoomMachine];
    - the ampersand-state models [Media] of src/media.js and [Room] of
      src/room.js, modules [LegacyMedia] and [LegacyRoom].

    Calls that cross the signaling or transport boundary (protoo requests,
    mediasoup producers and consumers, getUserMedia) are recorded as
    effects, in the order the code issues them; what they answer is taken
    from an explicit environment. *)

From Stdlib Require Import List String Bool Arith Lia ZArith.
Import ListNotations.
Open Scope string_scope.
Open Scope list_scope.

(** ** Shared data *)

(** A [MediaStreamTrack], as far as the code looks at it: its identity and
    whether [readyState === 'live']. *)
Record Track := mkTrack { track_id : string; track_live : bool }.

Definition track_eqb (a b : Track) : bool :=
  (track_id a =? track_id b) && Bool.eqb (track_live a) (track_live b).

Inductive Kind := audio | video.

Definition opt_eqb (o : option string) (s : string) : bool :=
  match o with Some x => x =? s | None => false end.

(** JavaScript truthiness of a string and of an optional string. *)
Definition truthy (s : string) : bool := negb (s =? "").
Definition truthy_opt (o : option string) : bool :=
  match o with Some s => truthy s | None => false end.


(** ** The reconnection policy of a signaling channel *)

(** The [retry] options handed to protoo's WebSocketTransport. *)
Record RetryOptions := mkRetry {
  retries : option nat;      (* [None]: the option is not given *)
  forever : bool;
  factor : Z;
  minTimeout : Z;            (* milliseconds *)
  maxTimeout : Z
}.

(** Modelled from the spec: the scheduler that turns these options into
    reconnection attempts belongs to the signaling library and is not part
    of src/. The spec describes it as exponential backoff bounded by a
    minimum and a maximum interval: the wait before attempt [n] (counted
    from 0) is the minimum interval times the factor to the power [n],
    capped by the maximum interval. *)
Definition backoff (o : RetryOptions) (attempt : nat) : Z :=
  Z.min (minTimeout o * factor o ^ Z.of_nat attempt) (maxTimeout o).

(** Modelled from the spec: the number of attempts after which the
    scheduler of the signaling library (not part of src/) gives up;
    [None] when it retries until the channel opens or is closed. *)
Definition attempt_limit (o : RetryOptions) : option nat :=
  if forever o then None else retries o.

(** ** Scripts of effectful code

    An async handler is run to completion: it emits effects of type [E]
    in program order and either returns or throws an error whose
    [message] is kept. *)
Section Script.
Variable E : Type.

Definition Script (A : Type) : Type := (list E * (A + string))%type.

Definition ret {A} (a : A) : Script A := ([], inl a).
Definition throw {A} (message : string) : Script A := ([], inr message).
Definition emit (e : E) : Script unit := ([e], inl tt).

Definition bind {A B} (m : Script A) (k : A -> Script B) : Script B :=
  match m with
  | (es, inl a) => (es ++ fst (k a), snd (k a))
  | (es, inr message) => (es, inr message)
  end.

(** [need o]: reading through a handle that is null or undefined throws. *)
Definition need {A} (o : option A) : Script A :=
  match o with
  | Some a => ret a
  | None => throw "Cannot read properties of undefined"
  end.

(** try { m } catch (e) { handler e.message } *)
Definition try_catch (m : Script unit) (handler : string -> list E) : list E :=
  match m with
  | (es, inl _) => es
  | (es, inr message) => es ++ handler message
  end.
End Script.

Arguments ret {E A} a.
Arguments throw {E A} message.
Arguments emit {E} e.
Arguments bind {E A B} m k.
Arguments need {E A} o.
Arguments try_catch {E} m handler.

Notation "x <- m ;; k" := (bind m (fun x => k))
  (at level 61, m at next level, right associativity).
Notation "m ;; k" := (bind m (fun _ => k))
  (at level 61, right associativity).

(** * The Media machine ([mediaMachine], src/media.ts) *)
Module MediaMachine.

(** A mediasoup v3 producer or consumer, as the machines read it. *)
Record Capability := mkCap {
  cap_id : string;
  cap_kind : Kind;
  cap_paused : bool;
  cap_closed : bool
}.

(** [Media] of src/index.ts; it is also the machine's context. The
    [actor] is the name under which the Session spawned the machine. *)
Record Media := mkMedia {
  id : string;
  kind : Kind;
  type : string;
  label : string;
  track : option Track;
  consumer : option Capability;
  producer : option Capability;
  deviceId : option string;
  peerId : option string;
  actor : option string
}.

Definition set_track (m : Media) (t : option Track) : Media :=
  mkMedia (id m) (kind m) (type m) (label m) t (consumer m) (producer m)
          (deviceId m) (peerId m) (actor m).

Definition set_actor (m : Media) (a : option string) : Media :=
  mkMedia (id m) (kind m) (type m) (label m) (track m) (consumer m)
          (producer m) (deviceId m) (peerId m) a.

(** [MediaMachineSchema]: the transient state [active._] is resolved on
    entry, so it never shows in a settled configuration. *)
Inductive Health := healthy | unhealthy.
Inductive ActiveState := live (h : Health) | paused.
Inductive State := active (s : ActiveState) | switching | stopped.

(** [MediaMachineEvent], with the two events XState raises when the
    invoked [switch] promise settles. PAUSED and RESUMED carry no
    originator. *)
Inductive Event :=
| CLOSED
| SWITCH (next : Track)
| SWITCH_COMPLETE
| SWITCH_FAILED
| PAUSED
| RESUMED
| TRACK_METADATA_FAILURE
| TRACK_METADATA_RESOLVED
| TRACK_ENDED
| done_invoke_switch (data : Track)
| error_platform_switch.

(** What a transition makes the interpreter do. *)
Inductive Action :=
| start_Track (t : option Track)      (* invoke src 'track' on context.track *)
| start_Producer                      (* invoke src 'producer' *)
| stop_Track (t : option Track)       (* its disposer: listeners off, track?.stop() *)
| stop_Producer
| start_switch (next : Track)         (* invoke src 'switch' with the SWITCH event *)
| close_consumer (c : string)         (* action 'close': context.consumer?.close() *)
| close_producer (p : string)         (* action 'close': context.producer?.close() *)
| sendParent_MEDIA_CLOSED (mediaId : string).

(** guard [isPaused]: context?.producer?.paused || context?.consumer?.paused *)
Definition isPaused (context : Media) : bool :=
  match producer context with Some p => cap_paused p | None => false end
  || match consumer context with Some c => cap_paused c | None => false end.

(** action [close] *)
Definition close (context : Media) : list Action :=
  match consumer context with Some c => [close_consumer (cap_id c)] | None => [] end
  ++ match producer context with Some p => [close_producer (cap_id p)] | None => [] end.

Definition enter_active (context : Media) : State * list Action :=
  (active (if isPaused context then paused else live healthy),
   [start_Track (track context); start_Producer]).

Definition exit_active (context : Media) : list Action :=
  [stop_Track (track context); stop_Producer].

Definition enter_stopped (context : Media) : State * list Action :=
  (stopped, close context ++ [sendParent_MEDIA_CLOSED (id context)]).

(** One macrostep of [mediaMachine]. *)
Definition transition (context : Media) (st : State) (ev : Event)
  : Media * State * list Action :=
  match st with
  | active sub =>
      match ev with
      | CLOSED | TRACK_ENDED =>
          (context, fst (enter_stopped context),
           exit_active context ++ snd (enter_stopped context))
      | SWITCH next =>
          (context, switching, exit_active context ++ [start_switch next])
      | PAUSED =>
          match sub with
          | live _ => (context, active paused, [])
          | paused => (context, st, [])
          end
      | RESUMED =>
          match sub with
          | paused => (context, active (live healthy), [])
          | live _ => (context, st, [])
          end
      | TRACK_METADATA_FAILURE =>
          match sub with
          | live healthy => (context, active (live unhealthy), [])
          | _ => (context, st, [])
          end
      | TRACK_METADATA_RESOLVED =>
          match sub with
          | live unhealthy => (context, active (live healthy), [])
          | _ => (context, st, [])
          end
      | _ => (context, st, [])
      end
  | switching =>
      match ev with
      | done_invoke_switch data =>
          let context' := set_track context (Some data) in
          (context', fst (enter_active context'), snd (enter_active context'))
      | error_platform_switch =>
          (context, fst (enter_stopped context), snd (enter_stopped context))
      | _ => (context, st, [])
      end
  | stopped => (context, st, [])
  end.

(** Calls made on the Transport Capability by the invoked services. *)
Inductive CapabilityCall :=
| replaceTrack (producerId : string) (t : Track).

(** service [switch]: [await context.producer.replaceTrack({track})], then
    [{ track: event.track }]. Without a producer the property access
    throws, so the promise rejects before any call is made.
    [resolves] says whether replaceTrack resolves. *)
Definition switch (context : Media) (next : Track) (resolves : bool)
  : list CapabilityCall * Event :=
  match producer context with
  | None => ([], error_platform_switch)
  | Some p =>
      ([replaceTrack (cap_id p) next],
       if resolves then done_invoke_switch next else error_platform_switch)
  end.

(** A running machine: context, state, the actions executed so far and
    the calls its services made on the capability. *)
Record Running := mkRunning {
  context : Media;
  state : State;
  actions : list Action;
  calls : list CapabilityCall
}.

Definition start (m : Media) : Running :=
  mkRunning m (fst (enter_active m)) (snd (enter_active m)) [].

Definition deliver (r : Running) (ev : Event) : Running :=
  let '(c, s, a) := transition (context r) (state r) ev in
  mkRunning c s (actions r ++ a) (calls r).

Fixpoint switch_requests (a : list Action) : list Track :=
  match a with
  | [] => []
  | start_switch t :: rest => t :: switch_requests rest
  | _ :: rest => switch_requests rest
  end.

(** Deliver [ev]; when that starts the [switch] service, let it settle
    ([resolves] is the outcome of replaceTrack) and deliver the event
    the settled promise raises. *)
Definition send (resolves : bool) (r : Running) (ev : Event) : Running :=
  let '(c, s, a) := transition (context r) (state r) ev in
  let r1 := mkRunning c s (actions r ++ a) (calls r) in
  match switch_requests a with
  | next :: _ =>
      let '(made, settled) := switch c next resolves in
      deliver (mkRunning c s (actions r ++ a) (calls r ++ made)) settled
  | [] => r1
  end.

Definition is_active (s : State) : bool :=
  match s with active _ => true | _ => false end.

(** ** Runs of the machine *)

(** A sequence of events, the ones raised by the settled [switch]
    promise included, delivered one after the other. *)
Definition deliver_all (evs : list Event) (r : Running) : Running :=
  fold_left deliver evs r.

Fixpoint MEDIA_CLOSED_reports (a : list Action) : nat :=
  match a with
  | [] => 0
  | sendParent_MEDIA_CLOSED _ :: rest => S (MEDIA_CLOSED_reports rest)
  | _ :: rest => MEDIA_CLOSED_reports rest
  end.

Definition is_stopped (s : State) : bool :=
  match s with stopped => true | _ => false end.

(** A sequence of events sent to the machine, each with the outcome
    replaceTrack would have if the event starts a switch. *)
Definition send_all (steps : list (bool * Event)) (r : Running) : Running :=
  fold_left (fun r s => send (fst s) r (snd s)) steps r.

(** Everything of a Media but its track. *)
Definition identity (m : Media) : Media := set_track m None.

Definition settles_switch (e : Event) : bool :=
  match e with done_invoke_switch _ | error_platform_switch => true | _ => false end.

(** The tracks the [track] service was started on, and the tracks its
    clean-up stopped, in order. *)
Fixpoint track_starts (a : list Action) : list (option Track) :=
  match a with
  | [] => []
  | start_Track t :: rest => t :: track_starts rest
  | _ :: rest => track_starts rest
  end.

Fixpoint track_stops (a : list Action) : list (option Track) :=
  match a with
  | [] => []
  | stop_Track t :: rest => t :: track_stops rest
  | _ :: rest => track_stops rest
  end.

(** The track the [track] service is running on. *)
Definition in_use (r : Running) : list (option Track) :=
  if is_active (state r) then [track (context r)] else [].

End MediaMachine.

(** * The Session machine ([roomMachine] and [roomServices], src/media.ts) *)
Module RoomMachine.

Import MediaMachine.

Record Peer := mkPeer { peer_id : string; peer_info : string; peer_device : string }.

Record Codec := mkCodec { mimeType : string; codec_kind : Kind }.

(** The loaded mediasoup [Device]: what [canProduce] answers and the
    codecs of its [rtpCapabilities] (mime types in lower case). *)
Record Device := mkDevice {
  canProduceAudio : bool;
  canProduceVideo : bool;
  codecs : list Codec
}.

Definition canProduce (d : Device) (k : Kind) : bool :=
  match k with audio => canProduceAudio d | video => canProduceVideo d end.

Record RoomSettings := mkSettings {
  produce : bool;
  consume : bool;
  forceTcp : bool;
  forceH264 : bool;
  forceVP9 : bool;
  useSimulcast : bool
}.

(** [RoomMachineContext]. Handles on the protoo peer and on the two
    transports are kept by name. *)
Record Context := mkContext {
  room_id : string;
  socketUrl : string;
  my_peerId : string;
  peerInfo : string;
  browser : string;
  peers : list Peer;
  media : list Media;
  protoo : option string;
  sendTransport : option string;
  recvTransport : option string;
  mediasoupDevice : option Device;
  settings : RoomSettings;
  onDiagnostics : bool
}.

Definition set_peers_media (c : Context) (p : list Peer) (m : list Media) : Context :=
  mkContext (room_id c) (socketUrl c) (my_peerId c) (peerInfo c) (browser c)
            p m (protoo c) (sendTransport c) (recvTransport c)
            (mediasoupDevice c) (settings c) (onDiagnostics c).

Definition set_socket (c : Context) (p : string) (d : Device) : Context :=
  mkContext (room_id c) (socketUrl c) (my_peerId c) (peerInfo c) (browser c)
            (peers c) (media c) (Some p) (sendTransport c) (recvTransport c)
            (Some d) (settings c) (onDiagnostics c).

(** What [performJoin] resolves with. *)
Record JoinData := mkJoinData {
  join_peers : list Peer;
  join_sendTransport : option string;
  join_recvTransport : option string;
  join_device : option Device
}.

Definition set_joined (c : Context) (d : JoinData) : Context :=
  mkContext (room_id c) (socketUrl c) (my_peerId c) (peerInfo c) (browser c)
            (join_peers d) (media c) (protoo c) (join_sendTransport d)
            (join_recvTransport d) (join_device d) (settings c) (onDiagnostics c).

(** [VideoDefinition] and [AudioDefinition]; resolution and constraints
    only shape the getUserMedia call and are left out. *)
Record MediaDefinition := mkDefinition {
  def_type : string;
  def_deviceId : option string;
  def_label : string;
  def_track : option Track
}.

(** [RoomCommand] *)
Inductive Command :=
| RestartIce
| UpdatePeer (data : string)
| SendVideo (payload : MediaDefinition)
| SendAudio (payload : MediaDefinition)
| SwitchVideo (mediaId : string) (newDefinition : MediaDefinition)
| SwitchAudio (mediaId : string) (newDefinition : MediaDefinition)
| PauseMedia (mediaId : string)
| ResumeMedia (mediaId : string)
| ModifyMedia (constraints : string)
| StopSendingMedia (mediaId : string).

Definition command_name (c : Command) : string :=
  match c with
  | RestartIce => "RestartIce"
  | UpdatePeer _ => "UpdatePeer"
  | SendVideo _ => "SendVideo"
  | SendAudio _ => "SendAudio"
  | SwitchVideo _ _ => "SwitchVideo"
  | SwitchAudio _ _ => "SwitchAudio"
  | PauseMedia _ => "PauseMedia"
  | ResumeMedia _ => "ResumeMedia"
  | ModifyMedia _ => "ModifyMedia"
  | StopSendingMedia _ => "StopSendingMedia"
  end.

(** An inbound request: its name and the fields of [data] that
    [newConsumer] reads. *)
Record IncomingRequest := mkRequest {
  req_name : string;
  req_peerId : string;
  req_producerId : string;
  req_id : string;
  req_kind : Kind;
  req_type : string;
  req_deviceId : option string;
  req_label : string
}.

(** An inbound notification: its name and the fields of [data] the
    handlers read. *)
Record Notification := mkNotification {
  n_name : string;
  n_id : string;
  n_info : string;
  n_device : string;
  n_peerId : string;
  n_consumerId : string
}.

(** [RoomMachineEvent], with the events the services send back
    (COMMAND_FAILED, NOTIFICATION_ERROR) and the ones XState raises when
    an invoked promise settles. *)
Inductive Event :=
| CONNECT | DISCONNECT | CLOSE | JOIN | LEAVE
| SOCKET_CONNECTED (protoo : string) (mediasoupDevice : Device)
| SOCKET_FAILED
| SOCKET_DISCONNECTED
| SOCKET_CLOSED
| REQUEST (request : IncomingRequest)
| NOTIFICATION (notification : Notification)
| COMMAND (command : Command)
| PEER_JOINED (peer : Peer)
| PEER_LEFT (peerId : string)
| PEER_UPDATED (peerId : string) (info : string)
| LOCAL_MEDIA_ADDED (media : Media)
| REMOTE_MEDIA_ADDED (media : Media)
| MEDIA_CLOSED (mediaId : string)
| COMMAND_FAILED (name : string) (reason : string)
| NOTIFICATION_ERROR (name : string) (reason : string)
| done_invoke_performJoin (data : option JoinData)
| error_platform_performJoin
| done_invoke_performLeave
| error_platform_performLeave.

(** [RoomMachineSchema] *)
Inductive ConnectedState := CWaiting | Joining | Joined | Leaving | Left.
Inductive ActiveState := Connecting | Connected (s : ConnectedState) | Reconnecting.
Inductive State := Waiting | Active (s : ActiveState).

Inductive Service :=
| Socket | RequestHandler | NotificationHandler | CommandHandler
| PerformJoin | PerformLeave.

(** What a transition makes the interpreter do. [send_to] forwards an
    event to an invoked service together with the context of that
    moment. *)
Inductive Action :=
| start (s : Service)
| stop (s : Service)
| send_to (s : Service) (e : Event) (snapshot : Context)
| spawn (name : string) (m : Media)
| actor_stop (name : string).

(** action [reset] *)
Definition reset (context : Context) : Context :=
  set_peers_media context [] [].

(** action [addMedia]: the Media is appended with a freshly spawned
    machine named by its id. *)
Definition addMedia (context : Context) (m : Media) : Context * list Action :=
  (set_peers_media context (peers context)
     (media context ++ [set_actor m (Some (id m))]),
   [spawn (id m) m]).

Definition enter_substate (s : ConnectedState) : list Action :=
  match s with
  | Joining => [start PerformJoin]
  | Joined => [start CommandHandler]
  | Leaving => [start PerformLeave]
  | CWaiting | Left => []
  end.

Definition exit_substate (s : ConnectedState) : list Action :=
  match s with
  | Joining => [stop PerformJoin]
  | Joined => [stop CommandHandler]
  | Leaving => [stop PerformLeave]
  | CWaiting | Left => []
  end.

(** Entering [connected] enters its initial state [waiting]. *)
Definition enter_connected : State * list Action :=
  (Active (Connected CWaiting),
   [start RequestHandler; start NotificationHandler] ++ enter_substate CWaiting).

Definition exit_connected (s : ConnectedState) : list Action :=
  exit_substate s ++ [stop RequestHandler; stop NotificationHandler].

Definition exit_active (a : ActiveState) : list Action :=
  match a with Connected s => exit_connected s | _ => [] end ++ [stop Socket].

Definition goto (context : Context) (from to : ConnectedState)
  : Context * State * list Action :=
  (context, Active (Connected to), exit_substate from ++ enter_substate to).

(** Handlers declared on [connected] itself. *)
Definition on_connected (context : Context) (sub : ConnectedState) (ev : Event)
  : Context * State * list Action :=
  let st := Active (Connected sub) in
  match ev with
  | SOCKET_DISCONNECTED => (context, Active Reconnecting, exit_connected sub)
  | REQUEST _ => (context, st, [send_to RequestHandler ev context])
  | NOTIFICATION _ => (context, st, [send_to NotificationHandler ev context])
  | PEER_JOINED peer =>
      (set_peers_media context (peers context ++ [peer]) (media context), st, [])
  | PEER_LEFT peerId =>
      (set_peers_media context
         (filter (fun x => negb (peer_id x =? peerId)) (peers context))
         (filter (fun x => negb (opt_eqb (MediaMachine.peerId x) peerId)) (media context)),
       st, [])
  | PEER_UPDATED peerId info =>
      (set_peers_media context
         (map (fun x => if negb (peer_id x =? peerId) then x
                        else mkPeer (peer_id x) info (peer_device x))
              (peers context))
         (media context),
       st, [])
  | LOCAL_MEDIA_ADDED m | REMOTE_MEDIA_ADDED m =>
      (fst (addMedia context m), st, snd (addMedia context m))
  | MEDIA_CLOSED mediaId =>
      let context' :=
        set_peers_media context (peers context)
          (filter (fun x => negb (id x =? mediaId)) (media context)) in
      (context', st,
       flat_map (fun x => match actor x with
                          | Some a => [actor_stop a]
                          | None => []
                          end)
                (filter (fun x => id x =? mediaId) (media context')))
  | _ => (context, st, [])
  end.

(** One macrostep of [roomMachine]: the handlers of the innermost state
    first, then those of [connected], then those of the root. *)
Definition transition (context : Context) (st : State) (ev : Event)
  : Context * State * list Action :=
  match ev with
  | DISCONNECT | SOCKET_CLOSED =>
      match st with
      | Waiting => (context, Waiting, [])
      | Active a => (reset context, Waiting, exit_active a)
      end
  | _ =>
      match st with
      | Waiting =>
          match ev with
          | CONNECT => (context, Active Connecting, [start Socket])
          | _ => (context, st, [])
          end
      | Active Connecting =>
          match ev with
          | SOCKET_CONNECTED p d =>
              (set_socket context p d, fst enter_connected, snd enter_connected)
          | _ => (context, st, [])
          end
      | Active Reconnecting =>
          match ev with
          | SOCKET_CONNECTED _ _ =>
              (context, fst enter_connected, snd enter_connected)
          | _ => (context, st, [])
          end
      | Active (Connected sub) =>
          match sub, ev with
          | CWaiting, JOIN => goto context sub Joining
          | Left, JOIN => goto context sub Joining
          | Joining, done_invoke_performJoin data =>
              goto (match data with Some d => set_joined context d | None => context end)
                   sub Joined
          | Joining, error_platform_performJoin => goto context sub CWaiting
          | Joined, LEAVE => goto context sub Leaving
          | Joined, COMMAND _ =>
              (context, st, [send_to CommandHandler ev context])
          | Leaving, done_invoke_performLeave => goto (reset context) sub Left
          | Leaving, error_platform_performLeave => goto context sub Joined
          | _, _ => on_connected context sub ev
          end
      end
  end.

(** ** The services ([roomServices]) *)

Inductive Encodings := WEBCAM_KSVC_ENCODINGS | WEBCAM_SIMULCAST_ENCODINGS.

(** What a service does to the outside world and to its parent. *)
Inductive ServiceEffect :=
| sendBack (e : Event)
| request (method : string) (about : string)      (* protoo.request(method, data) *)
| accept                                          (* accept() of the inbound request *)
| reject (code : nat) (reason : string)           (* reject(code, reason) of the inbound request *)
| actor_send (name : string) (e : MediaMachine.Event)
| consumer_pause (c : string)
| consumer_resume (c : string)
| consumer_close (c : string)
| producer_pause (p : string)
| producer_resume (p : string)
| producer_close (p : string)
| getUserMedia (k : Kind) (deviceId : option string)
| transport_produce (transport : string) (t : option Track)
    (encodings : option Encodings) (codec : option Codec)
    (type : string) (deviceId : option string) (label : string)
| transport_consume (transport : string) (consumerId producerId : string)
| createSendTransport (transportId : string)
| createRecvTransport (transportId : string)
| transport_close (transport : string)
| warn (message : string)
| diagnostics (n : Notification).

(** What the outside world answers. *)
Record Environment := mkEnvironment {
  (* the message protoo.request(method) is rejected with, if it is *)
  request_rejects : string -> option string;
  (* first track of the stream getUserMedia resolves with, or the message it rejects with *)
  user_media : Kind -> option string -> (option Track + string);
  (* the producer sendTransport.produce resolves with, or the message it throws *)
  produced : option Track -> (Capability + string);
  (* the consumer and track recvTransport.consume resolves with, or the message it throws *)
  consumed : IncomingRequest -> (Capability * Track + string);
  (* the id in the answer to createWebRtcTransport (producing or not) *)
  transport_info : bool -> string;
  (* the peers in the answer to join *)
  join_response : list Peer
}.

Definition M := Script ServiceEffect.

Definition lift {A} (r : A + string) : M A :=
  match r with inl a => ret a | inr message => throw message end.

(** [await protoo.request(method, data)] *)
Definition protoo_request (env : Environment) (context : Context)
           (method about : string) : M unit :=
  _ <- need (protoo context) ;;
  emit (request method about) ;;
  match request_rejects env method with
  | Some message => throw message
  | None => ret tt
  end.

Definition DIAGNOSTIC_NOTIFICATIONS : list string :=
  ["downlinkBwe"; "consumerLayersChanged"; "consumerScore"].

(** [notificationHandler]. The [consumerClosed] case only builds an
    XState send action object and returns it; nothing is sent. *)
Definition notificationHandler (context : Context) (notification : Notification)
  : list ServiceEffect :=
  let name := n_name notification in
  try_catch
    (if name =? "newPeer" then
       emit (sendBack (PEER_JOINED (mkPeer (n_id notification) (n_info notification)
                                           (n_device notification))))
     else if name =? "peerClosed" then
       (flat_map (fun x => match consumer x with
                           | Some c => [consumer_close (cap_id c)]
                           | None => []
                           end)
                 (filter (fun x => opt_eqb (MediaMachine.peerId x) (n_peerId notification))
                         (media context)),
        inl tt) ;;
       emit (sendBack (PEER_LEFT (n_peerId notification)))
     else if name =? "peerUpdated" then
       emit (sendBack (PEER_UPDATED (n_peerId notification) (n_info notification)))
     else if name =? "consumerClosed" then
       ret tt
     else
       ret tt)
    (fun message => [sendBack (NOTIFICATION_ERROR name message)]).

(** [requestHandler]; its [reject] is the one the socket service wraps:
    (reason = 'Not available') => reject(403, reason). *)
Definition requestHandler (env : Environment) (context : Context)
           (request : IncomingRequest) : list ServiceEffect :=
  try_catch
    (if req_name request =? "newConsumer" then
       transport <- need (recvTransport context) ;;
       emit (transport_consume transport (req_id request) (req_producerId request)) ;;
       made <- lift (consumed env request) ;;
       let '(c, t) := made in
       emit (sendBack (REMOTE_MEDIA_ADDED
               (mkMedia (cap_id c) (cap_kind c) (req_type request) (req_label request)
                        (Some t) (Some c) None (req_deviceId request)
                        (Some (req_peerId request)) None))) ;;
       emit accept
     else
       ret tt)
    (fun message => [reject 403 message]).

Definition getMedia (env : Environment) (k : Kind) (d : MediaDefinition)
  : M (option Track) :=
  emit (getUserMedia k (def_deviceId d)) ;;
  lift (user_media env k (def_deviceId d)).

(** payload.track || (await getVideo/getAudio(payload)) *)
Definition track_of (env : Environment) (k : Kind) (d : MediaDefinition)
  : M (option Track) :=
  match def_track d with
  | Some t => ret (Some t)
  | None => getMedia env k d
  end.

Definition find_codec (mime : string) (d : Device) : option Codec :=
  find (fun c => mimeType c =? mime) (codecs d).

Definition or_default (s d : string) : string := if truthy s then s else d.

Definition sendTransport_produce (env : Environment) (context : Context)
           (t : option Track) (encodings : option Encodings) (codec : option Codec)
           (payload : MediaDefinition) : M Capability :=
  transport <- need (sendTransport context) ;;
  emit (transport_produce transport t encodings codec
          (or_default (def_type payload) "unknown") (def_deviceId payload)
          (def_label payload)) ;;
  lift (produced env t).

Definition local_media (context : Context) (producer : Capability) (t : Track)
           (payload : MediaDefinition) : Media :=
  mkMedia (cap_id producer) (cap_kind producer)
          (or_default (def_type payload) "unknown") (def_label payload)
          (Some t) None (Some producer) (def_deviceId payload)
          (Some (my_peerId context)) None.

Definition to_actor (m : Media) (e : MediaMachine.Event) : M unit :=
  a <- need (actor m) ;; emit (actor_send a e).

Definition find_media (context : Context) (mediaId : string) : option Media :=
  find (fun x => id x =? mediaId) (media context).

(** [commandHandler]: the body of its [onReceive] callback. *)
Definition commandHandler (env : Environment) (context : Context)
           (command : Command) : list ServiceEffect :=
  let failed reason := sendBack (COMMAND_FAILED (command_name command) reason) in
  let reject reason : M unit := emit (failed reason) in
  let proxy : M unit :=
    protoo_request env context (command_name command) "" in
  try_catch
    (match command with
     | SendAudio payload =>
         device <- need (mediasoupDevice context) ;;
         if negb (canProduce device audio) then emit (warn "Cannot produce audio")
         else
           t <- track_of env audio payload ;;
           producer <- sendTransport_produce env context t None None payload ;;
           match t with
           | None => reject "Failed to get audio track"
           | Some t => emit (sendBack (LOCAL_MEDIA_ADDED
                                         (local_media context producer t payload)))
           end
     | SendVideo payload =>
         device <- need (mediasoupDevice context) ;;
         if negb (canProduce device video) then emit (warn "Cannot produce video")
         else
           t <- track_of env video payload ;;
           codec <-
             (if forceH264 (settings context) then
                match find_codec "video/h264" device with
                | Some c => ret (Some c)
                | None => throw "desired H264 codec+configuration is not supported"
                end
              else if forceVP9 (settings context) then
                match find_codec "video/vp9" device with
                | Some c => ret (Some c)
                | None => throw "desired VP9 codec+configuration is not supported"
                end
              else ret None) ;;
           encodings <-
             (if useSimulcast (settings context) then
                if forceVP9 (settings context)
                   && match codec with Some _ => true | None => false end
                then ret (Some WEBCAM_KSVC_ENCODINGS)
                else
                  first <- need (find (fun c => match codec_kind c with
                                                | video => true
                                                | audio => false
                                                end) (codecs device)) ;;
                  if mimeType first =? "video/vp9"
                  then ret (Some WEBCAM_KSVC_ENCODINGS)
                  else ret (Some WEBCAM_SIMULCAST_ENCODINGS)
              else ret None) ;;
           producer <- sendTransport_produce env context t encodings codec payload ;;
           match t with
           | None => reject "Failed to get audio track"
           | Some t => emit (sendBack (LOCAL_MEDIA_ADDED
                                         (local_media context producer t payload)))
           end
     | PauseMedia mediaId =>
         match find_media context mediaId with
         | None => reject "Media not found"
         | Some m =>
             match consumer m with
             | Some c =>
                 protoo_request env context "pauseConsumer" (cap_id c) ;;
                 emit (consumer_pause (cap_id c))
             | None => ret tt
             end ;;
             match producer m with
             | Some p =>
                 protoo_request env context "pauseProducer" (cap_id p) ;;
                 emit (producer_pause (cap_id p))
             | None => ret tt
             end ;;
             to_actor m PAUSED
         end
     | ResumeMedia mediaId =>
         match find_media context mediaId with
         | None => reject "Media not found"
         | Some m =>
             let resume_producer : M unit :=
               match producer m with
               | Some p =>
                   if cap_closed p then reject "Media is closed"
                   else
                     protoo_request env context "resumeProducer" (cap_id p) ;;
                     emit (producer_resume (cap_id p)) ;;
                     to_actor m RESUMED
               | None => to_actor m RESUMED
               end in
             match consumer m with
             | Some c =>
                 if cap_closed c then reject "Media is closed"
                 else
                   protoo_request env context "resumeConsumer" (cap_id c) ;;
                   emit (consumer_resume (cap_id c)) ;;
                   resume_producer
             | None => resume_producer
             end
         end
     | StopSendingMedia mediaId =>
         match find_media context mediaId with
         | None => reject "Media not found"
         | Some m =>
             match producer m with
             | None => reject "Media is not sending"
             | Some p =>
                 protoo_request env context "closeProducer" (cap_id p) ;;
                 emit (producer_close (cap_id p)) ;;
                 to_actor m CLOSED
             end
         end
     | SwitchVideo mediaId newDefinition =>
         match find_media context mediaId with
         | None => reject "Media not found"
         | Some m =>
             match producer m with
             | None => reject "Media is not sending"
             | Some _ =>
                 t <- track_of env video newDefinition ;;
                 match t with
                 | None => reject "Failed to get video track"
                 | Some t => to_actor m (SWITCH t)
                 end
             end
         end
     | SwitchAudio mediaId newDefinition =>
         match find_media context mediaId with
         | None => reject "Media not found"
         | Some m =>
             match producer m with
             | None => reject "Media is not sending"
             | Some _ =>
                 t <- track_of env audio newDefinition ;;
                 match t with
                 | None => reject "Failed to get video track"
                 | Some t => to_actor m (SWITCH t)
                 end
             end
         end
     | RestartIce | UpdatePeer _ | ModifyMedia _ => proxy
     end)
    (fun message => [failed message]).

(** [performJoin]. The whole handshake, the join request included, sits
    inside [if (settings.produce)]; otherwise the promise resolves with
    undefined. *)
Definition performJoin (env : Environment) (context : Context)
  : list ServiceEffect * Event :=
  let script : M (option JoinData) :=
    if produce (settings context) then
      protoo_request env context "createWebRtcTransport" "producing" ;;
      device <- need (mediasoupDevice context) ;;
      emit (createSendTransport (transport_info env true)) ;;
      recv <-
        (if consume (settings context) then
           protoo_request env context "createWebRtcTransport" "consuming" ;;
           emit (createRecvTransport (transport_info env false)) ;;
           ret (Some (transport_info env false))
         else ret None) ;;
      protoo_request env context "join" (my_peerId context) ;;
      ret (Some (mkJoinData
                   (join_response env
                      ++ [mkPeer (my_peerId context) (peerInfo context) (browser context)])
                   (Some (transport_info env true)) recv (Some device)))
    else ret None in
  match script with
  | (es, inl data) => (es, done_invoke_performJoin data)
  | (es, inr _) => (es, error_platform_performJoin)
  end.

(** [performLeave]; the closeProducer requests are not awaited, so
    their rejection is not an error of the service. *)
Fixpoint close_all (context : Context) (l : list Media) : M unit :=
  match l with
  | [] => ret tt
  | x :: rest =>
      match consumer x with
      | Some c => emit (consumer_close (cap_id c))
      | None => ret tt
      end ;;
      match producer x with
      | Some p =>
          emit (producer_close (cap_id p)) ;;
          _ <- need (protoo context) ;;
          emit (request "closeProducer" (cap_id p))
      | None => ret tt
      end ;;
      close_all context rest
  end.

Definition performLeave (env : Environment) (context : Context)
  : list ServiceEffect * Event :=
  let script : M unit :=
    close_all context (media context) ;;
    match sendTransport context with
    | Some t => emit (transport_close t)
    | None => ret tt
    end ;;
    match recvTransport context with
    | Some t => emit (transport_close t)
    | None => ret tt
    end ;;
    protoo_request env context "Leave" "" in
  match script with
  | (es, inl _) => (es, done_invoke_performLeave)
  | (es, inr _) => (es, error_platform_performLeave)
  end.

(** The retry options the [socket] service gives the WebSocket
    transport. *)
Definition socket_retry : RetryOptions :=
  mkRetry (Some 30%nat) false 2 500 (10 * 1000).   (* minTimeout: 0.5 * 1000 *)

(** [socket]: what its listeners do with what the protoo peer emits. *)
Definition socket_on_notification (context : Context) (n : Notification)
  : list ServiceEffect :=
  if existsb (String.eqb (n_name n)) DIAGNOSTIC_NOTIFICATIONS
  then (if onDiagnostics context then [diagnostics n] else [])
  else [sendBack (NOTIFICATION n)].

Definition socket_on_request (r : IncomingRequest) : list ServiceEffect :=
  [sendBack (REQUEST r)].

(** ** The interpreter *)

(** A running Session: context, state, the actions executed and the
    effects of its services so far. *)
Record Running := mkRunning {
  context : Context;
  state : State;
  actions : list Action;
  effects : list ServiceEffect
}.

Fixpoint sent_back (es : list ServiceEffect) : list Event :=
  match es with
  | [] => []
  | sendBack e :: rest => e :: sent_back rest
  | _ :: rest => sent_back rest
  end.

(** What an action starts: a handler receives the forwarded event, an
    invoked promise runs. The events come back to the machine. *)
Definition run_service (env : Environment) (current : Context) (a : Action)
  : list ServiceEffect * list Event :=
  match a with
  | send_to RequestHandler (REQUEST r) snapshot =>
      let es := requestHandler env snapshot r in (es, sent_back es)
  | send_to NotificationHandler (NOTIFICATION n) snapshot =>
      let es := notificationHandler snapshot n in (es, sent_back es)
  | send_to CommandHandler (COMMAND c) snapshot =>
      let es := commandHandler env snapshot c in (es, sent_back es)
  | start PerformJoin =>
      (fst (performJoin env current), [snd (performJoin env current)])
  | start PerformLeave =>
      (fst (performLeave env current), [snd (performLeave env current)])
  | _ => ([], [])
  end.

Definition deliver (r : Running) (ev : Event) : Running :=
  let '(c, s, a) := transition (context r) (state r) ev in
  mkRunning c s (actions r ++ a) (effects r).

(** Deliver [ev], let the services it reaches run, and deliver what they
    send back. *)
Definition dispatch (env : Environment) (r : Running) (ev : Event) : Running :=
  let '(c, s, a) := transition (context r) (state r) ev in
  let results := map (run_service env c) a in
  fold_left deliver (flat_map snd results)
            (mkRunning c s (actions r ++ a) (effects r ++ flat_map fst results)).

(** The events of a channel: what the protoo peer emits to the [socket]
    service. *)
Definition on_socket_notification (env : Environment) (r : Running)
           (n : Notification) : Running :=
  let es := socket_on_notification (context r) n in
  fold_left (dispatch env) (sent_back es)
            (mkRunning (context r) (state r) (actions r) (effects r ++ es)).

Definition on_socket_request (env : Environment) (r : Running)
           (q : IncomingRequest) : Running :=
  fold_left (dispatch env) (sent_back (socket_on_request q)) r.

Fixpoint count_requests (method : string) (es : list ServiceEffect) : nat :=
  match es with
  | [] => 0
  | request m _ :: rest =>
      (if m =? method then 1 else 0) + count_requests method rest
  | _ :: rest => count_requests method rest
  end.

Definition starts (s : Service) (a : Action) : bool :=
  match a, s with
  | start PerformJoin, PerformJoin => true
  | start PerformLeave, PerformLeave => true
  | start Socket, Socket => true
  | start RequestHandler, RequestHandler => true
  | start NotificationHandler, NotificationHandler => true
  | start CommandHandler, CommandHandler => true
  | _, _ => false
  end.

Definition is_answer (e : ServiceEffect) : bool :=
  match e with accept | reject _ _ => true | _ => false end.

Definition is_request (e : ServiceEffect) : bool :=
  match e with request _ _ => true | _ => false end.

(** The media a command names, for the commands that name one. *)
Definition command_mediaId (c : Command) : option string :=
  match c with
  | PauseMedia mediaId | ResumeMedia mediaId | StopSendingMedia mediaId
  | SwitchVideo mediaId _ | SwitchAudio mediaId _ => Some mediaId
  | _ => None
  end.

(** The capability [ResumeMedia] looks at first is closed: the
    consumer, or without a consumer the producer. *)
Definition resume_finds_closed (m : Media) : bool :=
  match consumer m with
  | Some c => cap_closed c
  | None => match producer m with Some p => cap_closed p | None => false end
  end.

Definition recognized_notifications : list string :=
  ["newPeer"; "peerClosed"; "peerUpdated"; "consumerClosed"].

(** The (type, deviceId, peerId) triple of a Media. *)
Definition triple (m : Media) : string * option string * option string :=
  (type m, deviceId m, MediaMachine.peerId m).

(** ** Runs of the Session *)

Definition dispatch_all (env : Environment) (evs : list Event) (r : Running)
  : Running :=
  fold_left (dispatch env) evs r.

(** The services a state keeps invoked: its own and those of the states
    around it. *)
Definition invokes (st : State) (s : Service) : bool :=
  match s, st with
  | Socket, Active _ => true
  | RequestHandler, Active (Connected _) => true
  | NotificationHandler, Active (Connected _) => true
  | CommandHandler, Active (Connected Joined) => true
  | PerformJoin, Active (Connected Joining) => true
  | PerformLeave, Active (Connected Leaving) => true
  | _, _ => false
  end.

Definition stops (s : Service) (a : Action) : bool :=
  match a, s with
  | stop PerformJoin, PerformJoin => true
  | stop PerformLeave, PerformLeave => true
  | stop Socket, Socket => true
  | stop RequestHandler, RequestHandler => true
  | stop NotificationHandler, NotificationHandler => true
  | stop CommandHandler, CommandHandler => true
  | _, _ => false
  end.

Definition started (s : Service) (a : list Action) : nat :=
  List.length (filter (starts s) a).
Definition stopped (s : Service) (a : list Action) : nat :=
  List.length (filter (stops s) a).

(** Each service has been started once more than stopped if the state
    keeps it invoked, and as often otherwise. *)
Definition balanced (r : Running) : Prop :=
  forall s, started s (actions r)
            = stopped s (actions r) + (if invokes (state r) s then 1 else 0).

(** Every Media of the list has an actor, named by its id. *)
Definition well_named (c : Context) : Prop :=
  forall m, In m (media c) -> actor m = Some (id m).

(** Effects that touch a producer or a consumer. *)
Definition is_capability_call (e : ServiceEffect) : bool :=
  match e with
  | consumer_pause _ | consumer_resume _ | consumer_close _
  | producer_pause _ | producer_resume _ | producer_close _ => true
  | _ => false
  end.

Definition is_produce (e : ServiceEffect) : bool :=
  match e with transport_produce _ _ _ _ _ _ _ => true | _ => false end.

(** The consumers [peerClosed] closes: those of the media of that
    peer. *)
Definition closes_of (peerId : string) (l : list Media) : list ServiceEffect :=
  flat_map (fun x => match consumer x with
                     | Some c => [consumer_close (cap_id c)]
                     | None => []
                     end)
           (filter (fun x => opt_eqb (MediaMachine.peerId x) peerId) l).

(** What [performJoin] does when every request is accepted. *)
Definition handshake (env : Environment) (context : Context) : list ServiceEffect :=
  [request "createWebRtcTransport" "producing";
   createSendTransport (transport_info env true)]
  ++ (if consume (settings context)
      then [request "createWebRtcTransport" "consuming";
            createRecvTransport (transport_info env false)]
      else [])
  ++ [request "join" (my_peerId context)].

Definition can_join (s : ConnectedState) : bool :=
  match s with CWaiting | Left => true | _ => false end.

Definition is_actor_send (e : ServiceEffect) : bool :=
  match e with actor_send _ _ => true | _ => false end.

(** The commands that need the server's consent before they touch a
    producer or a consumer. *)
Definition asks_first (c : Command) : bool :=
  match c with
  | PauseMedia _ | ResumeMedia _ | StopSendingMedia _ => true
  | _ => false
  end.

(** The commands that only make sense for a Media this peer sends. *)
Definition needs_producer (c : Command) : bool :=
  match c with
  | StopSendingMedia _ | SwitchVideo _ _ | SwitchAudio _ _ => true
  | _ => false
  end.

Definition is_connected (s : State) : bool :=
  match s with Active (Connected _) => true | _ => false end.

(** A room before [Connect]. *)
Definition boot (c : Context) : Running := mkRunning c Waiting [] [].

Definition is_joined (st : State) : bool :=
  match st with Active (Connected Joined) => true | _ => false end.

End RoomMachine.

(** * The legacy Media model ([Media], src/media.js)

    Each method is followed up to the point where it first waits for the
    transport (its synchronous part); what it does once the awaited call
    has settled is a function of its own ([receive_resolved],
    [send_resolved], [activate_rejected], [replaceTrack_resolved]).
    Listeners registered on the producer or consumer are the
    [on_*] functions. *)
Module LegacyMedia.

Inductive STATE := preparing | local | activating | active | paused | inactive.

Definition STATE_eqb (a b : STATE) : bool :=
  match a, b with
  | preparing, preparing | local, local | activating, activating
  | active, active | paused, paused | inactive, inactive => true
  | _, _ => false
  end.

(** A mediasoup-client v2 Producer or Consumer, as the model reads it. *)
Record Capability := mkCap {
  cap_id : string;
  closed : bool;
  cap_locallyPaused : bool;
  cap_remotelyPaused : bool
}.

Definition set_closed (c : Capability) : Capability :=
  mkCap (cap_id c) true (cap_locallyPaused c) (cap_remotelyPaused c).

Record Media := mkMedia {
  id : string;
  state : STATE;
  peerId : string;
  type : string;
  deviceId : option string;
  track : option Track;
  consumer : option Capability;
  producer : option Capability;
  locallyPaused : bool;
  remotelyPaused : bool;
  dependants : list string        (* a Set of dependant ids *)
}.

Definition set_state (m : Media) (s : STATE) : Media :=
  mkMedia (id m) s (peerId m) (type m) (deviceId m) (track m) (consumer m)
          (producer m) (locallyPaused m) (remotelyPaused m) (dependants m).

Definition set_track (m : Media) (t : option Track) : Media :=
  mkMedia (id m) (state m) (peerId m) (type m) (deviceId m) t (consumer m)
          (producer m) (locallyPaused m) (remotelyPaused m) (dependants m).

Definition set_producer (m : Media) (p : option Capability) : Media :=
  mkMedia (id m) (state m) (peerId m) (type m) (deviceId m) (track m) (consumer m)
          p (locallyPaused m) (remotelyPaused m) (dependants m).

Definition set_consumer (m : Media) (c : option Capability) : Media :=
  mkMedia (id m) (state m) (peerId m) (type m) (deviceId m) (track m) c
          (producer m) (locallyPaused m) (remotelyPaused m) (dependants m).

Definition set_paused (m : Media) (l r : bool) : Media :=
  mkMedia (id m) (state m) (peerId m) (type m) (deviceId m) (track m) (consumer m)
          (producer m) l r (dependants m).

Definition set_dependants (m : Media) (d : list string) : Media :=
  mkMedia (id m) (state m) (peerId m) (type m) (deviceId m) (track m) (consumer m)
          (producer m) (locallyPaused m) (remotelyPaused m) d.

(** Set.add and Set.delete on the dependant ids *)
Definition Set_add (x : string) (s : list string) : list string :=
  if existsb (String.eqb x) s then s else s ++ [x].
Definition Set_delete (x : string) (s : list string) : list string :=
  filter (fun y => negb (y =? x)) s.


(** What a method does to the transport, to the track and to the room. *)
Inductive Effect :=
| logEvent (name : string)
| producer_resume (p : string)
| producer_pause (p : string)
| producer_close (p : string)
| producer_send (p : string)                       (* producer.send(room._sendTransport) *)
| producer_replaceTrack (p : string) (t : option Track)
| createProducer (t : Track)
| consumer_resume (c : string)
| consumer_pause (c : string)
| consumer_close (c : string)
| consumer_receive (c : string)                    (* consumer.receive(room._recvTransport) *)
| track_stop (t : Track)
| initializeLocalTrack (deviceId : option string)  (* handed to the device helpers *)
| setTimeout_initializeLocalTrack (ms : nat)
| triggerUpdate.

Definition same_track (a b : option Track) : bool :=
  match a, b with
  | Some x, Some y => track_id x =? track_id y
  | None, None => true
  | _, _ => false
  end.

Definition unpause (m : Media) : list Effect :=
  match producer m with
  | Some p => [logEvent "ResumeProducerMedia"; producer_resume (cap_id p)]
  | None => []
  end
  ++ match consumer m with
     | Some c => [logEvent "ResumeConsumerMedia"; consumer_resume (cap_id c)]
     | None => []
     end.

Definition pause (m : Media) : list Effect :=
  match producer m with
  | Some p => [logEvent "PauseProducerMedia"; producer_pause (cap_id p)]
  | None => []
  end
  ++ match consumer m with
     | Some c => [logEvent "PauseConsumerMedia"; consumer_pause (cap_id c)]
     | None => []
     end.

(** [clearTrack]; unsetting the track fires the change:track listener,
    which with no track only triggers an update. *)
Definition clearTrack (m : Media) : Media * list Effect :=
  match track m with
  | Some t => (set_track m None, [track_stop t; triggerUpdate])
  | None => (m, [])
  end.

Definition close (m : Media) : Media * list Effect :=
  if STATE_eqb (state m) inactive then (m, [])
  else
    let '(m1, e1) := clearTrack m in
    let relocal :=
      match consumer m1 with None => true | Some _ => false end
      && (0 <? List.length (dependants m1))%nat in
    let m2 := set_state m1 (if relocal then local else inactive) in
    let e2 := if relocal then [setTimeout_initializeLocalTrack 1000] else [] in
    let '(m3, e3) :=
      match producer m2 with
      | Some p =>
          if closed p then (m2, [])
          else (set_producer m2 (Some (set_closed p)), [producer_close (cap_id p)])
      | None => (m2, [])
      end in
    let '(m4, e4) :=
      match consumer m3 with
      | Some c =>
          if closed c then (m3, [])
          else (set_consumer m3 (Some (set_closed c)), [consumer_close (cap_id c)])
      | None => (m3, [])
      end in
    (m4, e1 ++ e2 ++ e3 ++ e4).

(** [send] from the point where a track has been looked for: without
    one the Media goes inactive, with one the producer is created and
    sent. [made] is the producer createProducer returns; its track is
    the one handed over, so the updateTrack call on it returns at once. *)
Definition send_track (made : Capability) (m : Media) : Media * list Effect :=
  match track m with
  | Some t =>
      (set_producer m (Some made), [createProducer t; producer_send (cap_id made)])
  | None => (set_state m inactive, [])
  end.

(** [send], up to [await this.producer.send(...)] or, without a live
    track, up to [await this.initializeLocalTrack(...)], after which
    [send_track] goes on. *)
Definition send (made : Capability) (m : Media) : Media * list Effect :=
  if match track m with Some t => track_live t | None => false end
  then send_track made m
  else (m, [initializeLocalTrack (deviceId m)]).

(** [receive], up to [await this.consumer.receive(...)] *)
Definition receive (m : Media) : Media * list Effect :=
  if locallyPaused m then (m, unpause m)
  else
    match consumer m with
    | Some c => (m, [consumer_receive (cap_id c)])
    | None => (m, [])
    end.

Definition isAlreadyActive (m : Media) : bool :=
  STATE_eqb (state m) activating || STATE_eqb (state m) active
  || STATE_eqb (state m) paused.

Definition hasDependants (m : Media) : bool := (0 <? List.length (dependants m))%nat.

(** [activate]; [isRoomConnected] is [this.room.state === 'connected']. *)
Definition activate (isRoomConnected : bool) (made : Capability) (m : Media)
  : Media * list Effect :=
  match consumer m with
  | Some _ =>
      if STATE_eqb (state m) paused then (m, unpause m)
      else if isAlreadyActive m || negb isRoomConnected || negb (hasDependants m)
      then (m, [])
      else receive (set_state m activating)
  | None =>
      if isAlreadyActive m || negb isRoomConnected || negb (hasDependants m)
      then (m, [])
      else send made (set_state m activating)
  end.

(** [catch (e) { return this.close() }] of [activate] *)
Definition activate_rejected (m : Media) : Media * list Effect := close m.

(** The change:track listener of [initialize]. *)
Definition on_change_track (isRoomConnected : bool) (made : Capability) (m : Media)
  : Media * list Effect :=
  match track m with
  | Some _ =>
      let '(m', e) := activate isRoomConnected made m in (m', e ++ [triggerUpdate])
  | None => (m, [triggerUpdate])
  end.

(** [updateTrack], up to its first [await this.producer.replaceTrack] *)
Definition updateTrack (isRoomConnected : bool) (made : Capability)
           (t : option Track) (m : Media) : Media * list Effect :=
  if same_track t (track m) then (m, [])
  else
    match consumer m with
    | Some _ => on_change_track isRoomConnected made (set_track m t)
    | None =>
        let e0 := match track m with Some p => [track_stop p] | None => [] end in
        let '(m1, e1) := on_change_track isRoomConnected made (set_track m t) in
        let replace :=
          match producer m1 with
          | Some p => [producer_replaceTrack (cap_id p) t]
          | None => []
          end in
        if STATE_eqb (state m1) active
        then (set_state m1 activating, e0 ++ e1 ++ replace)
        else if STATE_eqb (state m1) paused
        then (m1, e0 ++ e1 ++ replace)
        else (m1, e0 ++ e1)
    end.

(** [updateTrack] once the replaceTrack it awaited from [active] has
    resolved *)
Definition replaceTrack_resolved (m : Media) : Media := set_state m active.

Definition paused_or_active (m : Media) : STATE :=
  if locallyPaused m || remotelyPaused m then paused else active.

(** [receive] once consumer.receive has resolved with [t] *)
Definition receive_resolved (isRoomConnected : bool) (made : Capability)
           (t : Track) (m : Media) : Media * list Effect :=
  match consumer m with
  | Some c =>
      let m1 := set_paused m (cap_locallyPaused c) (cap_remotelyPaused c) in
      let m2 := set_state m1 (paused_or_active m1) in
      updateTrack isRoomConnected made (Some t) m2
  | None => (m, [])
  end.

(** [send] once producer.send has resolved *)
Definition send_resolved (m : Media) : Media * list Effect :=
  (set_state m (paused_or_active m),
   match producer m with
   | Some p => if locallyPaused m then [producer_pause (cap_id p)] else []
   | None => []
   end).





(** [useTrack], up to [await this.initializeLocalTrack] when there is no
    track, to the end otherwise. *)
Definition useTrack (isRoomConnected : bool) (made : Capability)
           (dependantId : string) (m : Media) : Media * list Effect :=
  let m1 := set_dependants m (Set_add dependantId (dependants m)) in
  match track m1 with
  | None => (m1, [initializeLocalTrack (deviceId m1)])
  | Some _ => activate isRoomConnected made m1
  end.

Definition stopUsingTrack (dependantId : string) (m : Media) : Media * list Effect :=
  let m1 := set_dependants m (Set_delete dependantId (dependants m)) in
  if (List.length (dependants m1) =? 0)%nat then
    match consumer m1 with
    | Some _ => (m1, pause m1)
    | None => close m1
    end
  else (m1, []).


(** [n] calls of [activate] in a row, with what the room and
    createProducer answer at each call. *)
Fixpoint activate_all (calls : list (bool * Capability)) (m : Media)
  : Media * list Effect :=
  match calls with
  | [] => (m, [])
  | (isRoomConnected, made) :: rest =>
      let '(m1, e1) := activate isRoomConnected made m in
      let '(m2, e2) := activate_all rest m1 in
      (m2, e1 ++ e2)
  end.

End LegacyMedia.

(** * The legacy Session model ([Room], src/room.js)

    The props of the Room and its peer collection; the media collection
    is a list of [LegacyMedia.Media] handed to the methods that use it. *)
Module LegacyRoom.

Inductive STATE := connecting | preparing | connected | reconnecting | closed.

Definition STATE_eqb (a b : STATE) : bool :=
  match a, b with
  | connecting, connecting | preparing, preparing | connected, connected
  | reconnecting, reconnecting | closed, closed => true
  | _, _ => false
  end.

(** A Peer model, and a peer as a heartbeat reports it: its id and the
    shared props ([appData]). *)
Record Peer := mkPeer {
  peer_id : string;
  displayName : string;
  appData : string
}.

Record Room := mkRoom {
  protoo : bool;                  (* this.protoo has been created *)
  state : STATE;
  peerId : string;
  myPeer : Peer;
  peers : list Peer;
  isHost : bool;
  isVisible : bool;
  intentToJoin : bool;
  eventLog : list string;
  activeSpeaker : option string;
  hasStateMismatch : bool;
  isReconcilingState : bool
}.

Definition set_state (r : Room) (s : STATE) : Room :=
  mkRoom (protoo r) s (peerId r) (myPeer r) (peers r) (isHost r) (isVisible r)
         (intentToJoin r) (eventLog r) (activeSpeaker r)
         (hasStateMismatch r) (isReconcilingState r).

Definition set_intent (r : Room) (visible intent : bool) : Room :=
  mkRoom (protoo r) (state r) (peerId r) (myPeer r) (peers r) (isHost r) visible
         intent (eventLog r) (activeSpeaker r)
         (hasStateMismatch r) (isReconcilingState r).

Definition set_flags (r : Room) (mismatch reconciling : bool) : Room :=
  mkRoom (protoo r) (state r) (peerId r) (myPeer r) (peers r) (isHost r) (isVisible r)
         (intentToJoin r) (eventLog r) (activeSpeaker r) mismatch reconciling.

Definition set_peers (r : Room) (me : Peer) (others : list Peer) : Room :=
  mkRoom (protoo r) (state r) (peerId r) me others (isHost r) (isVisible r)
         (intentToJoin r) (eventLog r) (activeSpeaker r)
         (hasStateMismatch r) (isReconcilingState r).

Definition set_protoo (r : Room) (p : bool) : Room :=
  mkRoom p (state r) (peerId r) (myPeer r) (peers r) (isHost r) (isVisible r)
         (intentToJoin r) (eventLog r) (activeSpeaker r)
         (hasStateMismatch r) (isReconcilingState r).

Definition set_log (r : Room) (log : list string) (speaker : option string) : Room :=
  mkRoom (protoo r) (state r) (peerId r) (myPeer r) (peers r) (isHost r) (isVisible r)
         (intentToJoin r) log speaker (hasStateMismatch r) (isReconcilingState r).

(** An inbound protoo request: the method and the fields of [data] the
    handlers read. *)
Record Request := mkRequest {
  method : string;
  data_name : string;                 (* event, message: data.name *)
  data_peer : string;                 (* event: data.peer; message: data.peerId *)
  data_type : string;                 (* event: data.data.device.type; message: data.type *)
  data_isHighFidelity : bool;         (* event: data.data.device.isHighFidelity *)
  data_id : string;                   (* message: data.data.id *)
  data_payload : string;              (* message: data.data *)
  data_peers : list Peer;             (* heartbeat: data.peers *)
  data_peerName : option string       (* active-speaker: data.peerName *)
}.

(** The retry options [open] gives the WebSocket transport. *)
Definition open_retry : RetryOptions := mkRetry None true 2 100 10000.

Inductive Effect :=
| accept
| reject (code : nat) (reason : string)
| logEvent (name : string) (kind : option string) (local server : list string)
| mediasoupRoom_leave
| mediasoupRoom_join
| mediasoupRoom_receiveNotification
| media_forEach_close                       (* this.media.forEach((x) => x.close()) *)
| media_set_isHighFidelity (peer type : string) (v : bool)
| protoo_close
| open_called (then_join : bool)            (* this.open(), with .then((x) => x.join()) or not *)
| new_WebSocketTransport (retry : RetryOptions)
| status (text : string)
| trigger (event : string)
| redirect
| enableStats
| disableStats
| chat_or_event_message (r : Request).

(** [exit(true)] *)
Definition exit_silent (r : Room) : Room := set_intent r false (intentToJoin r).

(** [close(withIntentToLeave)] *)
Definition close (withIntentToLeave : bool) (r : Room) : Room * list Effect :=
  if STATE_eqb (state r) closed then (r, [])
  else
    let r1 := if withIntentToLeave then exit_silent r else r in
    let r2 := set_intent r1 (isVisible r1) false in
    (set_state r2 closed,
     [logEvent "CloseRoom" None [] []; mediasoupRoom_leave; media_forEach_close]
       ++ (if protoo r then [protoo_close] else [])).

(** [leave(options)] *)
Definition leave (withIntentToRejoin : bool) (r : Room) : Room * list Effect :=
  let r1 := if withIntentToRejoin then r else exit_silent r in
  let r2 := set_intent r1 (isVisible r1) withIntentToRejoin in
  (set_state r2 preparing,
   [logEvent "LeaveRoom" None [] []; media_forEach_close; mediasoupRoom_leave]).

(** [open], up to its first await; [then_join] tells whether the caller
    chained [.then((x) => x.join())]. *)
Definition open (then_join : bool) (r : Room) : Room * list Effect :=
  (set_state r connecting, [open_called then_join]).

(** [open] once the server address is known: the transport and the
    protoo peer are created. *)
Definition open_transport (r : Room) : Room * list Effect :=
  (set_protoo r true, [new_WebSocketTransport open_retry]).

(** [join], up to the call of mediasoupRoom.join *)
Definition join (r : Room) : Room * list Effect :=
  let r1 := set_state r preparing in
  let r2 := set_intent r1 (if isHost r1 then isVisible r1 else true) true in
  (r2, [logEvent "JoinRoom" None [] []; mediasoupRoom_join]).

(** The protoo 'open' listener of [open]; [then_join] as above. *)
Definition on_protoo_open (then_join : bool) (r : Room) : Room * list Effect :=
  let r1 := set_state r connecting in
  if intentToJoin r1 || then_join then
    let '(r2, e) := join r1 in (r2, trigger "status:resolve" :: e)
  else (r1, [trigger "status:resolve"]).

(** The protoo 'disconnected' listener of [open] *)
Definition on_protoo_disconnected (r : Room) : Room * list Effect :=
  let '(r1, e) := leave (STATE_eqb (state r) connected) r in
  (set_state r1 reconnecting,
   e ++ [status "Connection to media server interrupted..."]).

(** The Room when [_onJoin] returns: it is connected, and [remote] is
    its peer collection by then. *)
Definition onJoin_done (remote : list Peer) (r : Room) : Room :=
  set_state (set_peers r (myPeer r) remote) connected.

Definition localPeers (r : Room) : list Peer := myPeer r :: peers r.

(** The two drift flags of a Room. *)
Definition drift_flags (r : Room) : bool * bool :=
  (hasStateMismatch r, isReconcilingState r).

(** peers.forEach: the local peer with the id of [p], if any, takes its
    appData. *)
Definition patch_peer (p : Peer) (locals : list Peer) : list Peer :=
  (fix go (seen : bool) (l : list Peer) : list Peer :=
     match l with
     | [] => []
     | x :: rest =>
         if negb seen && (peer_id x =? peer_id p)
         then mkPeer (peer_id x) (displayName x) (appData p) :: go true rest
         else x :: go seen rest
     end) false locals.

Definition patch_peers (server : list Peer) (r : Room) : Room :=
  match fold_left (fun locals p => patch_peer p locals) server (localPeers r) with
  | me :: others => set_peers r me others
  | [] => r
  end.

(** [_onMessage] *)
Definition onMessage (q : Request) (r : Room) : Room * list Effect :=
  if data_type q =? "chat" then (r, [chat_or_event_message q])
  else if data_type q =? "event" then
    if data_name q =? "kick" then
      if negb (isHost r) && (data_id q =? peer_id (myPeer r)) then
        let '(r1, e) := leave false r in
        (r1, chat_or_event_message q :: e ++ [trigger "kicked"])
      else (r, [chat_or_event_message q])
    else if data_name q =? "peerdata" then
      (set_peers r (myPeer r)
         (map (fun x => if peer_id x =? data_peer q
                        then mkPeer (peer_id x) (displayName x) (data_payload q)
                        else x) (peers r)),
       [chat_or_event_message q])
    else if data_name q =? "disney" then
      (r, chat_or_event_message q :: if isHost r then [] else [redirect])
    else if data_name q =? "enableStats" then
      (r, [chat_or_event_message q; enableStats])
    else if data_name q =? "disableStats" then
      (r, [chat_or_event_message q; disableStats])
    else (r, [chat_or_event_message q; trigger (data_name q)])
  else (r, []).

(** The heartbeat case of [_handleProtooRequest], after [accept()]. *)
Definition heartbeat (q : Request) (r : Room) : Room * list Effect :=
  if negb (STATE_eqb (state r) connected) then (r, [])
  else
    let server := data_peers q in
    let locals := localPeers r in
    let '(r1, e1) :=
      if negb (hasStateMismatch r)
         && negb (List.length server =? List.length locals)%nat
      then (set_flags r true (isReconcilingState r),
            [logEvent "StateException" (Some "PeerMismatch")
                      (map peer_id locals) (map peer_id server)])
      else if hasStateMismatch r
      then (set_flags r false false, [logEvent "StateRecovery" None [] []])
      else (r, []) in
    let '(r2, e2) :=
      if hasStateMismatch r1 && negb (isReconcilingState r1)
      then
        let r' := set_flags r1 (hasStateMismatch r1) true in
        let '(r'', ec) := close false r' in
        let '(r''', eo) := open true r'' in
        (r''', ec ++ eo)
      else (r1, []) in
    (patch_peers server r2, e1 ++ e2).

(** [_handleProtooRequest] *)
Definition handleProtooRequest (q : Request) (r : Room) : Room * list Effect :=
  if method q =? "event" then
    (set_log r (eventLog r ++ [data_name q]) (activeSpeaker r),
     accept ::
     (if (data_name q =? "isHighFidelityChanged")
         || (data_name q =? "ChangeProducerDevice")
      then [media_set_isHighFidelity (data_peer q) (data_type q) (data_isHighFidelity q)]
      else []))
  else if method q =? "heartbeat" then
    let '(r', e) := heartbeat q r in (r', accept :: e)
  else if method q =? "mediasoup-notification" then
    (r, [accept; mediasoupRoom_receiveNotification])
  else if method q =? "active-speaker" then
    (set_log r (eventLog r)
       (match data_peerName q with
        | Some name =>
            if name =? peerId r then Some "Self"
            else if truthy name then
              option_map displayName
                         (find (fun x => peer_id x =? name) (peers r))
            else None
        | None => None
        end),
     [accept])
  else if method q =? "message" then
    let '(r', e) := onMessage q r in (r', accept :: e)
  else
    (r, [reject 404 "unknown method"]).

Definition recognized_methods : list string :=
  ["event"; "heartbeat"; "mediasoup-notification"; "active-speaker"; "message"].

Definition is_answer (e : Effect) : bool :=
  match e with accept | reject _ _ => true | _ => false end.

(** ** The media collection: [getMatchingMedia] and [addMedia] *)

(** What [addMedia] is given: { type, deviceId, track } *)
Record MediaProps := mkProps {
  props_type : string;
  props_deviceId : option string;
  props_track : option Track
}.

(** [isAcceptableMedia(values)]: whereEq(pickBy(Boolean, values)); a
    falsy value is not compared. *)
Definition isAcceptableMedia (type : string) (deviceId : option string)
           (peerId : string) (m : LegacyMedia.Media) : bool :=
  (if truthy type then LegacyMedia.type m =? type else true)
  && (if truthy_opt deviceId
      then match LegacyMedia.deviceId m, deviceId with
           | Some a, Some b => a =? b
           | _, _ => false
           end
      else true)
  && (if truthy peerId then LegacyMedia.peerId m =? peerId else true).

Definition getMatchingMedia (type : string) (deviceId : option string)
           (peerId : string) (media : list LegacyMedia.Media)
  : option LegacyMedia.Media :=
  find (isAcceptableMedia type deviceId peerId) media.

(** The Media [new Media({...props, peerId, id, ...})] builds. *)
Definition new_Media (id : string) (peerId : string) (props : MediaProps)
  : LegacyMedia.Media :=
  LegacyMedia.mkMedia id LegacyMedia.preparing peerId (props_type props)
                      (props_deviceId props) (props_track props) None None
                      false false [].

(** The existing Media of [addMedia]: its track is updated when a live
    one is given, then it is activated. *)
Definition update_existing (isRoomConnected : bool) (made : LegacyMedia.Capability)
           (props : MediaProps) (existing : LegacyMedia.Media)
  : LegacyMedia.Media * list LegacyMedia.Effect :=
  let '(m1, e1) :=
    match props_track props with
    | Some t =>
        if track_live t
        then LegacyMedia.updateTrack isRoomConnected made (Some t) existing
        else (existing, [])
    | None => (existing, [])
    end in
  let '(m2, e2) := LegacyMedia.activate isRoomConnected made m1 in
  (m2, e1 ++ e2).

(** Replace in place the first Media [getMatchingMedia] finds. *)
Fixpoint update_first (f : LegacyMedia.Media -> bool)
         (g : LegacyMedia.Media -> LegacyMedia.Media)
         (media : list LegacyMedia.Media) : list LegacyMedia.Media :=
  match media with
  | [] => []
  | x :: rest => if f x then g x :: rest else x :: update_first f g rest
  end.

(** [addMedia(props)]: the media collection afterwards and the effects,
    or the error it throws. [fresh] is what randomstring.generate()
    returns. *)
Definition addMedia (r : Room) (fresh : string) (made : LegacyMedia.Capability)
           (props : MediaProps) (media : list LegacyMedia.Media)
  : (list LegacyMedia.Media * list LegacyMedia.Effect) + string :=
  let peerId := peer_id (myPeer r) in
  let isRoomConnected := STATE_eqb (state r) connected in
  if negb (truthy (props_type props))
  then inr "Cannot add a media without a type"
  else
    match getMatchingMedia (props_type props) (props_deviceId props) peerId media with
    | Some existing =>
        inl (update_first
               (isAcceptableMedia (props_type props) (props_deviceId props) peerId)
               (fun x => fst (update_existing isRoomConnected made props x))
               media,
             snd (update_existing isRoomConnected made props existing))
    | None =>
        inl (media ++ [new_Media fresh peerId props], [LegacyMedia.triggerUpdate])
    end.

(** The (type, deviceId, peerId) triple of a Media, and the triples of
    the media of one peer. *)
Definition triple (m : LegacyMedia.Media) : string * option string * string :=
  (LegacyMedia.type m, LegacyMedia.deviceId m, LegacyMedia.peerId m).


(** A sequence of [addMedia] calls; a call that throws leaves the
    collection as it was. *)
Fixpoint addMedia_all (r : Room)
         (calls : list (string * LegacyMedia.Capability * MediaProps))
         (media : list LegacyMedia.Media) : list LegacyMedia.Media :=
  match calls with
  | [] => media
  | (fresh, made, props) :: rest =>
      match addMedia r fresh made props media with
      | inl (media', _) => addMedia_all r rest media'
      | inr _ => addMedia_all r rest media
      end
  end.

(** ** Runs of the Room *)

(** The methods and listeners of the Room modelled above. *)
Inductive Call :=
| call_handleProtooRequest (q : Request)
| call_close (withIntentToLeave : bool)
| call_leave (withIntentToRejoin : bool)
| call_open
| call_open_transport
| call_join
| call_on_protoo_open (then_join : bool)
| call_on_protoo_disconnected
| call_onJoin_done (remote : list Peer).

Definition perform (c : Call) (r : Room) : Room * list Effect :=
  match c with
  | call_handleProtooRequest q => handleProtooRequest q r
  | call_close b => close b r
  | call_leave b => leave b r
  | call_open => open false r
  | call_open_transport => open_transport r
  | call_join => join r
  | call_on_protoo_open b => on_protoo_open b r
  | call_on_protoo_disconnected => on_protoo_disconnected r
  | call_onJoin_done remote => (onJoin_done remote r, [])
  end.

Fixpoint run (cs : list Call) (r : Room) : Room * list Effect :=
  match cs with
  | [] => (r, [])
  | c :: rest =>
      let '(r1, e1) := perform c r in
      let '(r2, e2) := run rest r1 in
      (r2, e1 ++ e2)
  end.

(** Forced reconnect-and-rejoin cycles and logged peer mismatches in a
    trace. *)
Definition is_reconnect (e : Effect) : bool :=
  match e with open_called true => true | _ => false end.

Definition is_PeerMismatch (e : Effect) : bool :=
  match e with
  | logEvent name (Some kind) _ _ => (name =? "StateException") && (kind =? "PeerMismatch")
  | _ => false
  end.

Definition reconnects (es : list Effect) : nat := List.length (filter is_reconnect es).
Definition mismatches (es : list Effect) : nat := List.length (filter is_PeerMismatch es).

(** A reconciliation is only in flight for a flagged mismatch. *)
Definition settled (r : Room) : Prop :=
  isReconcilingState r = true -> hasStateMismatch r = true.

Definition heartbeat_of (server : list Peer) : Request :=
  mkRequest "heartbeat" "" "" "" false "" "" server None.

End LegacyRoom.

(** * The peers of the legacy Room ([_handlePeer], src/room.js) *)
Module LegacyPeers.

(** A Peer model (src/peer.js): its id and the shared props
    [_handlePeer] and its listeners read. *)
Record Peer := mkPeer {
  id : string;
  isHost : bool;
  isUser : bool;
  isVisible : bool;
  displayName : string
}.

Record Room := mkRoom {
  maxGuests : nat;
  myPeer : Peer;
  peers : list Peer;
  joined : bool                 (* this.mediasoupRoom.joined *)
}.

Definition set_peers (r : Room) (l : list Peer) : Room :=
  mkRoom (maxGuests r) (myPeer r) l (joined r).

(** (x) => !x.isHost && x.isUser *)
Definition is_guest (x : Peer) : bool := negb (isHost x) && isUser x.

(** [...this.peers.models, this.myPeer].filter(...).length *)
Definition guestPeers (r : Room) : nat :=
  List.length (filter is_guest (peers r ++ [myPeer r])).

(** Collection.add and Collection.remove: a collection holds one model
    per id; adding an id it holds already changes nothing. *)
Definition Collection_add (p : Peer) (l : list Peer) : list Peer :=
  if existsb (fun x => id x =? id p) l then l else l ++ [p].

Definition Collection_remove (p : Peer) (l : list Peer) : list Peer :=
  filter (fun x => negb (id x =? id p)) l.

Inductive Effect :=
| sendEvent_kick (peer : string)
| notifyJoin (name : string)
| notifyLeave (name : string).

(** [_handlePeer(peer)], up to the consumers of the peer; it returns
    true when the room is full and the peer is ignored. *)
Definition handlePeer (peer : Peer) (r : Room) : bool * Room :=
  if isUser (myPeer r) && isUser peer && negb (isHost peer)
     && (maxGuests r <=? guestPeers r)%nat
  then (true, r)
  else (false, set_peers r (Collection_add peer (peers r))).

(** The 'newpeer' listener of [join] *)
Definition on_newpeer (peer : Peer) (r : Room) : Room * list Effect :=
  let '(rejected, r') := handlePeer peer r in
  if rejected then (r', [sendEvent_kick (id peer)])
  else if isVisible peer && isUser peer then (r', [notifyJoin (displayName peer)])
  else (r', []).

(** The 'close' listener [_handlePeer] puts on the peer *)
Definition on_peer_close (model : Peer) (r : Room) : Room * list Effect :=
  (set_peers r (Collection_remove model (peers r)),
   if joined r && isUser model && isVisible model
   then [notifyLeave (displayName model)] else []).

(** What happens to the roster: a peer arrives while the Room is
    joined, a peer was there when the Room joined ([_onJoin] ignores
    what [_handlePeer] returns), a peer closes. *)
Inductive Call := newpeer (p : Peer) | present_at_join (p : Peer) | peer_close (p : Peer).

Definition perform (r : Room) (c : Call) : Room :=
  match c with
  | newpeer p => fst (on_newpeer p r)
  | present_at_join p => snd (handlePeer p r)
  | peer_close p => fst (on_peer_close p r)
  end.

Definition run (calls : list Call) (r : Room) : Room := fold_left perform calls r.

End LegacyPeers.

(** * The watchers of a Session ([startRoom], src/webrtc.ts) *)
Module Watchers.

Import MediaMachine.

Definition Kind_eqb (a b : Kind) : bool :=
  match a, b with audio, audio | video, video => true | _, _ => false end.

(** [MediaWatchOptions], with 'any' for what is not asked for. *)
Record MediaWatchOptions := mkOptions {
  w_deviceId : string;
  w_kind : Kind;
  w_type : string;
  w_peerId : string
}.

Definition mediaMatchesWatchOptions (media : Media) (o : MediaWatchOptions) : bool :=
  if negb (Kind_eqb (w_kind o) (kind media)) then false
  else if negb (w_type o =? "any") && negb (w_type o =? type media) then false
  else if negb (w_deviceId o =? "any") && negb (opt_eqb (deviceId media) (w_deviceId o))
  then false
  else if negb (w_peerId o =? "any") && negb (opt_eqb (peerId media) (w_peerId o))
  then false
  else true.

Record WatcherSettings := mkWatcher {
  options : MediaWatchOptions;
  active_media : option Media          (* settings.active *)
}.

(** [MediaAvailability] *)
Definition MediaAvailability := list (Media * bool).

(** [getActiveMediaForWatcher]: the settings afterwards (it writes
    settings.active) and what it returns. *)
Definition getActiveMediaForWatcher (mediaList : MediaAvailability)
           (settings : WatcherSettings) : WatcherSettings * option Media :=
  let stillActive :=
    match active_media settings with
    | Some a => existsb (fun x => (id (fst x) =? id a) && snd x) mediaList
    | None => false
    end in
  if stillActive then (settings, None)
  else
    let nowActive :=
      find (fun x => snd x && mediaMatchesWatchOptions (fst x) (options settings))
           mediaList in
    (mkWatcher (options settings) (option_map fst nowActive), option_map fst nowActive).

(** The Map of watchers, keyed by callback; a callback is named. *)
Definition WatcherMap := list (string * WatcherSettings).

Fixpoint Map_set (cb : string) (s : WatcherSettings) (m : WatcherMap) : WatcherMap :=
  match m with
  | [] => [(cb, s)]
  | (k, v) :: rest => if k =? cb then (cb, s) :: rest else (k, v) :: Map_set cb s rest
  end.

Definition Map_delete (cb : string) (m : WatcherMap) : WatcherMap :=
  filter (fun kv => negb (fst kv =? cb)) m.

(** [onMediaChange] for a given media list: the watchers afterwards and
    the callbacks made, in order, each with the Media it is given. *)
Fixpoint onMediaChange (mediaList : MediaAvailability) (watchers : WatcherMap)
  : WatcherMap * list (string * Media) :=
  match watchers with
  | [] => ([], [])
  | (cb, settings) :: rest =>
      let '(settings', nowActive) := getActiveMediaForWatcher mediaList settings in
      let '(rest', called) := onMediaChange mediaList rest in
      ((cb, settings') :: rest',
       match nowActive with Some m => (cb, m) :: called | None => called end)
  end.

(** state.matches('active.live') of a Media machine *)
Definition is_live (s : State) : bool :=
  match s with active (live _) => true | _ => false end.

(** [getMediaList], given the machines spawned for the media of the
    Session, in the order of the list. *)
Definition getMediaList (actors : list Running) : MediaAvailability :=
  map (fun a => (context a, is_live (state a))) actors.

(** [watch(options, cb)]: the options over the defaults are [o]; the
    callback is called at once, with a Media or with undefined. *)
Definition watch (o : MediaWatchOptions) (cb : string) (mediaList : MediaAvailability)
           (watchers : WatcherMap) : WatcherMap * (string * option Media) :=
  let '(settings, nowActive) :=
    getActiveMediaForWatcher mediaList (mkWatcher o None) in
  (Map_set cb settings watchers, (cb, nowActive)).

(** The function [watch] returns. *)
Definition unwatch (cb : string) (watchers : WatcherMap) : WatcherMap :=
  Map_delete cb watchers.

End Watchers.

(** * The device watchers ([watchDevices], src/webrtc.ts) *)
Module Devices.

(** The Set of callbacks, and whether reportDevices is registered as
    the 'devicechange' listener of navigator.mediaDevices. *)
Record State := mkState {
  deviceWatchers : list string;
  listening : bool
}.

Inductive Effect :=
| addEventListener_devicechange
| removeEventListener_devicechange
| reportDevices.

Definition Set_add (x : string) (s : list string) : list string :=
  if existsb (String.eqb x) s then s else s ++ [x].
Definition Set_delete (x : string) (s : list string) : list string :=
  filter (fun y => negb (y =? x)) s.

Definition size (s : list string) : nat := List.length s.

(** [watchDevices(cb)] *)
Definition watchDevices (cb : string) (s : State) : State * list Effect :=
  let first := (size (deviceWatchers s) =? 0)%nat in
  (mkState (Set_add cb (deviceWatchers s)) (if first then true else listening s),
   (if first then [addEventListener_devicechange] else []) ++ [reportDevices]).

(** The function [watchDevices] returns, for the callback [cb]. *)
Definition unwatch (cb : string) (s : State) : State * list Effect :=
  let rest := Set_delete cb (deviceWatchers s) in
  let last := (size rest =? 0)%nat in
  (mkState rest (if last then false else listening s),
   if last then [removeEventListener_devicechange] else []).

Inductive Call := call_watchDevices (cb : string) | call_unwatch (cb : string).

Definition perform (s : State) (c : Call) : State :=
  match c with
  | call_watchDevices cb => fst (watchDevices cb s)
  | call_unwatch cb => fst (unwatch cb s)
  end.

Definition run (calls : list Call) (s : State) : State := fold_left perform calls s.

(** Module load: const deviceWatchers = new Set() *)
Definition initial : State := mkState [] false.

End Devices.

(** * Sample data

    Concrete tracks, media and rooms on which the properties below are
    exercised. *)
Module Examples.

Definition webcam_a : Track := mkTrack "track-a" true.
Definition webcam_b : Track := mkTrack "track-b" true.
Definition webcam_0 : Track := mkTrack "track-0" true.

Definition a_producer : MediaMachine.Capability :=
  MediaMachine.mkCap "producer-1" video false false.

Definition a_media : MediaMachine.Media :=
  MediaMachine.mkMedia "producer-1" video "webcam" "Front camera" (Some webcam_0)
                       None (Some a_producer) (Some "cam-1") (Some "me")
                       (Some "producer-1").

(** A room as [startRoom] configures it, and a server that answers
    every request. *)
Definition a_device : RoomMachine.Device :=
  RoomMachine.mkDevice true true
    [RoomMachine.mkCodec "audio/opus" audio; RoomMachine.mkCodec "video/vp8" video].

Definition a_config : RoomMachine.Context :=
  RoomMachine.mkContext "room-1" "wss://media.example:3443/?room-id=room-1&peer-id=me"
    "me" "" "chrome" [] [] None None None None
    (RoomMachine.mkSettings true true false false false false) true.

Definition peer_x : RoomMachine.Peer := RoomMachine.mkPeer "peer-x" "" "firefox".

Definition microphone_track : Track := mkTrack "mic-track" true.

(** [a_server n]: the producer it creates is named after [n]. *)
Definition a_server (producerId : string) : RoomMachine.Environment :=
  RoomMachine.mkEnvironment
    (fun _ => None)
    (fun _ _ => inl (Some microphone_track))
    (fun _ => inl (MediaMachine.mkCap producerId audio false false))
    (fun q => inl (MediaMachine.mkCap (RoomMachine.req_id q) (RoomMachine.req_kind q)
                                      false false,
                   mkTrack "remote-track" true))
    (fun producing => if producing then "send-transport" else "recv-transport")
    [peer_x].

(** Connect, wait for the socket, join. *)
Definition joined_room : RoomMachine.Running :=
  fold_left (RoomMachine.dispatch (a_server "producer-1"))
            [RoomMachine.CONNECT;
             RoomMachine.SOCKET_CONNECTED "protoo" a_device;
             RoomMachine.JOIN]
            (RoomMachine.mkRunning a_config RoomMachine.Waiting [] []).

Definition a_microphone : RoomMachine.MediaDefinition :=
  RoomMachine.mkDefinition "microphone" (Some "mic-1") "Built-in microphone" None.

(** An inbound request the handlers have no case for. *)
Definition an_unknown_request : RoomMachine.IncomingRequest :=
  RoomMachine.mkRequest "getStats" "peer-x" "" "" audio "" None "".

Definition an_unknown_notification : RoomMachine.Notification :=
  RoomMachine.mkNotification "activeSpeaker" "" "" "" "peer-x" "".

(** A Media with an open consumer and a closed producer. *)
Definition a_two_sided_media : MediaMachine.Media :=
  MediaMachine.mkMedia "m-2" audio "microphone" "" (Some microphone_track)
    (Some (MediaMachine.mkCap "consumer-2" audio true false))
    (Some (MediaMachine.mkCap "producer-2" audio true true))
    None (Some "peer-x") (Some "m-2").

(** A consumed Media whose consumer has been closed. *)
Definition a_closed_media : MediaMachine.Media :=
  MediaMachine.mkMedia "m-3" audio "microphone" "" (Some microphone_track)
    (Some (MediaMachine.mkCap "consumer-3" audio true true)) None
    None (Some "peer-x") (Some "m-3").

(** Legacy media: a consumed feed that is paused and that nothing
    depends on, and a microphone somebody listens to. *)
Definition a_consumer : LegacyMedia.Capability :=
  LegacyMedia.mkCap "consumer-9" false true false.

Definition a_paused_feed : LegacyMedia.Media :=
  LegacyMedia.mkMedia "consumer-9" LegacyMedia.paused "peer-x" "webcam" (Some "cam-x")
                      None (Some a_consumer) None true false [].


Definition a_new_producer : LegacyMedia.Capability :=
  LegacyMedia.mkCap "producer-7" false false false.

Definition a_live_microphone : LegacyMedia.Media :=
  LegacyMedia.mkMedia "m-7" LegacyMedia.active "me" "microphone" (Some "mic-1")
                      (Some microphone_track) None (Some a_new_producer)
                      false false ["meter-1"].

Definition an_idle_microphone : LegacyMedia.Media :=
  LegacyMedia.mkMedia "m-6" LegacyMedia.preparing "me" "microphone" (Some "mic-1")
                      None None None false false [].

(** A legacy room that has joined, with one remote peer. *)
Definition me : LegacyRoom.Peer := LegacyRoom.mkPeer "me" "Guest" "".
Definition alice : LegacyRoom.Peer := LegacyRoom.mkPeer "alice" "Alice" "".
Definition bob : LegacyRoom.Peer := LegacyRoom.mkPeer "bob" "Bob" "".

Definition a_new_room : LegacyRoom.Room :=
  LegacyRoom.mkRoom false LegacyRoom.closed "me" me [] false false false [] None
                    false false.

Definition a_joined_room : LegacyRoom.Room :=
  fst (LegacyRoom.run [LegacyRoom.call_open;
                       LegacyRoom.call_open_transport;
                       LegacyRoom.call_on_protoo_open false;
                       LegacyRoom.call_join;
                       LegacyRoom.call_onJoin_done [alice]]
                      a_new_room).

Definition an_unknown_method : LegacyRoom.Request :=
  LegacyRoom.mkRequest "getStats" "" "" "" false "" "" [] None.

(** Two requests to add the same microphone. *)
Definition the_microphone : LegacyRoom.MediaProps :=
  LegacyRoom.mkProps "microphone" (Some "mic-1") None.

Definition the_microphone_live : LegacyRoom.MediaProps :=
  LegacyRoom.mkProps "microphone" (Some "mic-1") (Some microphone_track).

(** The server asks the client to consume the webcam of peer-x. *)
Definition a_newConsumer_request : RoomMachine.IncomingRequest :=
  RoomMachine.mkRequest "newConsumer" "peer-x" "producer-x" "consumer-1" video
                        "webcam" (Some "cam-x") "".

(** A server like [a_server] on which consuming fails. *)
Definition a_failing_server : RoomMachine.Environment :=
  RoomMachine.mkEnvironment
    (fun _ => None)
    (fun _ _ => inl (Some microphone_track))
    (fun _ => inl (MediaMachine.mkCap "producer-1" audio false false))
    (fun _ => inr "cannot consume")
    (fun producing => if producing then "send-transport" else "recv-transport")
    [peer_x].

(** A Session that is connected and has not joined. *)
Definition connected_room : RoomMachine.Running :=
  RoomMachine.dispatch_all (a_server "producer-1")
    [RoomMachine.CONNECT; RoomMachine.SOCKET_CONNECTED "protoo" a_device]
    (RoomMachine.boot a_config).

(** A server that accepts everything but the join request. *)
Definition a_full_room : RoomMachine.Environment :=
  RoomMachine.mkEnvironment
    (fun method => if method =? "join" then Some "room is full" else None)
    (fun _ _ => inl (Some microphone_track))
    (fun _ => inl (MediaMachine.mkCap "producer-1" audio false false))
    (fun _ => inr "cannot consume")
    (fun producing => if producing then "send-transport" else "recv-transport")
    [peer_x].

(** A Session that only watches: settings.produce is false. *)
Definition a_viewer_config : RoomMachine.Context :=
  RoomMachine.mkContext "room-1" "wss://media.example:3443/?room-id=room-1&peer-id=me"
    "me" "" "chrome" [] [] (Some "protoo") None None (Some a_device)
    (RoomMachine.mkSettings false true false false false false) true.

(** A server that rejects every request. *)
Definition a_deaf_server : RoomMachine.Environment :=
  RoomMachine.mkEnvironment
    (fun _ => Some "request timeout")
    (fun _ _ => inl (Some microphone_track))
    (fun _ => inl (MediaMachine.mkCap "producer-1" audio false false))
    (fun _ => inr "cannot consume")
    (fun producing => if producing then "send-transport" else "recv-transport")
    [peer_x].

(** A consumed Media whose consumer is open. *)
Definition a_remote_media : MediaMachine.Media :=
  MediaMachine.mkMedia "m-4" video "webcam" "" (Some (mkTrack "remote-track" true))
    (Some (MediaMachine.mkCap "m-4" video false false)) None
    (Some "cam-x") (Some "peer-x") (Some "m-4").

Definition a_room_with (l : list MediaMachine.Media) : RoomMachine.Context :=
  RoomMachine.set_peers_media (RoomMachine.context joined_room) [peer_x] l.

Definition peer_y : RoomMachine.Peer := RoomMachine.mkPeer "peer-y" "" "safari".

Definition peer_y_closed : RoomMachine.Notification :=
  RoomMachine.mkNotification "peerClosed" "" "" "" "peer-y" "".

(** A legacy room of two guests with room for three. *)
Definition guest (name : string) : LegacyPeers.Peer :=
  LegacyPeers.mkPeer name false true true name.

Definition a_small_room : LegacyPeers.Room :=
  LegacyPeers.mkRoom 3 (guest "me") [guest "alice"] true.

(** A watcher of any webcam, and one that holds [a_media]. *)
Definition any_webcam : Watchers.MediaWatchOptions :=
  Watchers.mkOptions "any" video "webcam" "any".

Definition a_watcher : Watchers.WatcherSettings :=
  Watchers.mkWatcher any_webcam (Some a_media).

(** A Session whose channel is being re-established. *)
Definition reconnecting_room : RoomMachine.Running :=
  RoomMachine.dispatch (a_server "producer-1") joined_room
                       RoomMachine.SOCKET_DISCONNECTED.

Definition a_score : RoomMachine.Notification :=
  RoomMachine.mkNotification "consumerScore" "" "" "" "" "consumer-1".

End Examples.

(** * Properties of the Media machine *)
Module MediaMachineProps.

Import MediaMachine.
Import Examples.

Lemma SWITCH_leaves_active (c : Media) (sub : ActiveState) (next : Track) :
  transition c (active sub) (SWITCH next)
  = (c, switching, exit_active c ++ [start_switch next]).
Proof. reflexivity. Qed.

Lemma SWITCH_ignored_elsewhere (c : Media) (st : State) (next : Track) :
  is_active st = false -> transition c st (SWITCH next) = (c, st, []).
Proof. destruct st; simpl; intros H; [discriminate | reflexivity | reflexivity]. Qed.

Lemma switch_requests_app (a b : list Action) :
  switch_requests (a ++ b) = switch_requests a ++ switch_requests b.
Proof.
  induction a as [|x a IH]; simpl; [reflexivity|].
  destruct x; simpl; rewrite ?IH; reflexivity.
Qed.

Lemma switch_requests_exit (c : Media) : switch_requests (exit_active c) = [].
Proof. reflexivity. Qed.

(** One SWITCH on a producing Media in [active], with replaceTrack
    resolving or not. *)
Lemma send_SWITCH (resolves : bool) (c : Media) (sub : ActiveState)
      (p : Capability) (acts : list Action) (made : list CapabilityCall)
      (next : Track) :
  producer c = Some p ->
  send resolves (mkRunning c (active sub) acts made) (SWITCH next)
  = if resolves
    then mkRunning (set_track c (Some next))
                   (fst (enter_active (set_track c (Some next))))
                   ((acts ++ exit_active c ++ [start_switch next])
                      ++ snd (enter_active (set_track c (Some next))))
                   (made ++ [replaceTrack (cap_id p) next])
    else mkRunning c stopped
                   ((acts ++ exit_active c ++ [start_switch next])
                      ++ snd (enter_stopped c))
                   (made ++ [replaceTrack (cap_id p) next]).
Proof.
  intros Hp. unfold send. cbn [context state actions calls].
  rewrite SWITCH_leaves_active.
  rewrite switch_requests_app, switch_requests_exit. simpl.
  unfold switch. rewrite Hp. destruct resolves; reflexivity.
Qed.

Lemma enter_active_is_active (c : Media) : is_active (fst (enter_active c)) = true.
Proof. reflexivity. Qed.

(** C5. From [active] with a producer, SWITCH(trackA) and, once it has
    settled, SWITCH(trackB) leave the bound track [trackB] and the machine
    in [active], each switch calling replaceTrack exactly once. SWITCH
    is taken from [active] only, where it moves to [switching]; when
    replaceTrack resolves the track is reassigned and the machine is
    back in [active], when it rejects the machine is [stopped]. *)
Theorem switch_round_trip
        (c : Media) (sub : ActiveState) (p : Capability)
        (acts : list Action) (trackA trackB : Track) :
  producer c = Some p ->
  let r0 := mkRunning c (active sub) acts [] in
  let r1 := send true r0 (SWITCH trackA) in
  let r2 := send true r1 (SWITCH trackB) in
  (track (context r2) = Some trackB /\ is_active (state r2) = true)
  /\ calls r1 = [replaceTrack (cap_id p) trackA]
  /\ calls r2 = [replaceTrack (cap_id p) trackA; replaceTrack (cap_id p) trackB]
  /\ (forall c' st next, is_active st = false ->
                         transition c' st (SWITCH next) = (c', st, []))
  /\ (forall c' s next, snd (fst (transition c' (active s) (SWITCH next))) = switching)
  /\ (track (context r1) = Some trackA /\ is_active (state r1) = true)
  /\ state (send false r0 (SWITCH trackA)) = stopped
  /\ state (send false r1 (SWITCH trackB)) = stopped.
Proof.
  intros Hp r0 r1 r2.
  assert (H1 : r1 = mkRunning (set_track c (Some trackA))
                              (fst (enter_active (set_track c (Some trackA))))
                              ((acts ++ exit_active c ++ [start_switch trackA])
                                 ++ snd (enter_active (set_track c (Some trackA))))
                              ([] ++ [replaceTrack (cap_id p) trackA])).
  { unfold r1, r0. rewrite (send_SWITCH true c sub p acts [] trackA Hp). reflexivity. }
  assert (Hp1 : producer (set_track c (Some trackA)) = Some p) by exact Hp.
  assert (Hst : exists s1, fst (enter_active (set_track c (Some trackA))) = active s1)
    by (eexists; reflexivity).
  destruct Hst as [s1 Hs1].
  assert (H2 : forall b, send b r1 (SWITCH trackB)
                         = send b (mkRunning (set_track c (Some trackA)) (active s1)
                                    ((acts ++ exit_active c ++ [start_switch trackA])
                                       ++ snd (enter_active (set_track c (Some trackA))))
                                    ([] ++ [replaceTrack (cap_id p) trackA]))
                                (SWITCH trackB)).
  { intros b. rewrite H1, Hs1. reflexivity. }
  repeat split.
  - unfold r2. rewrite H2, (send_SWITCH true _ s1 _ _ _ trackB Hp1). reflexivity.
  - unfold r2. rewrite H2, (send_SWITCH true _ s1 _ _ _ trackB Hp1). reflexivity.
  - rewrite H1. reflexivity.
  - unfold r2. rewrite H2, (send_SWITCH true _ s1 _ _ _ trackB Hp1). reflexivity.
  - intros c' st next. apply SWITCH_ignored_elsewhere.
  - rewrite H1. reflexivity.
  - rewrite H1. reflexivity.
  - unfold r0. rewrite (send_SWITCH false c sub p acts [] trackA Hp). reflexivity.
  - rewrite H2, (send_SWITCH false _ s1 _ _ _ trackB Hp1). reflexivity.
Qed.

Lemma switch_round_trip_witness :
  producer a_media = Some a_producer
  /\ track (context (send true (send true (start a_media) (SWITCH webcam_a))
                          (SWITCH webcam_b))) = Some webcam_b.
Proof.
  split; [reflexivity|].
  exact (proj1 (proj1 (switch_round_trip a_media (live healthy) a_producer
                         (snd (enter_active a_media)) webcam_a webcam_b
                         eq_refl))).
Defined.

(** A consuming Media has no producer: the [switch] service rejects
    without calling the capability, and the machine stops. *)
Lemma switch_without_producer (resolves : bool) (c : Media) (sub : ActiveState)
      (acts : list Action) (made : list CapabilityCall) (next : Track) :
  producer c = None ->
  let r := send resolves (mkRunning c (active sub) acts made) (SWITCH next) in
  state r = stopped /\ calls r = made.
Proof.
  intros Hp. unfold send. cbn [context state actions calls].
  rewrite SWITCH_leaves_active.
  rewrite switch_requests_app, switch_requests_exit. simpl.
  unfold switch. rewrite Hp. simpl. split; [reflexivity|].
  apply app_nil_r.
Qed.

(** PAUSED then RESUMED, whoever caused them, is back in [live]. *)
Lemma PAUSED_then_RESUMED (c : Media) (h : Health) :
  let '(c1, s1, _) := transition c (active (live h)) PAUSED in
  let '(c2, s2, _) := transition c1 s1 RESUMED in
  s1 = active paused /\ s2 = active (live healthy) /\ c2 = c.
Proof. simpl. repeat split. Qed.

End MediaMachineProps.

(** * Properties of the Session machine *)
Module RoomMachineProps.

Import MediaMachine.
Import RoomMachine.
Import Examples.

Ltac run_dispatch :=
  unfold dispatch; cbn [RoomMachine.context RoomMachine.state actions effects];
  cbn [transition on_connected goto exit_connected exit_substate enter_substate
       enter_connected fst snd app map flat_map run_service fold_left].

Lemma filter_out_then_in {A} (f : A -> bool) (l : list A) :
  filter f (filter (fun x => negb (f x)) l) = [].
Proof.
  induction l as [|x l IH]; simpl; [reflexivity|].
  destruct (f x) eqn:E; simpl; [exact IH|]. rewrite E. exact IH.
Qed.

(** C1, as the machine does it. From [joined], SOCKET.DISCONNECTED
    leads to [reconnecting] and the next SOCKET.CONNECTED to
    [connected.waiting], the initial state of [connected]; the context,
    roster and media list included, is the one the Session had; no
    service is asked to join ([performJoin] is not started, no request
    is sent). *)
Theorem reconnect_keeps_roster_and_media
        (env : Environment) (c : Context) (acts : list Action)
        (effs : list ServiceEffect) (p : string) (d : Device) :
  let r0 := mkRunning c (Active (Connected Joined)) acts effs in
  let r1 := dispatch env r0 SOCKET_DISCONNECTED in
  let r2 := dispatch env r1 (SOCKET_CONNECTED p d) in
  RoomMachine.state r1 = Active Reconnecting
  /\ RoomMachine.state r2 = Active (Connected CWaiting)
  /\ RoomMachine.context r1 = c
  /\ RoomMachine.context r2 = c
  /\ peers (RoomMachine.context r2) = peers c
  /\ media (RoomMachine.context r2) = media c
  /\ actions r2 = acts ++ [stop CommandHandler; stop RequestHandler;
                           stop NotificationHandler; start RequestHandler;
                           start NotificationHandler]
  /\ effects r2 = effs
  /\ count_requests "join" (effects r2) = count_requests "join" effs.
Proof.
  intros r0 r1 r2.
  assert (H1 : r1 = mkRunning c (Active Reconnecting)
                              (acts ++ [stop CommandHandler; stop RequestHandler;
                                        stop NotificationHandler])
                              effs).
  { unfold r1, r0. run_dispatch. rewrite app_nil_r. reflexivity. }
  assert (H2 : r2 = mkRunning c (Active (Connected CWaiting))
                              (acts ++ [stop CommandHandler; stop RequestHandler;
                                        stop NotificationHandler; start RequestHandler;
                                        start NotificationHandler])
                              effs).
  { unfold r2. rewrite H1. run_dispatch. rewrite app_nil_r, <- app_assoc. reflexivity. }
  rewrite H1, H2. cbn [RoomMachine.context RoomMachine.state actions effects].
  repeat split.
Qed.

(** The room of the scenario is in [joined], with the roster the server
    answered and one join request made. *)
Lemma joined_room_is_joined :
  RoomMachine.state joined_room = Active (Connected Joined)
  /\ peers (RoomMachine.context joined_room)
     = [peer_x; mkPeer "me" "" "chrome"]
  /\ count_requests "join" (effects joined_room) = 1.
Proof. vm_compute. repeat split. Qed.

(** C1 as stated fails: after the blip the Session is not in [joined]. *)
Lemma reconnect_does_not_end_joined :
  RoomMachine.state
    (dispatch (a_server "producer-1")
              (dispatch (a_server "producer-1") joined_room SOCKET_DISCONNECTED)
              (SOCKET_CONNECTED "protoo" a_device))
  <> Active (Connected Joined).
Proof. vm_compute. discriminate. Qed.

(** C9. In any substate of [connected], MEDIA.CLOSED(mediaId) keeps the
    state, removes from the media list exactly the entries with that
    id, keeps every other entry as it is and in order, keeps the roster
    and the rest of the context, and stops no actor: the stop action
    looks the id up in the list the assign action has already
    filtered. *)
Theorem MEDIA_CLOSED_removes_only_that_media
        (c : Context) (sub : ConnectedState) (mediaId : string) :
  let c' := fst (fst (transition c (Active (Connected sub)) (MEDIA_CLOSED mediaId))) in
  let st' := snd (fst (transition c (Active (Connected sub)) (MEDIA_CLOSED mediaId))) in
  let acts := snd (transition c (Active (Connected sub)) (MEDIA_CLOSED mediaId)) in
  st' = Active (Connected sub)
  /\ media c' = filter (fun x => negb (id x =? mediaId)) (media c)
  /\ (forall x, In x (media c') <-> In x (media c) /\ id x <> mediaId)
  /\ peers c' = peers c
  /\ c' = set_peers_media c (peers c) (media c')
  /\ acts = [].
Proof.
  assert (E : transition c (Active (Connected sub)) (MEDIA_CLOSED mediaId)
              = on_connected c sub (MEDIA_CLOSED mediaId))
    by (destruct sub; reflexivity).
  rewrite E. cbn [on_connected fst snd media peers set_peers_media].
  split; [reflexivity|]. split; [reflexivity|]. split.
  { intros x. rewrite filter_In, negb_true_iff, String.eqb_neq. tauto. }
  split; [reflexivity|]. split; [reflexivity|].
  rewrite (filter_out_then_in (fun x => id x =? mediaId)). reflexivity.
Qed.

(** ** The command handler *)

Lemma find_media_none (c : Context) (mediaId : string) :
  (forall m, In m (media c) -> id m <> mediaId) -> find_media c mediaId = None.
Proof.
  unfold find_media. induction (media c) as [|x l IH]; intros H; simpl; [reflexivity|].
  destruct (id x =? mediaId) eqn:E.
  - apply String.eqb_eq in E. exfalso. apply (H x); [left; reflexivity | exact E].
  - apply IH. intros m Hm. apply H. right. exact Hm.
Qed.

Lemma not_found_is_rejected (env : Environment) (c : Context) (cmd : Command)
      (mediaId : string) :
  command_mediaId cmd = Some mediaId ->
  find_media c mediaId = None ->
  commandHandler env c cmd
  = [sendBack (COMMAND_FAILED (command_name cmd) "Media not found")].
Proof.
  intros Hc Hf.
  destruct cmd; simpl in Hc; try discriminate; injection Hc as ->;
    unfold commandHandler; rewrite Hf; reflexivity.
Qed.

Lemma closed_is_rejected (env : Environment) (c : Context) (mediaId : string)
      (m : Media) :
  find_media c mediaId = Some m ->
  resume_finds_closed m = true ->
  commandHandler env c (ResumeMedia mediaId)
  = [sendBack (COMMAND_FAILED "ResumeMedia" "Media is closed")].
Proof.
  intros Hf Hc. unfold commandHandler. rewrite Hf.
  unfold resume_finds_closed in Hc.
  destruct (consumer m) as [k|].
  - rewrite Hc. reflexivity.
  - destruct (producer m) as [p|]; [rewrite Hc; reflexivity | discriminate].
Qed.

(** A command whose handler only reports a failure leaves the Session
    where it was: COMMAND_FAILED has no transition. *)
Lemma failed_command_changes_nothing
      (env : Environment) (c : Context) (cmd : Command) (reason : string)
      (acts : list Action) (effs : list ServiceEffect) :
  commandHandler env c cmd = [sendBack (COMMAND_FAILED (command_name cmd) reason)] ->
  let r := dispatch env (mkRunning c (Active (Connected Joined)) acts effs)
                    (COMMAND cmd) in
  RoomMachine.context r = c
  /\ RoomMachine.state r = Active (Connected Joined)
  /\ effects r = effs ++ [sendBack (COMMAND_FAILED (command_name cmd) reason)]
  /\ filter is_request (effects r) = filter is_request effs.
Proof.
  intros H. run_dispatch. rewrite H. cbn [sent_back fold_left app].
  unfold deliver. cbn.
  repeat split. rewrite filter_app. cbn. apply app_nil_r.
Qed.

(** C10. A PauseMedia, ResumeMedia, StopSendingMedia, SwitchVideo or
    SwitchAudio command naming a media that is not in the list is
    answered by COMMAND_FAILED 'Media not found' and nothing else: no
    request is sent, context and state stay. ResumeMedia on a media
    whose consumer (or, having no consumer, whose producer) is closed is
    answered by COMMAND_FAILED 'Media is closed' in the same way. *)
Theorem missing_or_closed_media_is_rejected :
  (forall (env : Environment) (c : Context) (cmd : Command) (mediaId : string)
          (acts : list Action) (effs : list ServiceEffect),
      command_mediaId cmd = Some mediaId ->
      (forall m, In m (media c) -> id m <> mediaId) ->
      let failed := sendBack (COMMAND_FAILED (command_name cmd) "Media not found") in
      let r := dispatch env (mkRunning c (Active (Connected Joined)) acts effs)
                        (COMMAND cmd) in
      commandHandler env c cmd = [failed]
      /\ RoomMachine.context r = c
      /\ RoomMachine.state r = Active (Connected Joined)
      /\ effects r = effs ++ [failed]
      /\ filter is_request (effects r) = filter is_request effs)
  /\
  (forall (env : Environment) (c : Context) (mediaId : string) (m : Media)
          (acts : list Action) (effs : list ServiceEffect),
      find_media c mediaId = Some m ->
      resume_finds_closed m = true ->
      let failed := sendBack (COMMAND_FAILED "ResumeMedia" "Media is closed") in
      let r := dispatch env (mkRunning c (Active (Connected Joined)) acts effs)
                        (COMMAND (ResumeMedia mediaId)) in
      commandHandler env c (ResumeMedia mediaId) = [failed]
      /\ RoomMachine.context r = c
      /\ RoomMachine.state r = Active (Connected Joined)
      /\ effects r = effs ++ [failed]
      /\ filter is_request (effects r) = filter is_request effs).
Proof.
  split.
  - intros env c cmd mediaId acts effs Hc Hm failed r.
    assert (H : commandHandler env c cmd = [failed])
      by (apply (not_found_is_rejected env c cmd mediaId Hc),
                find_media_none, Hm).
    split; [exact H|].
    exact (failed_command_changes_nothing env c cmd "Media not found" acts effs H).
  - intros env c mediaId m acts effs Hf Hc failed r.
    assert (H : commandHandler env c (ResumeMedia mediaId) = [failed])
      by (exact (closed_is_rejected env c mediaId m Hf Hc)).
    split; [exact H|].
    exact (failed_command_changes_nothing env c (ResumeMedia mediaId)
                                          "Media is closed" acts effs H).
Qed.

Lemma missing_or_closed_media_is_rejected_witness :
  commandHandler (a_server "producer-1") (RoomMachine.context joined_room)
                 (SwitchAudio "no-such-media" a_microphone)
  = [sendBack (COMMAND_FAILED "SwitchAudio" "Media not found")]
  /\ commandHandler (a_server "producer-1")
                    (set_peers_media a_config [] [a_closed_media])
                    (ResumeMedia "m-3")
     = [sendBack (COMMAND_FAILED "ResumeMedia" "Media is closed")].
Proof.
  split.
  - refine (proj1 (proj1 missing_or_closed_media_is_rejected
                         (a_server "producer-1") (RoomMachine.context joined_room)
                         (SwitchAudio "no-such-media" a_microphone)
                         "no-such-media" [] [] eq_refl _)).
    intros m Hm. destruct Hm.
  - exact (proj1 (proj2 missing_or_closed_media_is_rejected
                        (a_server "producer-1")
                        (set_peers_media a_config [] [a_closed_media])
                        "m-3" a_closed_media [] [] eq_refl eq_refl)).
Defined.

(** With an open consumer and a closed producer on one Media the
    consumer is resumed before the producer is looked at. *)
Example resume_two_sided_media :
  commandHandler (a_server "producer-1")
                 (set_peers_media (RoomMachine.context joined_room) []
                                  [a_two_sided_media])
                 (ResumeMedia "m-2")
  = [request "resumeConsumer" "consumer-2"; consumer_resume "consumer-2";
     sendBack (COMMAND_FAILED "ResumeMedia" "Media is closed")].
Proof. reflexivity. Qed.

(** ** Adding media *)


(** SendAudio with a track at hand, on a device that can produce audio
    and a send transport that produces: one LOCAL_MEDIA_ADDED is sent
    back, for the new producer. *)
Lemma SendAudio_adds_media (env : Environment) (c : Context)
      (payload : MediaDefinition) (t : Track) (d : Device) (tr : string)
      (p : Capability) :
  mediasoupDevice c = Some d -> canProduce d audio = true ->
  def_track payload = Some t ->
  sendTransport c = Some tr -> produced env (Some t) = inl p ->
  sent_back (commandHandler env c (SendAudio payload))
  = [LOCAL_MEDIA_ADDED (local_media c p t payload)].
Proof.
  intros Hd Hc Ht Htr Hp. unfold commandHandler. rewrite Hd. cbn [need bind ret fst snd app].
  rewrite Hc. cbn [negb]. unfold track_of. rewrite Ht.
  unfold sendTransport_produce. rewrite Htr. cbn. rewrite Hp. reflexivity.
Qed.


(** ** Inbound requests and notifications *)

(** A newConsumer request is accepted once the consumer exists, and the
    Media is appended under the consumer's id; when consuming fails the
    request is rejected and no Media is added. *)
Example newConsumer_is_accepted_after_creation :
  let r := on_socket_request (a_server "producer-1") joined_room a_newConsumer_request in
  map id (media (RoomMachine.context r)) = ["consumer-1"]
  /\ filter is_answer (effects r) = [accept]
  /\ let r' := on_socket_request a_failing_server joined_room a_newConsumer_request in
     media (RoomMachine.context r') = []
     /\ filter is_answer (effects r') = [reject 403 "cannot consume"].
Proof. vm_compute. repeat split. Qed.

Lemma unknown_request_has_no_handler (env : Environment) (c : Context)
      (q : IncomingRequest) :
  req_name q <> "newConsumer" -> requestHandler env c q = [].
Proof.
  intros H. unfold requestHandler.
  apply String.eqb_neq in H. rewrite H. reflexivity.
Qed.

Lemma unknown_notification_has_no_handler (c : Context) (n : Notification) :
  ~ In (n_name n) recognized_notifications -> notificationHandler c n = [].
Proof.
  intros H. unfold notificationHandler.
  assert (H1 : (n_name n =? "newPeer") = false)
    by (apply String.eqb_neq; intros E; apply H; rewrite E; simpl; tauto).
  assert (H2 : (n_name n =? "peerClosed") = false)
    by (apply String.eqb_neq; intros E; apply H; rewrite E; simpl; tauto).
  assert (H3 : (n_name n =? "peerUpdated") = false)
    by (apply String.eqb_neq; intros E; apply H; rewrite E; simpl; tauto).
  assert (H4 : (n_name n =? "consumerClosed") = false)
    by (apply String.eqb_neq; intros E; apply H; rewrite E; simpl; tauto).
  rewrite H1, H2, H3, H4. reflexivity.
Qed.

(** A notification no handler knows changes neither the context nor
    the state of the Session, in any state. *)
Lemma unknown_notification_is_ignored
      (env : Environment) (r : Running) (n : Notification) :
  ~ In (n_name n) recognized_notifications ->
  RoomMachine.context (on_socket_notification env r n) = RoomMachine.context r
  /\ RoomMachine.state (on_socket_notification env r n) = RoomMachine.state r
  /\ filter is_request (effects (on_socket_notification env r n))
     = filter is_request (effects r).
Proof.
  intros H. unfold on_socket_notification, socket_on_notification.
  destruct (existsb (String.eqb (n_name n)) DIAGNOSTIC_NOTIFICATIONS).
  - destruct (onDiagnostics (RoomMachine.context r)); cbn;
      rewrite ?app_nil_r, ?filter_app; cbn; rewrite ?app_nil_r; repeat split.
  - cbn [sent_back fold_left]. destruct r as [c st acts effs].
    cbn [RoomMachine.context RoomMachine.state actions effects].
    assert (Hn := unknown_notification_has_no_handler c n H).
    destruct st as [|[|sub|]].
    + cbn. rewrite !app_nil_r, filter_app. cbn. rewrite app_nil_r. repeat split.
    + cbn. rewrite !app_nil_r, filter_app. cbn. rewrite app_nil_r. repeat split.
    + assert (E : transition c (Active (Connected sub)) (NOTIFICATION n)
                  = (c, Active (Connected sub),
                     [send_to NotificationHandler (NOTIFICATION n) c]))
        by (destruct sub; reflexivity).
      unfold dispatch. cbn [RoomMachine.context RoomMachine.state actions effects].
      rewrite E. cbn [map run_service flat_map fst snd app].
      rewrite Hn. cbn. rewrite !app_nil_r, filter_app. cbn. rewrite app_nil_r.
      repeat split.
    + cbn. rewrite !app_nil_r, filter_app. cbn. rewrite app_nil_r. repeat split.
Qed.

End RoomMachineProps.

(** * Properties of the legacy Media *)
Module LegacyMediaProps.

Import LegacyMedia.
Import Examples.


(** ** [activate] *)

Lemma activate_ignored (isRoomConnected : bool) (made : Capability) (m : Media) :
  consumer m = None \/ state m <> paused ->
  isRoomConnected = false \/ dependants m = [] \/ isAlreadyActive m = true ->
  activate isRoomConnected made m = (m, []).
Proof.
  intros Hp Hg. unfold activate.
  assert (G : isAlreadyActive m || negb isRoomConnected || negb (hasDependants m) = true).
  { destruct Hg as [-> | [Hd | Ha]].
    - rewrite orb_true_r. reflexivity.
    - unfold hasDependants. rewrite Hd. apply orb_true_r.
    - rewrite Ha. reflexivity. }
  destruct (consumer m) as [c|].
  - destruct Hp as [Hp | Hp]; [discriminate|].
    destruct (state m); try (exfalso; apply Hp; reflexivity);
      cbn [STATE_eqb]; rewrite G; reflexivity.
  - rewrite G. reflexivity.
Qed.

Lemma activate_unpauses (isRoomConnected : bool) (made : Capability) (m : Media)
      (c : Capability) :
  consumer m = Some c -> state m = paused ->
  activate isRoomConnected made m = (m, unpause m).
Proof. intros Hc Hs. unfold activate. rewrite Hc, Hs. reflexivity. Qed.

Lemma activate_starts (made : Capability) (m : Media) :
  dependants m <> [] -> isAlreadyActive m = false ->
  state (fst (activate true made m)) = activating
  /\ snd (activate true made m) <> [].
Proof.
  destruct m as [i s pid ty dev tr co pr lp rp deps].
  unfold activate, isAlreadyActive, hasDependants, receive, send, send_track, unpause.
  cbn [dependants state consumer producer locallyPaused track set_state].
  intros Hd Ha. destruct deps as [|d deps]; [contradiction|].
  destruct s; try discriminate Ha; cbn [STATE_eqb orb negb List.length Nat.ltb Nat.leb];
    destruct co as [c|]; destruct lp; destruct pr as [p|];
      destruct tr as [[tid [|]]|];
      cbn [fst snd state set_producer set_state track_live app cap_id];
      (split; [reflexivity | discriminate]).
Qed.

Lemma activate_all_ignored (calls : list (bool * Capability)) (m : Media) :
  dependants m = [] -> state m = preparing \/ state m = local ->
  activate_all calls m = (m, []).
Proof.
  intros Hd Hs. induction calls as [|[conn made] rest IH]; [reflexivity|].
  cbn [activate_all]. rewrite activate_ignored, IH; [reflexivity | | ].
  - right. destruct Hs as [-> | ->]; discriminate.
  - right. left. exact Hd.
Qed.

(** C6, as the code does it. While nothing depends on a Media that is
    [preparing] or [local], no sequence of activate() calls changes it
    or reaches the transport. activate() does nothing unless the room
    is connected, somebody depends on the Media and it is not already
    activating, active or paused, with one exception: a consumed Media
    that is paused is unpaused, whatever the room and the dependants.
    When none of this holds back, the Media goes [activating] and the
    transport or the device helpers are called. *)
Theorem activate_only_when_needed :
  (forall (calls : list (bool * Capability)) (m : Media),
      dependants m = [] -> state m = preparing \/ state m = local ->
      activate_all calls m = (m, []))
  /\ (forall (isRoomConnected : bool) (made : Capability) (m : Media),
         consumer m = None \/ state m <> paused ->
         isRoomConnected = false \/ dependants m = [] \/ isAlreadyActive m = true ->
         activate isRoomConnected made m = (m, []))
  /\ (forall (isRoomConnected : bool) (made : Capability) (m : Media) (c : Capability),
         consumer m = Some c -> state m = paused ->
         activate isRoomConnected made m = (m, unpause m)
         /\ In (consumer_resume (cap_id c)) (unpause m))
  /\ (forall (made : Capability) (m : Media),
         dependants m <> [] -> isAlreadyActive m = false ->
         state (fst (activate true made m)) = activating
         /\ snd (activate true made m) <> []).
Proof.
  split; [exact activate_all_ignored|].
  split; [exact activate_ignored|].
  split; [|exact activate_starts].
  intros conn made m c Hc Hs. split; [exact (activate_unpauses conn made m c Hc Hs)|].
  unfold unpause. rewrite Hc. apply in_or_app. right. right. left. reflexivity.
Qed.

Lemma activate_only_when_needed_witness :
  activate_all [(true, a_new_producer); (false, a_new_producer); (true, a_new_producer)]
               an_idle_microphone = (an_idle_microphone, [])
  /\ activate false a_new_producer a_live_microphone = (a_live_microphone, [])
  /\ activate false a_new_producer a_paused_feed
     = (a_paused_feed, unpause a_paused_feed)
  /\ state (fst (activate true a_new_producer
                          (set_state a_live_microphone local))) = activating.
Proof.
  split.
  { apply (proj1 activate_only_when_needed); [reflexivity | left; reflexivity]. }
  split.
  { apply (proj1 (proj2 activate_only_when_needed));
      [left; reflexivity | left; reflexivity]. }
  split.
  { apply (proj1 (proj2 (proj2 activate_only_when_needed)) false a_new_producer
                 a_paused_feed a_consumer); reflexivity. }
  apply (proj2 (proj2 (proj2 activate_only_when_needed))); [discriminate | reflexivity].
Defined.

(** C6 as stated fails: the room is not connected and nothing depends on
    this paused feed, yet activate() resumes its consumer. *)
Lemma activate_resumes_a_paused_feed :
  dependants a_paused_feed = []
  /\ isAlreadyActive a_paused_feed = true
  /\ activate false a_new_producer a_paused_feed
     = (a_paused_feed,
        [logEvent "ResumeConsumerMedia"; consumer_resume "consumer-9"])
  /\ snd (activate false a_new_producer a_paused_feed) <> [].
Proof. repeat split; discriminate. Qed.

(** The last dependant of a produced Media lets go of it: the track is
    stopped, the producer closed and the Media inactive. *)
Example dependant_driven_teardown :
  let '(m, es) := stopUsingTrack "meter-1" a_live_microphone in
  state m = inactive
  /\ track m = None
  /\ option_map closed (producer m) = Some true
  /\ es = [track_stop microphone_track; triggerUpdate; producer_close "producer-7"].
Proof. vm_compute. repeat split. Qed.

(** ** The pause flags *)







End LegacyMediaProps.

(** * Properties of the legacy Room *)
Module LegacyRoomProps.

Import LegacyRoom.
Import Examples.

(** ** The heartbeat *)










Ltac count := unfold reconnects, mismatches; cbn.







(** The scenario of the drift repair: detection by the first
    heartbeat, one reconnect, and after the rejoin the next heartbeat
    clears the flags. *)
Example drift_detection_and_repair :
  let run1 := run [call_handleProtooRequest (heartbeat_of [me; alice; bob]);
                   call_on_protoo_open true;
                   call_onJoin_done [alice; bob];
                   call_handleProtooRequest (heartbeat_of [me; alice; bob])]
                  a_joined_room in
  drift_flags (fst run1) = (false, false)
  /\ state (fst run1) = connected
  /\ reconnects (snd run1) = 1
  /\ mismatches (snd run1) = 1.
Proof. vm_compute. repeat split. Qed.

(** ** Requests with no handler *)

Lemma unknown_method_is_rejected (q : Request) (r : Room) :
  ~ In (method q) recognized_methods ->
  handleProtooRequest q r = (r, [reject 404 "unknown method"]).
Proof.
  intros H. unfold handleProtooRequest.
  assert (H1 : (method q =? "event") = false)
    by (apply String.eqb_neq; intros E; apply H; rewrite E; simpl; tauto).
  assert (H2 : (method q =? "heartbeat") = false)
    by (apply String.eqb_neq; intros E; apply H; rewrite E; simpl; tauto).
  assert (H3 : (method q =? "mediasoup-notification") = false)
    by (apply String.eqb_neq; intros E; apply H; rewrite E; simpl; tauto).
  assert (H4 : (method q =? "active-speaker") = false)
    by (apply String.eqb_neq; intros E; apply H; rewrite E; simpl; tauto).
  assert (H5 : (method q =? "message") = false)
    by (apply String.eqb_neq; intros E; apply H; rewrite E; simpl; tauto).
  rewrite H1, H2, H3, H4, H5. reflexivity.
Qed.

(** Every request gets exactly one answer. *)
Lemma every_request_is_answered (q : Request) (r : Room) :
  List.length (filter (fun e => match e with accept | reject _ _ => true | _ => false end)
                      (snd (handleProtooRequest q r))) = 1.
Proof.
  unfold handleProtooRequest, heartbeat, onMessage, leave, close, open.
  repeat match goal with
         | |- context [if ?b then _ else _] => destruct b
         end; reflexivity.
Qed.

(** ** The media collection *)

Import LegacyMediaProps.














End LegacyRoomProps.

(** * The Session across both generations *)
Module SessionProps.

Import Examples.

(** ** Media per (type, deviceId, peerId) *)



(** Adding the same microphone twice to a legacy room leaves one
    Media. *)
Example legacy_room_keeps_one_microphone :
  map LegacyMedia.id
      (LegacyRoom.addMedia_all a_joined_room
         [("m-1", a_new_producer, the_microphone);
          ("m-2", a_new_producer, the_microphone_live)] [])
  = ["m-1"].
Proof. reflexivity. Qed.

(** ** Requests nobody handles *)

(** C7 at a request named getStats. The request handler of the Session
    machine has no case for it and no default: the request is neither
    accepted nor rejected, in any context and whatever the transport
    answers. The legacy Room rejects the same request with code 404. *)
Theorem unknown_request_is_left_unanswered
        (env : RoomMachine.Environment) (c : RoomMachine.Context)
        (r : LegacyRoom.Room) :
  RoomMachine.requestHandler env c an_unknown_request = []
  /\ filter RoomMachine.is_answer
            (RoomMachine.effects
               (RoomMachine.on_socket_request env joined_room an_unknown_request))
     = []
  /\ LegacyRoom.handleProtooRequest an_unknown_method r
     = (r, [LegacyRoom.reject 404 "unknown method"]).
Proof. repeat split. Qed.

(** ** Reconnection policies *)

Lemma power_of_two_positive (n : nat) : (1 <= 2 ^ Z.of_nat n)%Z.
Proof.
  assert (H : (0 < 2 ^ Z.of_nat n)%Z) by (apply Z.pow_pos_nonneg; lia). lia.
Qed.

Lemma backoff_within (o : RetryOptions) (n : nat) :
  factor o = 2%Z -> (0 < minTimeout o <= maxTimeout o)%Z ->
  (minTimeout o <= backoff o n <= maxTimeout o)%Z.
Proof.
  intros Hf Hm. unfold backoff. rewrite Hf.
  assert (H := power_of_two_positive n). nia.
Qed.

Lemma backoff_doubles (o : RetryOptions) (n : nat) :
  factor o = 2%Z ->
  backoff o (S n)
  = Z.min (2 * (minTimeout o * 2 ^ Z.of_nat n)) (maxTimeout o).
Proof.
  intros Hf. unfold backoff. rewrite Hf, Nat2Z.inj_succ, Z.pow_succ_r by lia.
  f_equal. ring.
Qed.

(** C8, as the code has it. The channel the legacy Room opens waits
    100 ms before the first reconnection attempt, doubles the wait up
    to at most 10 s, and retries for ever. The channel of the Session
    machine starts at 500 ms, doubles up to at most 10 s, and makes at
    most 30 attempts. *)
Theorem reconnection_policies :
  (minTimeout LegacyRoom.open_retry = 100%Z
   /\ factor LegacyRoom.open_retry = 2%Z
   /\ maxTimeout LegacyRoom.open_retry = 10000%Z
   /\ attempt_limit LegacyRoom.open_retry = None
   /\ backoff LegacyRoom.open_retry 0 = 100%Z
   /\ (forall n, (100 <= backoff LegacyRoom.open_retry n <= 10000)%Z)
   /\ (forall n, backoff LegacyRoom.open_retry (S n)
                 = Z.min (2 * (100 * 2 ^ Z.of_nat n)) 10000))
  /\ (minTimeout RoomMachine.socket_retry = 500%Z
      /\ factor RoomMachine.socket_retry = 2%Z
      /\ maxTimeout RoomMachine.socket_retry = 10000%Z
      /\ attempt_limit RoomMachine.socket_retry = Some 30
      /\ backoff RoomMachine.socket_retry 0 = 500%Z
      /\ (forall n, (500 <= backoff RoomMachine.socket_retry n <= 10000)%Z)
      /\ (forall n, backoff RoomMachine.socket_retry (S n)
                    = Z.min (2 * (500 * 2 ^ Z.of_nat n)) 10000)).
Proof.
  split.
  - repeat split; try reflexivity.
    + apply (backoff_within LegacyRoom.open_retry n); [reflexivity | cbn; lia].
    + apply (backoff_within LegacyRoom.open_retry n); [reflexivity | cbn; lia].
    + exact (fun n => backoff_doubles LegacyRoom.open_retry n eq_refl).
  - repeat split; try reflexivity.
    + apply (backoff_within RoomMachine.socket_retry n); [reflexivity | cbn; lia].
    + apply (backoff_within RoomMachine.socket_retry n); [reflexivity | cbn; lia].
    + exact (fun n => backoff_doubles RoomMachine.socket_retry n eq_refl).
Qed.

(** C8 as stated fails on the channel of the Session machine: its
    minimum interval is not 100 ms and its retries are bounded. *)
Lemma socket_policy_differs :
  ~ (minTimeout RoomMachine.socket_retry = 100%Z
     /\ factor RoomMachine.socket_retry = 2%Z
     /\ maxTimeout RoomMachine.socket_retry = 10000%Z
     /\ attempt_limit RoomMachine.socket_retry = None).
Proof. intros [H _]. discriminate H. Qed.

End SessionProps.

(** * More on the Media machine *)
Module MediaMachineRuns.

Import MediaMachine.
Import Examples.

Lemma reports_app (a b : list Action) :
  MEDIA_CLOSED_reports (a ++ b) = MEDIA_CLOSED_reports a + MEDIA_CLOSED_reports b.
Proof.
  induction a as [|x a IH]; [reflexivity|].
  destruct x; cbn [app MEDIA_CLOSED_reports]; rewrite IH; reflexivity.
Qed.

Lemma close_reports_nothing (c : Media) : MEDIA_CLOSED_reports (close c) = 0.
Proof. unfold close. destruct (consumer c), (producer c); reflexivity. Qed.

(** What one event adds to the reports: one when the machine stops,
    none otherwise. *)
Lemma transition_reports (c : Media) (st : State) (ev : Event) :
  let '(_, st', a) := transition c st ev in
  MEDIA_CLOSED_reports a + (if is_stopped st then 1 else 0)
  = if is_stopped st' then 1 else 0.
Proof.
  destruct st as [[[|]|]| |], ev;
    cbn [transition enter_stopped enter_active exit_active fst snd is_stopped];
    rewrite ?reports_app, ?close_reports_nothing; reflexivity.
Qed.

Lemma deliver_reports (r : Running) (ev : Event) :
  MEDIA_CLOSED_reports (actions r) = (if is_stopped (state r) then 1 else 0) ->
  MEDIA_CLOSED_reports (actions (deliver r ev))
  = if is_stopped (state (deliver r ev)) then 1 else 0.
Proof.
  intros H. unfold deliver.
  assert (T := transition_reports (context r) (state r) ev).
  destruct (transition (context r) (state r) ev) as [[c s] a].
  cbn [actions state]. rewrite reports_app. lia.
Qed.

(** X1. Whatever events a Media machine receives, it reports MEDIA.CLOSED
    to its parent exactly once if it ends stopped and not at all
    otherwise; once stopped, no event changes it. *)
Theorem MEDIA_CLOSED_is_reported_once (m : Media) (evs : list Event) :
  let r := deliver_all evs (start m) in
  MEDIA_CLOSED_reports (actions r) = (if is_stopped (state r) then 1 else 0)
  /\ (forall (r' : Running) (more : list Event),
         state r' = stopped -> deliver_all more r' = mkRunning (context r') stopped
                                                               (actions r') (calls r')).
Proof.
  split.
  - unfold deliver_all.
    assert (G : forall l r0,
               MEDIA_CLOSED_reports (actions r0)
               = (if is_stopped (state r0) then 1 else 0) ->
               MEDIA_CLOSED_reports (actions (fold_left deliver l r0))
               = if is_stopped (state (fold_left deliver l r0)) then 1 else 0).
    { induction l as [|e l IH]; intros r0 H; [exact H|].
      cbn [fold_left]. apply IH, deliver_reports, H. }
    apply G. reflexivity.
  - intros r' more Hs. unfold deliver_all. revert r' Hs.
    induction more as [|e l IH]; intros r' Hs.
    + destruct r' as [c s a k]. cbn in *. subst. reflexivity.
    + cbn [fold_left].
      assert (E : deliver r' e = mkRunning (context r') stopped (actions r') (calls r')).
      { unfold deliver. rewrite Hs. cbn. rewrite app_nil_r. reflexivity. }
      rewrite E. rewrite IH by reflexivity. reflexivity.
Qed.

Lemma MEDIA_CLOSED_is_reported_once_witness :
  MEDIA_CLOSED_reports (actions (deliver_all [PAUSED; CLOSED; TRACK_ENDED; CLOSED]
                                             (start a_media))) = 1
  /\ deliver_all [RESUMED; SWITCH webcam_b] (deliver_all [CLOSED] (start a_media))
     = deliver_all [CLOSED] (start a_media).
Proof.
  split.
  - exact (proj1 (MEDIA_CLOSED_is_reported_once
                    a_media [PAUSED; CLOSED; TRACK_ENDED; CLOSED])).
  - exact (proj2 (MEDIA_CLOSED_is_reported_once a_media [])
                 (deliver_all [CLOSED] (start a_media)) [RESUMED; SWITCH webcam_b]
                 eq_refl).
Defined.

(** While the machine is [switching] it hears nothing but the outcome
    of the switch. *)
Lemma switching_is_deaf (r : Running) (evs : list Event) :
  state r = switching -> forallb (fun e => negb (settles_switch e)) evs = true ->
  deliver_all evs r = r.
Proof.
  unfold deliver_all. revert r. induction evs as [|e l IH]; intros r Hs Hq; [reflexivity|].
  cbn [forallb] in Hq. apply andb_true_iff in Hq. destruct Hq as [He Hl].
  cbn [fold_left].
  assert (E : deliver r e = r).
  { destruct r as [c s a k]. cbn in Hs. subst s. unfold deliver. cbn [context state].
    destruct e; try discriminate He; cbn; rewrite app_nil_r; reflexivity. }
  rewrite E. apply IH; assumption.
Qed.

(** X2. A CLOSED or TRACK.ENDED that arrives while the track is being
    switched is lost: the events received in [switching] other than the
    outcome of the switch change nothing, and when replaceTrack then
    resolves the machine is back in [active] with the new track, without
    having reported MEDIA.CLOSED. *)
Theorem close_during_switch_is_lost
        (c : Media) (sub : ActiveState) (acts : list Action)
        (made : list CapabilityCall) (next : Track) (evs : list Event) :
  forallb (fun e => negb (settles_switch e)) evs = true ->
  let r0 := mkRunning c (active sub) acts made in
  let r := deliver_all (SWITCH next :: evs ++ [done_invoke_switch next]) r0 in
  is_active (state r) = true
  /\ track (context r) = Some next
  /\ MEDIA_CLOSED_reports (actions r) = MEDIA_CLOSED_reports acts.
Proof.
  intros Hq r0 r. unfold r, deliver_all. cbn [fold_left].
  rewrite fold_left_app.
  change (fold_left deliver evs (deliver r0 (SWITCH next)))
    with (deliver_all evs (deliver r0 (SWITCH next))).
  rewrite (switching_is_deaf (deliver r0 (SWITCH next)) evs eq_refl Hq).
  cbn. repeat split. rewrite !reports_app. cbn. lia.
Qed.

Lemma close_during_switch_is_lost_witness :
  forallb (fun e => negb (settles_switch e)) [CLOSED; TRACK_ENDED] = true
  /\ is_active
       (state (deliver_all (SWITCH webcam_a :: [CLOSED; TRACK_ENDED]
                                   ++ [done_invoke_switch webcam_a])
                           (mkRunning a_media (active (live healthy))
                                      (snd (enter_active a_media)) [])))
     = true.
Proof.
  split; [reflexivity|].
  exact (proj1 (close_during_switch_is_lost a_media (live healthy)
                  (snd (enter_active a_media)) [] webcam_a [CLOSED; TRACK_ENDED]
                  eq_refl)).
Defined.

Lemma close_requests_no_switch (c : Media) : switch_requests (close c) = [].
Proof. unfold close. destruct (consumer c), (producer c); reflexivity. Qed.

Lemma stopping_requests_no_switch (c : Media) :
  switch_requests (exit_active c ++ snd (enter_stopped c)) = [].
Proof.
  cbn [enter_stopped snd].
  rewrite !MediaMachineProps.switch_requests_app, close_requests_no_switch.
  reflexivity.
Qed.

(** What one [send] does to the context and to the calls made. The
    machine never rests in [switching]: the promise has settled by
    then. *)
Lemma send_step (b : bool) (r : Running) (ev : Event) :
  state r <> switching ->
  state (send b r ev) <> switching
  /\ identity (context (send b r ev)) = identity (context r)
  /\ (track (context (send b r ev)) = track (context r)
      \/ exists t, ev = SWITCH t /\ b = true /\ track (context (send b r ev)) = Some t)
  /\ (calls (send b r ev) = calls r
      \/ exists p t, ev = SWITCH t /\ producer (context r) = Some p
                     /\ calls (send b r ev) = calls r ++ [replaceTrack (cap_id p) t]).
Proof.
  destruct r as [c st a k]. unfold send. cbn [context state actions calls].
  intros Hs. destruct st as [sub| |]; [| contradiction |].
  - destruct ev;
      try (destruct sub as [[|]|]; cbn;
           (split; [discriminate|]); repeat split; left; reflexivity);
      try (cbn [transition fst]; rewrite stopping_requests_no_switch;
           cbn; (split; [discriminate|]); repeat split; left; reflexivity).
    rewrite MediaMachineProps.SWITCH_leaves_active,
      MediaMachineProps.switch_requests_app, MediaMachineProps.switch_requests_exit.
    cbn [app switch_requests]. unfold switch.
    destruct (producer c) as [p|] eqn:Hp.
    + destruct b; cbn.
      * split; [discriminate|]. split; [reflexivity|].
        split; [right; exists next; repeat split|].
        right. exists p, next. repeat split.
      * split; [discriminate|]. split; [reflexivity|]. split; [left; reflexivity|].
        right. exists p, next. repeat split.
    + cbn. rewrite app_nil_r.
      split; [discriminate|]. repeat split; left; reflexivity.
  - destruct ev; cbn; (split; [discriminate|]); repeat split; left; reflexivity.
Qed.

(** X3. Over any sequence of events a Media machine keeps its id, kind,
    type, label, producer, consumer, device, peer and actor; its track
    is the one it started with or the track of a SWITCH whose
    replaceTrack resolved; and replaceTrack is only ever called on the
    Media's own producer, with the track of a SWITCH it received. *)
Theorem only_a_switch_changes_the_track (m : Media) (steps : list (bool * Event)) :
  let r := send_all steps (start m) in
  identity (context r) = identity m
  /\ (track (context r) = track m
      \/ exists t, In (true, SWITCH t) steps /\ track (context r) = Some t)
  /\ Forall (fun call => exists p t b, producer m = Some p
                                       /\ In (b, SWITCH t) steps
                                       /\ call = replaceTrack (cap_id p) t)
            (calls r).
Proof.
  cbv zeta.
  assert (G : state (send_all steps (start m)) <> switching
              /\ identity (context (send_all steps (start m))) = identity m
              /\ (track (context (send_all steps (start m))) = track m
                  \/ exists t, In (true, SWITCH t) steps
                               /\ track (context (send_all steps (start m))) = Some t)
              /\ Forall (fun call => exists p t b, producer m = Some p
                                                   /\ In (b, SWITCH t) steps
                                                   /\ call = replaceTrack (cap_id p) t)
                        (calls (send_all steps (start m)))).
  { unfold send_all. induction steps as [|[b ev] steps IH] using rev_ind.
    - cbn. split; [discriminate|]. split; [reflexivity|].
      split; [left; reflexivity | constructor].
    - rewrite fold_left_app. cbn [fold_left fst snd].
      set (r := fold_left (fun r s => send (fst s) r (snd s)) steps (start m)) in *.
      destruct IH as [I0 [I1 [I2 I3]]].
      destruct (send_step b r ev I0) as [S0 [S1 [S2 S3]]].
      split; [exact S0|]. split; [rewrite S1; exact I1|]. split.
      + destruct S2 as [S2 | [t [-> [-> S2]]]].
        * rewrite S2. destruct I2 as [I2 | [t [Hin I2]]]; [left; exact I2|].
          right. exists t. split; [apply in_or_app; left; exact Hin | exact I2].
        * right. exists t. split; [apply in_or_app; right; left; reflexivity | exact S2].
      + assert (W : Forall (fun call => exists p t b0, producer m = Some p
                                          /\ In (b0, SWITCH t) (steps ++ [(b, ev)])
                                          /\ call = replaceTrack (cap_id p) t)
                           (calls r)).
        { eapply Forall_impl; [|exact I3]. cbn beta.
          intros call [p [t [b0 [Hp [Hin Hc]]]]]. exists p, t, b0.
          split; [exact Hp|]. split; [apply in_or_app; left; exact Hin | exact Hc]. }
        destruct S3 as [S3 | [p [t [-> [Hp S3]]]]]; rewrite S3; [exact W|].
        apply Forall_app. split; [exact W|]. constructor; [|constructor].
        exists p, t, b. split.
        * assert (P : producer (identity (context r)) = producer (identity m))
            by (rewrite I1; reflexivity).
          cbn in P. rewrite <- P. exact Hp.
        * split; [apply in_or_app; right; left; reflexivity | reflexivity]. }
  exact (proj2 G).
Qed.

End MediaMachineRuns.

(** * More on the Session machine *)
Module RoomMachineRuns.

Import MediaMachine.
Import RoomMachine.
Import Examples.

(** ** Invoked services *)

Lemma actor_stops_are_no_service (s : Service) (l : list Media) :
  filter (starts s)
         (flat_map (fun x => match actor x with
                             | Some a => [actor_stop a]
                             | None => []
                             end) l) = []
  /\ filter (stops s)
            (flat_map (fun x => match actor x with
                                | Some a => [actor_stop a]
                                | None => []
                                end) l) = [].
Proof.
  induction l as [|x l [IH1 IH2]]; [split; reflexivity|].
  cbn [flat_map]. rewrite !filter_app, IH1, IH2.
  destruct (actor x); split; reflexivity.
Qed.

(** What one transition starts and stops is what the two states
    differ by. *)
Lemma transition_balance (c : Context) (st : State) (ev : Event) (s : Service) :
  let '(_, st', a) := transition c st ev in
  started s a + (if invokes st s then 1 else 0)
  = stopped s a + (if invokes st' s then 1 else 0).
Proof.
  unfold started, stopped.
  destruct ev;
    try (destruct st as [|[|[]|]], s; reflexivity).
  destruct st as [|[|sub|]]; try (destruct s; reflexivity).
  assert (E : transition c (Active (Connected sub)) (MEDIA_CLOSED mediaId)
              = on_connected c sub (MEDIA_CLOSED mediaId))
    by (destruct sub; reflexivity).
  rewrite E. cbn [on_connected].
  match goal with
  | |- context [flat_map ?f ?l] =>
      destruct (actor_stops_are_no_service s l) as [H1 H2]; rewrite H1, H2
  end.
  reflexivity.
Qed.

Lemma step_balanced (r : Running) (ev : Event) (effs : list ServiceEffect) :
  balanced r ->
  balanced (let '(c, s, a) := transition (RoomMachine.context r) (RoomMachine.state r) ev in
            mkRunning c s (actions r ++ a) effs).
Proof.
  intros H s. specialize (H s).
  assert (T := transition_balance (RoomMachine.context r) (RoomMachine.state r) ev s).
  destruct (transition (RoomMachine.context r) (RoomMachine.state r) ev) as [[c st] a].
  cbn [actions RoomMachine.state]. unfold started, stopped in *.
  rewrite !filter_app, !length_app. lia.
Qed.

Lemma deliver_all_balanced (evs : list Event) (r : Running) :
  balanced r -> balanced (fold_left deliver evs r).
Proof.
  revert r. induction evs as [|e l IH]; intros r H; [exact H|].
  cbn [fold_left]. apply IH. exact (step_balanced r e (effects r) H).
Qed.

Lemma dispatch_balanced (env : Environment) (r : Running) (ev : Event) :
  balanced r -> balanced (dispatch env r ev).
Proof.
  intros H. unfold dispatch.
  assert (S := fun effs => step_balanced r ev effs H).
  destruct (transition (RoomMachine.context r) (RoomMachine.state r) ev) as [[c st] a].
  apply deliver_all_balanced, S.
Qed.

(** X4. Over any sequence of events a Session stops each service when it
    leaves the state that invoked it: a service has been started once
    more than stopped exactly when the current state invokes it, so
    back in [waiting] (after Disconnect or a closed channel) the socket,
    the handlers and the join and leave promises have all been
    stopped. *)
Theorem services_are_stopped_with_their_state
        (env : Environment) (c : Context) (evs : list Event) :
  let r := dispatch_all env evs (boot c) in
  balanced r
  /\ (RoomMachine.state r = Waiting ->
      forall s, started s (actions r) = stopped s (actions r)).
Proof.
  cbv zeta.
  assert (B : balanced (dispatch_all env evs (boot c))).
  { unfold dispatch_all.
    assert (G : forall l r, balanced r -> balanced (fold_left (dispatch env) l r)).
    { induction l as [|e l IH]; intros r H; [exact H|].
      cbn [fold_left]. apply IH, dispatch_balanced, H. }
    apply G. intros s. destruct s; reflexivity. }
  split; [exact B|].
  intros Hw s. rewrite (B s), Hw. destruct s; cbn; lia.
Qed.

Lemma services_are_stopped_with_their_state_witness :
  RoomMachine.state (dispatch_all (a_server "producer-1") [SOCKET_CLOSED] joined_room)
  = Waiting
  /\ forall s,
    started s (actions (dispatch_all (a_server "producer-1")
                                     [CONNECT; SOCKET_CONNECTED "protoo" a_device; JOIN;
                                      SOCKET_CLOSED]
                                     (boot a_config)))
    = stopped s (actions (dispatch_all (a_server "producer-1")
                                       [CONNECT; SOCKET_CONNECTED "protoo" a_device; JOIN;
                                        SOCKET_CLOSED]
                                       (boot a_config))).
Proof.
  split; [reflexivity|].
  exact (proj2 (services_are_stopped_with_their_state
                  (a_server "producer-1") a_config
                  [CONNECT; SOCKET_CONNECTED "protoo" a_device; JOIN; SOCKET_CLOSED])
               eq_refl).
Defined.

(** ** The media list *)

(** What a transition can do to the media list: keep it, empty it,
    filter it, or append one Media under an actor named by its id. *)
Lemma media_after (c : Context) (st : State) (ev : Event) :
  let c' := fst (fst (transition c st ev)) in
  media c' = media c
  \/ media c' = []
  \/ (exists f, media c' = filter f (media c))
  \/ (exists m, (ev = LOCAL_MEDIA_ADDED m \/ ev = REMOTE_MEDIA_ADDED m)
                /\ media c' = media c ++ [set_actor m (Some (id m))]).
Proof.
  destruct st as [|[|sub|]].
  - destruct ev; cbn; left; reflexivity.
  - destruct ev; cbn; try (left; reflexivity); right; left; reflexivity.
  - destruct sub, ev; cbn;
      try (left; reflexivity);
      try (right; left; reflexivity);
      try (destruct data; left; reflexivity);
      try (right; right; left; eexists; reflexivity);
      (right; right; right; eexists; split; [|reflexivity]; auto).
  - destruct ev; cbn; try (left; reflexivity); right; left; reflexivity.
Qed.

Lemma transition_keeps_names (c : Context) (st : State) (ev : Event) :
  well_named c -> well_named (fst (fst (transition c st ev))).
Proof.
  intros H m. destruct (media_after c st ev) as [E | [E | [[f E] | [x [_ E]]]]];
    rewrite E.
  - apply H.
  - intros [].
  - intros Hm. apply filter_In in Hm. apply H, Hm.
  - intros Hm. apply in_app_or in Hm. destruct Hm as [Hm | [<- | []]];
      [apply H, Hm | reflexivity].
Qed.

Lemma deliver_keeps_names (evs : list Event) (r : Running) :
  well_named (RoomMachine.context r) ->
  well_named (RoomMachine.context (fold_left deliver evs r)).
Proof.
  revert r. induction evs as [|e l IH]; intros r H; [exact H|].
  cbn [fold_left]. apply IH. unfold deliver.
  assert (T := transition_keeps_names (RoomMachine.context r) (RoomMachine.state r) e H).
  destruct (transition (RoomMachine.context r) (RoomMachine.state r) e) as [[c s] a].
  exact T.
Qed.

Lemma dispatch_keeps_names (env : Environment) (r : Running) (ev : Event) :
  well_named (RoomMachine.context r) ->
  well_named (RoomMachine.context (dispatch env r ev)).
Proof.
  intros H. unfold dispatch.
  assert (T := transition_keeps_names (RoomMachine.context r) (RoomMachine.state r) ev H).
  destruct (transition (RoomMachine.context r) (RoomMachine.state r) ev) as [[c s] a].
  apply deliver_keeps_names. exact T.
Qed.

(** X5. Whatever happens to a Session whose media list starts empty, as
    [startRoom] configures it, or starts with actors named by their
    media id, every Media in the list keeps an actor named by its id
    (the name MEDIA.CLOSED reports and the commands look up). *)
Theorem every_media_has_its_actor
        (env : Environment) (evs : list Event) (r : Running) :
  well_named (RoomMachine.context r) ->
  well_named (RoomMachine.context (dispatch_all env evs r)).
Proof.
  unfold dispatch_all. revert r. induction evs as [|e l IH]; intros r H; [exact H|].
  cbn [fold_left]. apply IH, dispatch_keeps_names, H.
Qed.

Lemma every_media_has_its_actor_witness :
  well_named (RoomMachine.context joined_room)
  /\ well_named
       (RoomMachine.context
          (dispatch_all (a_server "producer-2")
                        [COMMAND (SendAudio a_microphone); REQUEST a_newConsumer_request;
                         MEDIA_CLOSED "producer-2"]
                        joined_room)).
Proof.
  assert (H : well_named (RoomMachine.context joined_room)) by (intros m []).
  split; [exact H|].
  exact (every_media_has_its_actor (a_server "producer-2")
           [COMMAND (SendAudio a_microphone); REQUEST a_newConsumer_request;
            MEDIA_CLOSED "producer-2"]
           joined_room H).
Defined.

(** ** Commands outside [joined] *)

(** X6. A command sent to a Session that is not in [joined] is dropped:
    no service sees it, nothing is sent back (not even COMMAND_FAILED)
    and neither the context nor the state changes. *)
Theorem commands_need_a_joined_session
        (env : Environment) (r : Running) (cmd : Command) :
  is_joined (RoomMachine.state r) = false ->
  dispatch env r (COMMAND cmd) = r.
Proof.
  destruct r as [c st a e]. cbn [RoomMachine.state]. intros H.
  destruct st as [|[|[]|]]; try discriminate H;
    unfold dispatch; cbn; rewrite !app_nil_r; reflexivity.
Qed.

Lemma commands_need_a_joined_session_witness :
  is_joined (RoomMachine.state connected_room) = false
  /\ dispatch (a_server "producer-1") connected_room (COMMAND (SendAudio a_microphone))
     = connected_room.
Proof.
  split; [reflexivity|].
  exact (commands_need_a_joined_session (a_server "producer-1") connected_room
                                        (SendAudio a_microphone) eq_refl).
Defined.

(** ** The roster *)

Lemma filter_all {A} (f : A -> bool) (l : list A) :
  (forall x, In x l -> f x = true) -> filter f l = l.
Proof.
  induction l as [|x l IH]; intros H; [reflexivity|].
  cbn. rewrite (H x (or_introl eq_refl)), IH; [reflexivity|].
  intros y Hy. apply H. right. exact Hy.
Qed.

Lemma connected_handles (c : Context) (sub : ConnectedState) (ev : Event) :
  match ev with
  | PEER_JOINED _ | PEER_LEFT _ | PEER_UPDATED _ _ | NOTIFICATION _ | REQUEST _ => True
  | _ => False
  end ->
  transition c (Active (Connected sub)) ev = on_connected c sub ev.
Proof. destruct ev; intros H; try contradiction; destruct sub; reflexivity. Qed.

(** X7. A peerClosed notification received in [connected] closes the
    consumers of the media of that peer, then removes the peer from the
    roster and its media from the list; the other peers and media stay,
    in order. The actors of the removed media are not stopped. *)
Theorem peerClosed_removes_the_peer_and_its_media
        (env : Environment) (c : Context) (sub : ConnectedState)
        (acts : list Action) (effs : list ServiceEffect) (n : Notification) :
  n_name n = "peerClosed" ->
  let r := on_socket_notification env (mkRunning c (Active (Connected sub)) acts effs) n in
  RoomMachine.state r = Active (Connected sub)
  /\ peers (RoomMachine.context r)
     = filter (fun x => negb (peer_id x =? n_peerId n)) (peers c)
  /\ media (RoomMachine.context r)
     = filter (fun x => negb (opt_eqb (peerId x) (n_peerId n))) (media c)
  /\ (forall x, In x (peers (RoomMachine.context r)) -> peer_id x <> n_peerId n)
  /\ (forall x, In x (media (RoomMachine.context r)) -> peerId x <> Some (n_peerId n))
  /\ effects r = effs ++ [sendBack (NOTIFICATION n)]
                      ++ closes_of (n_peerId n) (media c)
                      ++ [sendBack (PEER_LEFT (n_peerId n))]
  /\ actions r = acts ++ [send_to NotificationHandler (NOTIFICATION n) c].
Proof.
  intros Hn r.
  assert (E : r = mkRunning
                    (set_peers_media c
                       (filter (fun x => negb (peer_id x =? n_peerId n)) (peers c))
                       (filter (fun x => negb (opt_eqb (peerId x) (n_peerId n))) (media c)))
                    (Active (Connected sub))
                    (acts ++ [send_to NotificationHandler (NOTIFICATION n) c])
                    (effs ++ [sendBack (NOTIFICATION n)]
                          ++ closes_of (n_peerId n) (media c)
                          ++ [sendBack (PEER_LEFT (n_peerId n))])).
  { assert (S1 : socket_on_notification c n = [sendBack (NOTIFICATION n)]).
    { unfold socket_on_notification. rewrite Hn. reflexivity. }
    assert (S2 : notificationHandler c n
                 = closes_of (n_peerId n) (media c) ++ [sendBack (PEER_LEFT (n_peerId n))]).
    { unfold notificationHandler. rewrite Hn. cbn. reflexivity. }
    assert (S3 : forall l, sent_back (closes_of (n_peerId n) l) = []).
    { unfold closes_of. intros l.
      induction (filter (fun x => opt_eqb (peerId x) (n_peerId n)) l) as [|x l' IH];
        [reflexivity|].
      cbn [flat_map]. destruct (consumer x); cbn; exact IH. }
    assert (S4 : forall a b, sent_back (a ++ b) = sent_back a ++ sent_back b).
    { induction a as [|x a IH]; intros b; [reflexivity|].
      destruct x; cbn; rewrite ?IH; reflexivity. }
    unfold r, on_socket_notification.
    cbn [RoomMachine.context RoomMachine.state actions effects].
    rewrite S1. cbn [sent_back fold_left].
    unfold dispatch. cbn [RoomMachine.context RoomMachine.state actions effects].
    rewrite (connected_handles c sub (NOTIFICATION n) I).
    cbn [on_connected map run_service flat_map fst snd].
    rewrite S2, !app_nil_r, S4, S3. cbn [sent_back app fold_left]. unfold deliver.
    cbn [RoomMachine.context RoomMachine.state actions effects].
    rewrite (connected_handles c sub (PEER_LEFT (n_peerId n)) I).
    cbn [on_connected]. rewrite app_nil_r, <- app_assoc. reflexivity. }
  rewrite E. cbn [RoomMachine.context RoomMachine.state actions effects peers media
                  set_peers_media].
  split; [reflexivity|]. split; [reflexivity|]. split; [reflexivity|]. split.
  { intros x Hx. apply filter_In in Hx. destruct Hx as [_ Hx].
    apply negb_true_iff, String.eqb_neq in Hx. exact Hx. }
  split.
  { intros x Hx Hp. apply filter_In in Hx. destruct Hx as [_ Hx].
    rewrite Hp in Hx. cbn in Hx. rewrite String.eqb_refl in Hx. discriminate. }
  split; reflexivity.
Qed.

Lemma peerClosed_removes_the_peer_and_its_media_witness :
  n_name peer_y_closed = "peerClosed"
  /\ peers (RoomMachine.context
              (on_socket_notification
                 (a_server "producer-1")
                 (mkRunning (set_peers_media a_config [peer_x; peer_y] [a_closed_media])
                            (Active (Connected Joined)) [] [])
                 peer_y_closed))
     = filter (fun x => negb (peer_id x =? "peer-y")) [peer_x; peer_y].
Proof.
  split; [reflexivity|].
  exact (proj1 (proj2 (peerClosed_removes_the_peer_and_its_media
                         (a_server "producer-1")
                         (set_peers_media a_config [peer_x; peer_y] [a_closed_media])
                         Joined [] [] peer_y_closed eq_refl))).
Defined.

Lemma context_eta (c : Context) : set_peers_media c (peers c) (media c) = c.
Proof. destruct c. reflexivity. Qed.

(** X8. A peer that joins and then leaves, PEER_JOINED followed by
    PEER_LEFT, leaves the Session as it was, provided no peer and no
    Media of the list carried its id before; PEER_JOINED itself never
    looks for the id, so a peer announced twice is listed twice. *)
Theorem a_peer_joins_and_leaves
        (c : Context) (sub : ConnectedState) (p : Peer)
        (acts : list Action) (effs : list ServiceEffect) :
  (forall x, In x (peers c) -> peer_id x <> peer_id p) ->
  (forall x, In x (media c) -> peerId x <> Some (peer_id p)) ->
  let r0 := mkRunning c (Active (Connected sub)) acts effs in
  peers (RoomMachine.context (deliver (deliver r0 (PEER_JOINED p)) (PEER_JOINED p)))
  = peers c ++ [p; p]
  /\ deliver (deliver r0 (PEER_JOINED p)) (PEER_LEFT (peer_id p)) = r0.
Proof.
  intros Hp Hm r0. unfold r0, deliver.
  cbn [RoomMachine.context RoomMachine.state actions effects].
  rewrite (connected_handles c sub (PEER_JOINED p) I).
  cbn [on_connected RoomMachine.context RoomMachine.state actions effects].
  split.
  - rewrite (connected_handles _ sub (PEER_JOINED p) I). cbn.
    rewrite <- app_assoc. reflexivity.
  - rewrite (connected_handles _ sub (PEER_LEFT (peer_id p)) I).
    cbn [on_connected peers media set_peers_media].
    rewrite filter_app. cbn [filter]. rewrite String.eqb_refl. cbn [negb].
    rewrite !app_nil_r.
    rewrite (filter_all (fun x => negb (peer_id x =? peer_id p)) (peers c)).
    + rewrite (filter_all (fun x => negb (opt_eqb (peerId x) (peer_id p))) (media c)).
      * destruct c. reflexivity.
      * intros x Hx. apply negb_true_iff. specialize (Hm x Hx).
        destruct (peerId x) as [q|]; [|reflexivity]. cbn.
        apply String.eqb_neq. intros E. apply Hm. rewrite E. reflexivity.
    + intros x Hx. apply negb_true_iff, String.eqb_neq, Hp, Hx.
Qed.

Lemma a_peer_joins_and_leaves_witness :
  deliver (deliver joined_room (PEER_JOINED peer_y)) (PEER_LEFT "peer-y") = joined_room.
Proof.
  refine (proj2 (a_peer_joins_and_leaves
                   (RoomMachine.context joined_room) Joined peer_y
                   (actions joined_room) (effects joined_room) _ _)).
  - intros x [<- | [<- | []]]; discriminate.
  - intros x [].
Defined.

(** ** Join and leave *)

Lemma JOIN_runs_performJoin
      (env : Environment) (c : Context) (sub : ConnectedState)
      (acts : list Action) (effs : list ServiceEffect) :
  can_join sub = true ->
  dispatch env (mkRunning c (Active (Connected sub)) acts effs) JOIN
  = deliver (mkRunning c (Active (Connected Joining)) (acts ++ [start PerformJoin])
                       (effs ++ fst (performJoin env c)))
            (snd (performJoin env c)).
Proof.
  intros H. destruct sub; try discriminate H;
    unfold dispatch; cbn -[performJoin]; rewrite app_nil_r; reflexivity.
Qed.

(** X9. JOIN in [waiting] or [left], with every request accepted: the
    Session asks for a send transport, then (if it consumes) for a
    receive transport, then joins; it ends in [joined] with the roster
    the server answered followed by itself. The roster it held before is
    replaced, not merged, and a Session that does not consume holds no
    receive transport afterwards. *)
Theorem join_replaces_the_roster
        (env : Environment) (c : Context) (sub : ConnectedState)
        (acts : list Action) (effs : list ServiceEffect) (p : string) (d : Device) :
  can_join sub = true ->
  protoo c = Some p ->
  mediasoupDevice c = Some d ->
  produce (settings c) = true ->
  request_rejects env "createWebRtcTransport" = None ->
  request_rejects env "join" = None ->
  let r := dispatch env (mkRunning c (Active (Connected sub)) acts effs) JOIN in
  RoomMachine.state r = Active (Connected Joined)
  /\ peers (RoomMachine.context r)
     = join_response env ++ [mkPeer (my_peerId c) (peerInfo c) (browser c)]
  /\ media (RoomMachine.context r) = media c
  /\ sendTransport (RoomMachine.context r) = Some (transport_info env true)
  /\ recvTransport (RoomMachine.context r)
     = (if consume (settings c) then Some (transport_info env false) else None)
  /\ effects r = effs ++ handshake env c
  /\ actions r = acts ++ [start PerformJoin; stop PerformJoin; start CommandHandler].
Proof.
  intros Hs Hp Hd Hprod Ht Hj r. unfold r. rewrite (JOIN_runs_performJoin env c sub acts effs Hs).
  assert (E : performJoin env c
              = (handshake env c,
                 done_invoke_performJoin
                   (Some (mkJoinData
                            (join_response env
                               ++ [mkPeer (my_peerId c) (peerInfo c) (browser c)])
                            (Some (transport_info env true))
                            (if consume (settings c)
                             then Some (transport_info env false) else None)
                            (Some d))))).
  { unfold performJoin, handshake, protoo_request. rewrite Hprod, Hp, Hd, Ht, Hj.
    destruct (consume (settings c)); reflexivity. }
  rewrite E. unfold deliver. cbn. rewrite <- app_assoc. repeat split; reflexivity.
Qed.

Lemma join_replaces_the_roster_witness :
  RoomMachine.state (dispatch (a_server "producer-1") connected_room JOIN)
  = Active (Connected Joined)
  /\ peers (RoomMachine.context (dispatch (a_server "producer-1") connected_room JOIN))
     = join_response (a_server "producer-1")
       ++ [mkPeer (my_peerId a_config) (peerInfo a_config) (browser a_config)].
Proof.
  pose proof (join_replaces_the_roster
                (a_server "producer-1") (RoomMachine.context connected_room) CWaiting
                (actions connected_room) (effects connected_room) "protoo" a_device
                eq_refl eq_refl eq_refl eq_refl eq_refl eq_refl) as H.
  split; [exact (proj1 H) | exact (proj1 (proj2 H))].
Defined.

(** X10. A join whose [join] request is rejected leaves the Session in
    [connected.waiting] (also when it was asked from [left]) with the
    context it had: the transports created during the handshake are
    neither recorded nor closed. *)
Theorem rejected_join_returns_to_waiting
        (env : Environment) (c : Context) (sub : ConnectedState)
        (acts : list Action) (effs : list ServiceEffect) (message : string) :
  can_join sub = true ->
  produce (settings c) = true ->
  request_rejects env "join" = Some message ->
  let r := dispatch env (mkRunning c (Active (Connected sub)) acts effs) JOIN in
  RoomMachine.state r = Active (Connected CWaiting)
  /\ RoomMachine.context r = c
  /\ actions r = acts ++ [start PerformJoin; stop PerformJoin]
  /\ forall t, ~ In (transport_close t) (fst (performJoin env c)).
Proof.
  intros Hs Hprod Hj r. unfold r. rewrite (JOIN_runs_performJoin env c sub acts effs Hs).
  assert (E : snd (performJoin env c) = error_platform_performJoin
              /\ forall t, ~ In (transport_close t) (fst (performJoin env c))).
  { unfold performJoin, protoo_request. rewrite Hprod, Hj.
    destruct (protoo c); [|cbn; split; [reflexivity | intros t []]].
    destruct (request_rejects env "createWebRtcTransport");
      [cbn; split; [reflexivity | intros t [H|[]]; discriminate H]|].
    destruct (mediasoupDevice c);
      [|cbn; split; [reflexivity | intros t [H|[]]; discriminate H]].
    destruct (consume (settings c)); cbn; (split; [reflexivity|]);
      intros t H; repeat (destruct H as [H|H]; [discriminate H|]); exact H. }
  destruct E as [E1 E2]. rewrite E1. unfold deliver. cbn.
  rewrite <- app_assoc. repeat split; try reflexivity. exact E2.
Qed.

Lemma rejected_join_returns_to_waiting_witness :
  RoomMachine.state (dispatch a_full_room connected_room JOIN)
  = Active (Connected CWaiting)
  /\ RoomMachine.context (dispatch a_full_room connected_room JOIN)
     = RoomMachine.context connected_room.
Proof.
  pose proof (rejected_join_returns_to_waiting
                a_full_room (RoomMachine.context connected_room) CWaiting
                (actions connected_room) (effects connected_room) _
                eq_refl eq_refl eq_refl) as H.
  split; [exact (proj1 H) | exact (proj1 (proj2 H))].
Defined.

(** X11. A Session configured not to produce reaches [joined] without
    sending any request, the join request included: the whole handshake
    sits under [settings.produce], and the context is left as it was. *)
Theorem join_without_produce_sends_nothing
        (env : Environment) (c : Context) (sub : ConnectedState)
        (acts : list Action) (effs : list ServiceEffect) :
  can_join sub = true ->
  produce (settings c) = false ->
  dispatch env (mkRunning c (Active (Connected sub)) acts effs) JOIN
  = mkRunning c (Active (Connected Joined))
              (acts ++ [start PerformJoin; stop PerformJoin; start CommandHandler]) effs.
Proof.
  intros Hs Hprod. rewrite (JOIN_runs_performJoin env c sub acts effs Hs).
  unfold performJoin. rewrite Hprod. unfold deliver. cbn.
  rewrite <- app_assoc, app_nil_r. reflexivity.
Qed.

Lemma join_without_produce_sends_nothing_witness :
  dispatch (a_server "producer-1")
           (mkRunning a_viewer_config (Active (Connected CWaiting)) [] []) JOIN
  = mkRunning a_viewer_config (Active (Connected Joined))
              [start PerformJoin; stop PerformJoin; start CommandHandler] [].
Proof.
  exact (join_without_produce_sends_nothing
           (a_server "producer-1") a_viewer_config CWaiting [] [] eq_refl eq_refl).
Defined.

Lemma close_all_closes (c : Context) (p : string) (l : list Media) :
  protoo c = Some p ->
  snd (close_all c l) = inl tt
  /\ (forall m k, In m l -> consumer m = Some k ->
                  In (consumer_close (cap_id k)) (fst (close_all c l)))
  /\ (forall m k, In m l -> producer m = Some k ->
                  In (producer_close (cap_id k)) (fst (close_all c l))
                  /\ In (request "closeProducer" (cap_id k)) (fst (close_all c l))).
Proof.
  intros Hp. induction l as [|x l [IH1 [IH2 IH3]]].
  - cbn. split; [reflexivity|]. split; intros m k [].
  - assert (E : close_all c (x :: l)
                = ((match consumer x with
                    | Some k => [consumer_close (cap_id k)]
                    | None => []
                    end)
                   ++ (match producer x with
                       | Some k => [producer_close (cap_id k);
                                    request "closeProducer" (cap_id k)]
                       | None => []
                       end)
                   ++ fst (close_all c l), inl tt)).
    { cbn [close_all]. rewrite Hp.
      destruct (close_all c l) as [es [[]|msg]] eqn:El; [|discriminate IH1].
      destruct (consumer x), (producer x); cbn; rewrite ?El; reflexivity. }
    rewrite E. cbn [fst snd]. split; [reflexivity|]. split.
    + intros m k [<-|Hm] Hk.
      * rewrite Hk. left. reflexivity.
      * apply in_or_app. right. apply in_or_app. right. exact (IH2 m k Hm Hk).
    + intros m k [<-|Hm] Hk.
      * rewrite Hk. split; apply in_or_app; right; apply in_or_app; left;
          [left | right; left]; reflexivity.
      * destruct (IH3 m k Hm Hk) as [A B].
        split; apply in_or_app; right; apply in_or_app; right; assumption.
Qed.

(** X12. LEAVE in [joined] closes the consumer and the producer of every
    Media and both transports before it sends the Leave request. If the
    server accepts it the Session is [left] with an empty roster and an
    empty media list, and still holds the transports it closed; if the
    server rejects it the Session is back in [joined] and still lists
    the roster and the media it had, although they have been closed. *)
Theorem leave_closes_before_it_asks
        (env : Environment) (c : Context) (acts : list Action)
        (effs : list ServiceEffect) (p : string) :
  protoo c = Some p ->
  let r := dispatch env (mkRunning c (Active (Connected Joined)) acts effs) LEAVE in
  (exists closing,
      effects r = effs ++ closing ++ [request "Leave" ""]
      /\ (forall m k, In m (media c) -> consumer m = Some k ->
                      In (consumer_close (cap_id k)) closing)
      /\ (forall m k, In m (media c) -> producer m = Some k ->
                      In (producer_close (cap_id k)) closing
                      /\ In (request "closeProducer" (cap_id k)) closing)
      /\ (forall t, sendTransport c = Some t \/ recvTransport c = Some t ->
                    In (transport_close t) closing))
  /\ match request_rejects env "Leave" with
     | None => RoomMachine.state r = Active (Connected Left)
               /\ RoomMachine.context r = reset c
               /\ sendTransport (RoomMachine.context r) = sendTransport c
               /\ recvTransport (RoomMachine.context r) = recvTransport c
     | Some _ => RoomMachine.state r = Active (Connected Joined)
                 /\ peers (RoomMachine.context r) = peers c
                 /\ map id (media (RoomMachine.context r)) = map id (media c)
     end.
Proof.
  intros Hp r.
  destruct (close_all_closes c p (media c) Hp) as [C1 [C2 C3]].
  set (transports := (match sendTransport c with Some t => [transport_close t] | None => [] end)
                     ++ (match recvTransport c with Some t => [transport_close t] | None => [] end)).
  assert (E : performLeave env c
              = (fst (close_all c (media c)) ++ transports ++ [request "Leave" ""],
                 match request_rejects env "Leave" with
                 | None => done_invoke_performLeave
                 | Some _ => error_platform_performLeave
                 end)).
  { unfold performLeave, protoo_request, transports. rewrite Hp.
    destruct (close_all c (media c)) as [es [[]|msg]]; [|discriminate C1].
    destruct (sendTransport c), (recvTransport c), (request_rejects env "Leave");
      cbn; rewrite ?app_nil_r; reflexivity. }
  assert (R : r = deliver (mkRunning c (Active (Connected Leaving))
                                     (acts ++ [stop CommandHandler; start PerformLeave])
                                     (effs ++ fst (performLeave env c)))
                          (snd (performLeave env c))).
  { unfold r, dispatch. cbn -[performLeave]. rewrite app_nil_r. reflexivity. }
  rewrite R, E. cbn [fst snd]. split.
  - exists (fst (close_all c (media c)) ++ transports). split.
    + unfold deliver. cbn [RoomMachine.context RoomMachine.state actions effects].
      destruct (request_rejects env "Leave"); cbn; rewrite <- !app_assoc; reflexivity.
    + split; [|split].
      * intros m k Hm Hk. apply in_or_app. left. exact (C2 m k Hm Hk).
      * intros m k Hm Hk. destruct (C3 m k Hm Hk).
        split; apply in_or_app; left; assumption.
      * intros t [Ht|Ht]; apply in_or_app; right; unfold transports; rewrite Ht.
        -- left. reflexivity.
        -- apply in_or_app. right. left. reflexivity.
  - unfold deliver. cbn [RoomMachine.context RoomMachine.state actions effects].
    destruct (request_rejects env "Leave"); cbn; repeat split; reflexivity.
Qed.

Lemma leave_closes_before_it_asks_witness :
  RoomMachine.state (dispatch (a_server "producer-1") joined_room LEAVE)
  = Active (Connected Left)
  /\ media (RoomMachine.context (dispatch (a_server "producer-1") joined_room LEAVE)) = [].
Proof.
  pose proof (proj2 (leave_closes_before_it_asks
                       (a_server "producer-1") (RoomMachine.context joined_room)
                       (actions joined_room) (effects joined_room) "protoo" eq_refl)) as H.
  cbn in H. split; [exact (proj1 H) | exact (f_equal media (proj1 (proj2 H)))].
Defined.

(** ** Requests of the server *)

Lemma filter_answers_app (a b : list ServiceEffect) :
  filter is_answer (a ++ b) = filter is_answer a ++ filter is_answer b.
Proof. apply filter_app. Qed.

(** X13. A newConsumer request received in any substate of [connected]
    is answered exactly once. When the Session has a receive transport
    and consuming succeeds, the answer is accept and one Media, named by
    the consumer's id and carrying the peer, type, device and label of
    the request, is appended to the list (whether or not that peer is in
    the roster); otherwise the answer is reject 403 and the list is
    unchanged. The roster and the state are untouched in both cases. *)
Theorem newConsumer_is_answered_once
        (env : Environment) (c : Context) (sub : ConnectedState)
        (acts : list Action) (effs : list ServiceEffect) (q : IncomingRequest) :
  req_name q = "newConsumer" ->
  let r := on_socket_request env (mkRunning c (Active (Connected sub)) acts effs) q in
  RoomMachine.state r = Active (Connected sub)
  /\ peers (RoomMachine.context r) = peers c
  /\ match recvTransport c, consumed env q with
     | Some _, inl (k, t) =>
         media (RoomMachine.context r)
         = media c ++ [mkMedia (cap_id k) (cap_kind k) (req_type q) (req_label q)
                               (Some t) (Some k) None (req_deviceId q)
                               (Some (req_peerId q)) (Some (cap_id k))]
         /\ filter is_answer (effects r) = filter is_answer effs ++ [accept]
     | _, _ =>
         media (RoomMachine.context r) = media c
         /\ exists reason,
             filter is_answer (effects r) = filter is_answer effs ++ [reject 403 reason]
     end.
Proof.
  intros Hq r.
  assert (R : r = let es := requestHandler env c q in
                  fold_left deliver (sent_back es)
                            (mkRunning c (Active (Connected sub))
                                       (acts ++ [send_to RequestHandler (REQUEST q) c])
                                       (effs ++ es))).
  { unfold r, on_socket_request, socket_on_request. cbn [sent_back fold_left].
    unfold dispatch. cbn [RoomMachine.context RoomMachine.state actions effects].
    rewrite (connected_handles c sub (REQUEST q) I).
    cbn [on_connected map run_service flat_map fst snd]. rewrite !app_nil_r. reflexivity. }
  rewrite R. clear R r. unfold requestHandler. rewrite Hq. cbn [String.eqb Ascii.eqb Bool.eqb].
  destruct (recvTransport c) as [t|].
  - destruct (consumed env q) as [[k tr]|msg]; cbn.
    + unfold deliver. cbn [RoomMachine.context RoomMachine.state actions effects].
      destruct sub; cbn; rewrite filter_answers_app; cbn; repeat split; reflexivity.
    + rewrite filter_answers_app. cbn. repeat split. exists msg. reflexivity.
  - cbn. rewrite filter_answers_app. cbn. repeat split. eexists. reflexivity.
Qed.

Lemma newConsumer_is_answered_once_witness :
  filter is_answer
         (effects (on_socket_request (a_server "producer-1") joined_room
                                     a_newConsumer_request))
  = [accept].
Proof.
  exact (proj2 (proj2 (proj2 (newConsumer_is_answered_once
                                (a_server "producer-1") (RoomMachine.context joined_room)
                                Joined (actions joined_room) (effects joined_room)
                                a_newConsumer_request eq_refl)))).
Defined.

(** ** Commands *)

Ltac branches :=
  repeat match goal with
         | |- context [match find ?f ?l with _ => _ end] =>
             destruct (find f l) eqn:?; cbn in *
         | |- context [match ?x with _ => _ end] =>
             lazymatch x with
             | context [match _ with _ => _ end] => fail
             | _ => destruct x eqn:?
             end; cbn in *
         end.

Ltac run_command :=
  unfold commandHandler, protoo_request, sendTransport_produce, track_of, getMedia,
    to_actor, need, lift; cbn.

(** X14. Every command is answered by at most one event: either one
    COMMAND_FAILED or one LOCAL_MEDIA_ADDED, or nothing at all. *)
Theorem a_command_sends_back_at_most_one_event
        (env : Environment) (c : Context) (cmd : Command) :
  (List.length (sent_back (commandHandler env c cmd)) <= 1)%nat.
Proof.
  destruct cmd; run_command; branches; cbn; lia.
Qed.

(** X15. No producer or consumer is paused, resumed or closed by a
    command unless the server accepted a request first; and when the
    server rejects the request of PauseMedia, ResumeMedia or
    StopSendingMedia for a Media that has a consumer or a producer, the
    machine of that Media is not told either. *)
Theorem nothing_is_touched_without_consent
        (env : Environment) (c : Context) (cmd : Command) :
  (forall method, request_rejects env method <> None) ->
  filter is_capability_call (commandHandler env c cmd) = []
  /\ (asks_first cmd = true ->
      forall mediaId m,
        command_mediaId cmd = Some mediaId ->
        find_media c mediaId = Some m ->
        consumer m <> None \/ producer m <> None ->
        filter is_actor_send (commandHandler env c cmd) = []).
Proof.
  intros H. split.
  - destruct cmd; run_command; branches; cbn;
      try reflexivity; exfalso; eapply H; eassumption.
  - intros Ha mediaId m Hc Hf Hm.
    destruct cmd; try discriminate Ha; cbn in Hc; injection Hc as ->;
      run_command; rewrite Hf; branches; cbn; try reflexivity;
      try (exfalso; eapply H; eassumption);
      destruct Hm as [Hm|Hm]; exfalso; apply Hm; first [assumption | reflexivity].
Qed.

Lemma nothing_is_touched_without_consent_witness :
  filter is_capability_call
         (commandHandler a_deaf_server (a_room_with [a_remote_media]) (PauseMedia "m-4"))
  = []
  /\ filter is_actor_send
            (commandHandler a_deaf_server (a_room_with [a_remote_media]) (PauseMedia "m-4"))
     = [].
Proof.
  assert (H : forall method, request_rejects a_deaf_server method <> None)
    by (intros method; discriminate).
  split.
  - exact (proj1 (nothing_is_touched_without_consent
                    a_deaf_server (a_room_with [a_remote_media]) (PauseMedia "m-4") H)).
  - refine (proj2 (nothing_is_touched_without_consent
                     a_deaf_server (a_room_with [a_remote_media]) (PauseMedia "m-4") H)
                  eq_refl "m-4" a_remote_media eq_refl eq_refl _).
    left. discriminate.
Defined.

(** X16. LOCAL_MEDIA_ADDED is only ever sent back by SendAudio or
    SendVideo, after the send transport produced: the Media it carries
    has the id and kind of the new producer, this peer's id, the track
    that was produced (the one of the payload, or else the first track
    getUserMedia gave), no consumer and no actor yet. *)
Theorem local_media_comes_with_its_producer
        (env : Environment) (c : Context) (cmd : Command) (m : Media) :
  In (LOCAL_MEDIA_ADDED m) (sent_back (commandHandler env c cmd)) ->
  exists payload k p t,
    (cmd = SendAudio payload /\ k = audio \/ cmd = SendVideo payload /\ k = video)
    /\ (def_track payload = Some t
        \/ def_track payload = None
           /\ user_media env k (def_deviceId payload) = inl (Some t))
    /\ produced env (Some t) = inl p
    /\ sendTransport c <> None
    /\ m = local_media c p t payload.
Proof.
  destruct cmd; run_command; branches; cbn; intros HIn;
    repeat (destruct HIn as [HIn|HIn]; [try discriminate HIn|]);
    try contradiction;
    injection HIn as <-; subst;
    do 4 eexists;
    (split; [first [left; split; reflexivity | right; split; reflexivity]|]);
    (split; [first [left; eassumption | right; split; eassumption]|]);
    (split; [eassumption|]); (split; [congruence | reflexivity]).
Qed.

Lemma local_media_comes_with_its_producer_witness :
  exists payload k p t,
    (SendAudio a_microphone = SendAudio payload /\ k = audio
     \/ SendAudio a_microphone = SendVideo payload /\ k = video)
    /\ (def_track payload = Some t
        \/ def_track payload = None
           /\ user_media (a_server "producer-1") k (def_deviceId payload) = inl (Some t))
    /\ produced (a_server "producer-1") (Some t) = inl p
    /\ sendTransport (RoomMachine.context joined_room) <> None
    /\ local_media (RoomMachine.context joined_room)
                   (MediaMachine.mkCap "producer-1" audio false false)
                   microphone_track a_microphone
       = local_media (RoomMachine.context joined_room) p t payload.
Proof.
  apply (local_media_comes_with_its_producer
           (a_server "producer-1") (RoomMachine.context joined_room)
           (SendAudio a_microphone)).
  left. reflexivity.
Defined.

(** X17. StopSendingMedia, SwitchVideo and SwitchAudio on a Media this
    peer consumes (it has no producer) only answer COMMAND_FAILED 'Media
    is not sending': no request is sent, no track is asked for, and the
    Media's machine is not told. *)
Theorem a_consumed_media_is_not_sending
        (env : Environment) (c : Context) (cmd : Command) (mediaId : string) (m : Media) :
  needs_producer cmd = true ->
  command_mediaId cmd = Some mediaId ->
  find_media c mediaId = Some m ->
  producer m = None ->
  commandHandler env c cmd
  = [sendBack (COMMAND_FAILED (command_name cmd) "Media is not sending")].
Proof.
  intros Hn Hc Hf Hp.
  destruct cmd; try discriminate Hn; cbn in Hc; injection Hc as ->;
    unfold commandHandler; rewrite Hf, Hp; reflexivity.
Qed.

Lemma a_consumed_media_is_not_sending_witness :
  commandHandler (a_server "producer-1") (a_room_with [a_remote_media])
                 (SwitchVideo "m-4" a_microphone)
  = [sendBack (COMMAND_FAILED "SwitchVideo" "Media is not sending")].
Proof.
  exact (a_consumed_media_is_not_sending
           (a_server "producer-1") (a_room_with [a_remote_media])
           (SwitchVideo "m-4" a_microphone) "m-4" a_remote_media
           eq_refl eq_refl eq_refl eq_refl).
Defined.

End RoomMachineRuns.

(** * The legacy Media: closing and the dependants *)
Module LegacyMediaRuns.

Import LegacyMedia.
Import Examples.

Ltac split_all := repeat match goal with |- _ /\ _ => split end.

(** X18. [close] stops the track and closes the producer and the
    consumer that are still open, once: on the Media it returns, the
    track is gone, every capability is closed and the state is inactive
    or, without a consumer and with dependants left, local; closing
    that Media again changes nothing and can only re-arm the timer that
    re-initializes the local track. *)
Theorem close_closes_once (m : Media) :
  let m1 := fst (close m) in
  fst (close m1) = m1
  /\ (forall e, In e (snd (close m1)) -> e = setTimeout_initializeLocalTrack 1000)
  /\ (state m <> inactive ->
      track m1 = None
      /\ (forall p, producer m1 = Some p -> closed p = true)
      /\ (forall c, consumer m1 = Some c -> closed c = true)
      /\ (state m1 = inactive
          \/ state m1 = local /\ consumer m = None /\ dependants m <> [])).
Proof.
  destruct m as [i s pe ty de tr co pr lp rp deps].
  unfold close, clearTrack.
  destruct s; destruct tr as [t|]; destruct co as [[ci [|] cl cr]|];
    destruct pr as [[pi [|] pl prr]|]; destruct deps as [|d deps]; cbn;
    split_all; try reflexivity;
    try (intros e He; repeat (destruct He as [He|He]; [now subst|]); now destruct He);
    try (intros H; now destruct H);
    intros _; split_all; try reflexivity;
    try (intros x Hx; now inversion Hx);
    try (now left); try (right; split_all; [reflexivity | reflexivity | discriminate]).
Qed.

Lemma close_closes_once_witness :
  track (fst (close a_live_microphone)) = None
  /\ fst (close (fst (close a_live_microphone))) = fst (close a_live_microphone).
Proof.
  split.
  - refine (proj1 (proj2 (proj2 (close_closes_once a_live_microphone)) _)).
    discriminate.
  - exact (proj1 (close_closes_once a_live_microphone)).
Defined.





End LegacyMediaRuns.

(** * The legacy Room: closing, reconnecting, answering *)
Module LegacyRoomRuns.

Import LegacyRoom.
Import Examples.

(** X20. [close] is final and runs once: the Room it returns is closed,
    and closing it again, with or without the intent to leave, does
    nothing at all. A Room that was not closed loses its intent to join,
    leaves the mediasoup room, closes every Media, and closes the
    channel exactly when one had been created; closed with the intent
    to leave it is also no longer visible. *)
Theorem close_is_final (withIntentToLeave again : bool) (r : Room) :
  let r1 := fst (close withIntentToLeave r) in
  let e := snd (close withIntentToLeave r) in
  state r1 = closed
  /\ close again r1 = (r1, [])
  /\ (state r <> closed ->
      intentToJoin r1 = false
      /\ (withIntentToLeave = true -> isVisible r1 = false)
      /\ In mediasoupRoom_leave e /\ In media_forEach_close e
      /\ (In protoo_close e <-> protoo r = true)).
Proof.
  destruct r as [p s pid mp ps h v i log sp hm rc]. unfold close. cbn.
  destruct s; cbn; (split; [reflexivity|]); (split; [reflexivity|]);
    intros Hs; try (now destruct Hs);
    (split; [reflexivity|]);
    (split; [intros ->; reflexivity|]);
    (split; [right; left; reflexivity|]);
    (split; [right; right; left; reflexivity|]);
    destruct p; cbn; split; intros H; try reflexivity; try discriminate H;
    try (right; right; right; left; reflexivity);
    repeat (destruct H as [H|H]; [discriminate H|]); destruct H.
Qed.

Lemma close_is_final_witness :
  intentToJoin (fst (close true a_joined_room)) = false
  /\ isVisible (fst (close true a_joined_room)) = false.
Proof.
  assert (Hs : state a_joined_room <> closed) by discriminate.
  pose proof (proj2 (proj2 (close_is_final true false a_joined_room)) Hs) as R.
  split; [exact (proj1 R) | exact (proj1 (proj2 R) eq_refl)].
Defined.

(** X21. When the channel is lost and opens again, the Room rejoins by
    itself exactly when it was connected at the time of the loss: the
    'disconnected' listener leaves with the intent to rejoin only then,
    and the 'open' listener joins only with that intent. A Room that
    was not connected is left in connecting, no longer visible, and
    waits for its owner. *)
Theorem the_room_rejoins_if_it_was_connected (r : Room) :
  let r1 := fst (on_protoo_disconnected r) in
  let r2 := fst (on_protoo_open false r1) in
  let e2 := snd (on_protoo_open false r1) in
  state r1 = reconnecting
  /\ intentToJoin r1 = STATE_eqb (state r) connected
  /\ (In mediasoupRoom_join e2 <-> state r = connected)
  /\ (state r = connected ->
      state r2 = preparing /\ intentToJoin r2 = true
      /\ isVisible r2 = (if isHost r then isVisible r else true))
  /\ (state r <> connected ->
      state r2 = connecting /\ intentToJoin r2 = false /\ isVisible r2 = false
      /\ e2 = [trigger "status:resolve"]).
Proof.
  destruct r as [p s pid mp ps h v i log sp hm rc].
  unfold on_protoo_disconnected, on_protoo_open, leave, join, exit_silent.
  destruct s; cbn; (split; [reflexivity|]); (split; [reflexivity|]);
    (split; [split; intros H; try reflexivity; try discriminate H;
             try (right; right; left; reflexivity);
             repeat (destruct H as [H|H]; [discriminate H|]); destruct H|]);
    (split; intros H; try discriminate H; try (now destruct H));
    repeat split; destruct h; reflexivity.
Qed.

Lemma the_room_rejoins_if_it_was_connected_witness :
  state (fst (on_protoo_open false (fst (on_protoo_disconnected a_joined_room))))
  = preparing
  /\ state (fst (on_protoo_open false (fst (on_protoo_disconnected a_new_room))))
     = connecting.
Proof.
  split.
  - exact (proj1 (proj1 (proj2 (proj2 (proj2 (the_room_rejoins_if_it_was_connected
                                                a_joined_room)))) eq_refl)).
  - refine (proj1 (proj2 (proj2 (proj2 (proj2 (the_room_rejoins_if_it_was_connected
                                                 a_new_room)))) _)).
    discriminate.
Defined.

Ltac ifs :=
  repeat match goal with
         | |- context [if ?b then _ else _] => destruct b
         end.

Lemma heartbeat_answers_nothing (q : Request) (r : Room) :
  filter is_answer (snd (heartbeat q r)) = [].
Proof. unfold heartbeat, close, open. ifs; reflexivity. Qed.

Lemma onMessage_answers_nothing (q : Request) (r : Room) :
  filter is_answer (snd (onMessage q r)) = [].
Proof. unfold onMessage, leave. ifs; reflexivity. Qed.

(** X22. Every request of the server is answered exactly once, and
    before anything else is done with it: accept comes first for the
    five methods the Room knows, and a request with any other method is
    rejected with 404 and leaves the Room untouched. *)
Theorem every_request_is_answered_first (q : Request) (r : Room) :
  exists answer rest,
    snd (handleProtooRequest q r) = answer :: rest
    /\ filter is_answer rest = []
    /\ (In (method q) recognized_methods -> answer = accept)
    /\ (~ In (method q) recognized_methods ->
        answer = reject 404 "unknown method" /\ rest = []
        /\ fst (handleProtooRequest q r) = r).
Proof.
  unfold handleProtooRequest, recognized_methods.
  destruct (method q =? "event") eqn:E1.
  { apply String.eqb_eq in E1. eexists _, _. split; [reflexivity|]. split.
    - ifs; reflexivity.
    - split; [reflexivity|]. intros H. exfalso. apply H. rewrite E1. cbn. tauto. }
  destruct (method q =? "heartbeat") eqn:E2.
  { apply String.eqb_eq in E2. pose proof (heartbeat_answers_nothing q r) as Hh.
    destruct (heartbeat q r) as [r' e]. eexists _, _. split; [reflexivity|]. split.
    - exact Hh.
    - split; [reflexivity|]. intros H. exfalso. apply H. rewrite E2. cbn. tauto. }
  destruct (method q =? "mediasoup-notification") eqn:E3.
  { apply String.eqb_eq in E3. eexists _, _. split; [reflexivity|]. split.
    - reflexivity.
    - split; [reflexivity|]. intros H. exfalso. apply H. rewrite E3. cbn. tauto. }
  destruct (method q =? "active-speaker") eqn:E4.
  { apply String.eqb_eq in E4. eexists _, _. split; [reflexivity|]. split.
    - reflexivity.
    - split; [reflexivity|]. intros H. exfalso. apply H. rewrite E4. cbn. tauto. }
  destruct (method q =? "message") eqn:E5.
  { apply String.eqb_eq in E5. pose proof (onMessage_answers_nothing q r) as Hm.
    destruct (onMessage q r) as [r' e]. eexists _, _. split; [reflexivity|]. split.
    - exact Hm.
    - split; [reflexivity|]. intros H. exfalso. apply H. rewrite E5. cbn. tauto. }
  apply String.eqb_neq in E1, E2, E3, E4, E5.
  eexists _, _. split; [reflexivity|]. split; [reflexivity|]. split.
  - intros [H|[H|[H|[H|[H|[]]]]]]; exfalso; congruence.
  - intros _. repeat split.
Qed.

Lemma every_request_is_answered_first_witness :
  snd (handleProtooRequest an_unknown_method a_joined_room)
  = [reject 404 "unknown method"]
  /\ fst (handleProtooRequest an_unknown_method a_joined_room) = a_joined_room.
Proof.
  destruct (every_request_is_answered_first an_unknown_method a_joined_room)
    as [answer [rest [E [_ [_ H]]]]].
  assert (Hn : ~ In (method an_unknown_method) recognized_methods).
  { intros [H0|[H0|[H0|[H0|[H0|[]]]]]]; discriminate H0. }
  destruct (H Hn) as [-> [-> Hr]]. split; [exact E | exact Hr].
Defined.

End LegacyRoomRuns.

(** * The roster of the legacy Room *)
Module LegacyPeersProps.

Import LegacyPeers.
Import Examples.

Lemma guestPeers_split (r : Room) :
  guestPeers r
  = (List.length (filter is_guest (peers r)) + (if is_guest (myPeer r) then 1 else 0))%nat.
Proof.
  unfold guestPeers. rewrite filter_app, length_app. cbn.
  destruct (is_guest (myPeer r)); reflexivity.
Qed.

Lemma Collection_add_guests (p : Peer) (l : list Peer) :
  (List.length (filter is_guest (Collection_add p l))
   <= List.length (filter is_guest l) + (if is_guest p then 1 else 0))%nat.
Proof.
  unfold Collection_add. destruct (existsb (fun x => id x =? id p) l); [lia|].
  rewrite filter_app, length_app. cbn. destruct (is_guest p); cbn; lia.
Qed.

Lemma Collection_remove_guests (p : Peer) (l : list Peer) :
  (List.length (filter is_guest (Collection_remove p l))
   <= List.length (filter is_guest l))%nat.
Proof.
  unfold Collection_remove. induction l as [|x l IH]; [cbn; lia|].
  cbn. destruct (negb (id x =? id p)); cbn; destruct (is_guest x); cbn; lia.
Qed.

Lemma handlePeer_bound (p : Peer) (r : Room) :
  isUser (myPeer r) = true ->
  (guestPeers (snd (handlePeer p r)) <= Nat.max (guestPeers r) (maxGuests r))%nat
  /\ myPeer (snd (handlePeer p r)) = myPeer r
  /\ maxGuests (snd (handlePeer p r)) = maxGuests r.
Proof.
  intros Hme. unfold handlePeer. rewrite Hme. cbn [andb].
  destruct (isUser p && negb (isHost p)) eqn:Hg; cbn [andb].
  - destruct (maxGuests r <=? guestPeers r)%nat eqn:Hfull; cbn [snd].
    + repeat split. lia.
    + apply Nat.leb_gt in Hfull. repeat split.
      rewrite guestPeers_split in *. cbn [peers myPeer set_peers].
      pose proof (Collection_add_guests p (peers r)) as Ha.
      destruct (is_guest p); lia.
  - cbn [snd]. repeat split.
    rewrite !guestPeers_split. cbn [peers myPeer set_peers].
    pose proof (Collection_add_guests p (peers r)) as Ha.
    assert (Hp : is_guest p = false).
    { unfold is_guest. rewrite andb_comm. exact Hg. }
    rewrite Hp in Ha. lia.
Qed.

Lemma on_newpeer_room (p : Peer) (r : Room) :
  fst (on_newpeer p r) = snd (handlePeer p r).
Proof.
  unfold on_newpeer. destruct (handlePeer p r) as [[|] r']; cbn;
    [reflexivity|]. destruct (isVisible p && isUser p); reflexivity.
Qed.

Lemma perform_bound (c : Call) (r : Room) :
  isUser (myPeer r) = true ->
  (guestPeers (perform r c) <= Nat.max (guestPeers r) (maxGuests r))%nat
  /\ myPeer (perform r c) = myPeer r
  /\ maxGuests (perform r c) = maxGuests r.
Proof.
  intros Hme. destruct c as [p|p|p]; cbn [perform].
  - rewrite on_newpeer_room. apply handlePeer_bound, Hme.
  - apply handlePeer_bound, Hme.
  - unfold on_peer_close. cbn [fst]. split; [|split; reflexivity].
    rewrite !guestPeers_split. cbn [peers myPeer set_peers].
    pose proof (Collection_remove_guests p (peers r)). lia.
Qed.

(** X23. The guest limit of the legacy Room. Seen from a user, whatever
    peers arrive, were present at the join or close, the number of
    guests (peers that are users and not hosts, this peer included)
    never exceeds the larger of maxGuests and the number it started
    with. A guest who arrives when the room is full is kicked and not
    added; a host or a service feed is never turned away, and a Room
    whose own peer is not a user turns nobody away. *)
Theorem the_room_is_never_overfilled (calls : list Call) (r : Room) :
  (isUser (myPeer r) = true ->
   (guestPeers (run calls r) <= Nat.max (guestPeers r) (maxGuests r))%nat)
  /\ (forall p, isUser (myPeer r) = true -> is_guest p = true ->
                (maxGuests r <= guestPeers r)%nat ->
                on_newpeer p r = (r, [sendEvent_kick (id p)]))
  /\ (forall p, is_guest p = false \/ isUser (myPeer r) = false ->
                fst (handlePeer p r) = false).
Proof.
  split; [|split].
  - intros Hme. unfold run.
    assert (G : forall l r0,
               isUser (myPeer r0) = true ->
               (guestPeers (fold_left perform l r0)
                <= Nat.max (guestPeers r0) (maxGuests r0))%nat).
    { induction l as [|c l IH]; intros r0 H0; [cbn; lia|].
      cbn [fold_left].
      destruct (perform_bound c r0 H0) as [B [M X]].
      assert (H1 : isUser (myPeer (perform r0 c)) = true) by (rewrite M; exact H0).
      specialize (IH (perform r0 c) H1). rewrite X in IH. lia. }
    apply G, Hme.
  - intros p Hme Hg Hfull. unfold on_newpeer, handlePeer.
    unfold is_guest in Hg. apply andb_true_iff in Hg. destruct Hg as [Hh Hu].
    rewrite Hme, Hu, Hh. apply Nat.leb_le in Hfull. rewrite Hfull. reflexivity.
  - intros p [Hg|Hme]; unfold handlePeer.
    + unfold is_guest in Hg.
      destruct (isUser (myPeer r)), (isUser p), (isHost p); cbn in *;
        try reflexivity; discriminate Hg.
    + rewrite Hme. reflexivity.
Qed.

Lemma the_room_is_never_overfilled_witness :
  (guestPeers (run [newpeer (guest "bob"); newpeer (guest "carol");
                    peer_close (guest "alice"); newpeer (guest "dave");
                    newpeer (guest "erin")]
                   a_small_room) <= 3)%nat
  /\ on_newpeer (guest "carol") (run [newpeer (guest "bob")] a_small_room)
     = (run [newpeer (guest "bob")] a_small_room, [sendEvent_kick "carol"]).
Proof.
  split.
  - exact (proj1 (the_room_is_never_overfilled
                    [newpeer (guest "bob"); newpeer (guest "carol");
                     peer_close (guest "alice"); newpeer (guest "dave");
                     newpeer (guest "erin")]
                    a_small_room) eq_refl).
  - refine (proj1 (proj2 (the_room_is_never_overfilled
                            [] (run [newpeer (guest "bob")] a_small_room)))
                  (guest "carol") eq_refl eq_refl _).
    vm_compute. lia.
Defined.

End LegacyPeersProps.

(** * The watchers of a Session *)
Module WatchersProps.

Import MediaMachine.
Import Watchers.
Import Examples.

Lemma available_in (l : MediaAvailability) (a : Media) :
  existsb (fun x => (id (fst x) =? id a) && snd x) l = true
  <-> exists x, In (x, true) l /\ id x = id a.
Proof.
  rewrite existsb_exists. split.
  - intros [[m b] [Hin H]]. cbn in H. apply andb_true_iff in H. destruct H as [Hi Hb].
    subst b. apply String.eqb_eq in Hi. exists m. split; assumption.
  - intros [x [Hin Hi]]. exists (x, true). split; [exact Hin|]. cbn.
    rewrite Hi, String.eqb_refl. reflexivity.
Qed.

Lemma found_is_available (l : MediaAvailability) (o : MediaWatchOptions)
      (x : Media * bool) :
  find (fun x => snd x && mediaMatchesWatchOptions (fst x) o) l = Some x ->
  In (fst x, true) l /\ mediaMatchesWatchOptions (fst x) o = true.
Proof.
  intros H. apply find_some in H. destruct H as [Hin H]. destruct x as [m b].
  cbn in *. apply andb_true_iff in H. destruct H as [-> Hm]. split; assumption.
Qed.

(** X24. [getActiveMediaForWatcher]. A watcher keeps the Media it holds
    for as long as a Media with that id is available, whatever else has
    appeared and whether or not it still matches the options: nothing is
    returned and the settings are not touched. Otherwise it is given the
    first available Media that matches its options, or nothing. What it
    holds afterwards is always available in the list, and asking again
    with the same list returns nothing and changes nothing. *)
Theorem a_watcher_holds_on_to_its_media
        (mediaList : MediaAvailability) (settings : WatcherSettings) :
  let settings' := fst (getActiveMediaForWatcher mediaList settings) in
  let given := snd (getActiveMediaForWatcher mediaList settings) in
  options settings' = options settings
  /\ (forall a, active_media settings = Some a ->
                (exists x, In (x, true) mediaList /\ id x = id a) ->
                settings' = settings /\ given = None)
  /\ (forall m, given = Some m ->
                In (m, true) mediaList
                /\ mediaMatchesWatchOptions m (options settings) = true
                /\ active_media settings' = Some m)
  /\ (forall a, active_media settings' = Some a ->
                exists x, In (x, true) mediaList /\ id x = id a)
  /\ getActiveMediaForWatcher mediaList settings' = (settings', None).
Proof.
  cbv zeta.
  destruct (match active_media settings with
            | Some a => existsb (fun x => (id (fst x) =? id a) && snd x) mediaList
            | None => false
            end) eqn:Hstill.
  - assert (E : getActiveMediaForWatcher mediaList settings = (settings, None))
      by (unfold getActiveMediaForWatcher; rewrite Hstill; reflexivity).
    rewrite E. cbn [fst snd].
    split; [reflexivity|]. split; [intros; split; reflexivity|].
    split; [intros m H; discriminate H|]. split.
    + intros a Ha. rewrite Ha in Hstill. apply available_in. exact Hstill.
    + exact E.
  - destruct (find (fun x => snd x && mediaMatchesWatchOptions (fst x) (options settings))
                   mediaList) as [x|] eqn:Hfind.
    + assert (E : getActiveMediaForWatcher mediaList settings
                  = (mkWatcher (options settings) (Some (fst x)), Some (fst x)))
        by (unfold getActiveMediaForWatcher; rewrite Hstill, Hfind; reflexivity).
      rewrite E. cbn [fst snd options active_media].
      destruct (found_is_available mediaList (options settings) x Hfind) as [Hin Hm].
      split; [reflexivity|]. split.
      { intros a Ha Hx. rewrite Ha in Hstill. apply available_in in Hx.
        rewrite Hx in Hstill. discriminate Hstill. }
      split; [intros m H; injection H as <-; repeat split; assumption|].
      split.
      * intros a H. injection H as <-. exists (fst x). split; [exact Hin | reflexivity].
      * unfold getActiveMediaForWatcher. cbn [active_media options].
        assert (A : existsb (fun y => (id (fst y) =? id (fst x)) && snd y) mediaList = true).
        { apply available_in. exists (fst x). split; [exact Hin | reflexivity]. }
        rewrite A. reflexivity.
    + assert (E : getActiveMediaForWatcher mediaList settings
                  = (mkWatcher (options settings) None, None))
        by (unfold getActiveMediaForWatcher; rewrite Hstill, Hfind; reflexivity).
      rewrite E. cbn [fst snd options active_media].
      split; [reflexivity|]. split.
      { intros a Ha Hx. rewrite Ha in Hstill. apply available_in in Hx.
        rewrite Hx in Hstill. discriminate Hstill. }
      split; [intros m H; discriminate H|]. split; [intros a H; discriminate H|].
      unfold getActiveMediaForWatcher. cbn [active_media options]. rewrite Hfind.
      reflexivity.
Qed.

Lemma a_watcher_holds_on_to_its_media_witness :
  getActiveMediaForWatcher [(a_remote_media, true); (a_media, true)] a_watcher
  = (a_watcher, None).
Proof.
  pose proof (proj1 (proj2 (a_watcher_holds_on_to_its_media
                              [(a_remote_media, true); (a_media, true)] a_watcher))
                    a_media eq_refl
                    (ex_intro _ a_media (conj (or_intror (or_introl eq_refl)) eq_refl)))
    as H.
  destruct (getActiveMediaForWatcher [(a_remote_media, true); (a_media, true)] a_watcher)
    as [s g].
  cbn in H. destruct H as [-> ->]. reflexivity.
Defined.

(** X25. [onMediaChange] keeps the watchers and their order, calls a
    watcher only with a Media whose machine is in active.live and that
    matches the options of that watcher, never tells a watcher that its
    Media is gone, and calls nobody when it runs again on an unchanged
    media list. *)
Theorem watchers_are_called_with_live_media
        (actors : list Running) (watchers : WatcherMap) :
  let watchers' := fst (onMediaChange (getMediaList actors) watchers) in
  let called := snd (onMediaChange (getMediaList actors) watchers) in
  map fst watchers' = map fst watchers
  /\ map (fun kv => options (snd kv)) watchers'
     = map (fun kv => options (snd kv)) watchers
  /\ (forall cb m, In (cb, m) called ->
                   (exists a, In a actors /\ context a = m /\ is_live (state a) = true)
                   /\ exists s, In (cb, s) watchers
                                /\ mediaMatchesWatchOptions m (options s) = true)
  /\ onMediaChange (getMediaList actors) watchers' = (watchers', []).
Proof.
  cbv zeta. set (l := getMediaList actors).
  assert (L : forall m, In (m, true) l ->
                        exists a, In a actors /\ context a = m /\ is_live (state a) = true).
  { intros m Hm. unfold l, getMediaList in Hm. apply in_map_iff in Hm.
    destruct Hm as [a [Ha Hin]]. injection Ha as Hc Hl. exists a. repeat split; assumption. }
  clearbody l. induction watchers as [|[cb s] rest IH].
  - cbn. split; [reflexivity|]. split; [reflexivity|].
    split; [intros k m []|reflexivity].
  - cbn [onMediaChange].
    pose proof (a_watcher_holds_on_to_its_media l s) as W. cbv zeta in W.
    destruct (getActiveMediaForWatcher l s) as [s' given]. cbn [fst snd] in W.
    destruct W as [Wo [_ [Wg [_ Wagain]]]].
    destruct (onMediaChange l rest) as [rest' called]. cbn [fst snd] in IH |- *.
    destruct IH as [I1 [I2 [I3 I4]]].
    split; [cbn; rewrite I1; reflexivity|].
    split; [cbn; rewrite I2, Wo; reflexivity|].
    split.
    + intros cb0 m Hin.
      assert (Hrest : In (cb0, m) called ->
                      (exists a, In a actors /\ context a = m /\ is_live (state a) = true)
                      /\ exists s0, In (cb0, s0) ((cb, s) :: rest)
                                    /\ mediaMatchesWatchOptions m (options s0) = true).
      { intros H. destruct (I3 cb0 m H) as [A [s0 [B C]]]. split; [exact A|].
        exists s0. split; [right; exact B | exact C]. }
      destruct given as [g|]; [|exact (Hrest Hin)].
      destruct Hin as [Hin|Hin]; [|exact (Hrest Hin)].
      injection Hin as <- <-. destruct (Wg g eq_refl) as [G1 [G2 _]].
      split; [exact (L g G1)|]. exists s. split; [left; reflexivity | exact G2].
    + cbn [onMediaChange]. rewrite Wagain, I4. reflexivity.
Qed.

Lemma watchers_are_called_with_live_media_witness :
  exists a, In a [start a_media] /\ context a = a_media /\ is_live (state a) = true.
Proof.
  refine (proj1 (proj1 (proj2 (proj2 (watchers_are_called_with_live_media
                                        [start a_media]
                                        [("cb-1", mkWatcher any_webcam None)])))
                       "cb-1" a_media _)).
  left. reflexivity.
Defined.

Lemma matches_whatever_the_track (m : Media) (t : option Track) (o : MediaWatchOptions) :
  mediaMatchesWatchOptions (set_track m t) o = mediaMatchesWatchOptions m o.
Proof. destruct m. reflexivity. Qed.

(** X26. How a watcher learns of a switched track. In a Session with
    one Media, live and not paused, held by a watcher whose options it
    matches: while the Media is switching it is not available, so the
    watcher lets go of it without being called; once replaceTrack has
    resolved the Media is live again and the watcher is called with the
    Media carrying the new track. *)
Theorem a_watcher_is_given_the_switched_track
        (a : Running) (h : Health) (settings : WatcherSettings) (next : Track) :
  state a = active (live h) ->
  isPaused (context a) = false ->
  active_media settings = Some (context a) ->
  mediaMatchesWatchOptions (context a) (options settings) = true ->
  let a1 := deliver a (SWITCH next) in
  let a2 := deliver a1 (done_invoke_switch next) in
  let during := getActiveMediaForWatcher (getMediaList [a1]) settings in
  let after := getActiveMediaForWatcher (getMediaList [a2]) (fst during) in
  getActiveMediaForWatcher (getMediaList [a]) settings = (settings, None)
  /\ snd during = None
  /\ active_media (fst during) = None
  /\ snd after = Some (set_track (context a) (Some next)).
Proof.
  intros Hs Hp Ha Hm. destruct a as [c s acts made]. cbn in Hs, Hp, Ha, Hm. subst s.
  cbv zeta. unfold deliver. cbn [context state actions calls transition].
  unfold enter_active.
  assert (Hp' : isPaused (set_track c (Some next)) = false)
    by (destruct c; exact Hp).
  rewrite Hp'. cbn [fst snd context state actions calls].
  unfold getMediaList. cbn [map context state is_live].
  unfold getActiveMediaForWatcher. rewrite Ha. cbn [existsb fst snd].
  rewrite String.eqb_refl. cbn [andb orb find fst snd option_map active_media options].
  rewrite matches_whatever_the_track, Hm. cbn. repeat split.
Qed.

Lemma a_watcher_is_given_the_switched_track_witness :
  snd (getActiveMediaForWatcher
         (getMediaList [deliver (deliver (start a_media) (SWITCH webcam_b))
                                (done_invoke_switch webcam_b)])
         (fst (getActiveMediaForWatcher
                 (getMediaList [deliver (start a_media) (SWITCH webcam_b)]) a_watcher)))
  = Some (set_track a_media (Some webcam_b)).
Proof.
  exact (proj2 (proj2 (proj2 (a_watcher_is_given_the_switched_track
                                (start a_media) healthy a_watcher webcam_b
                                eq_refl eq_refl eq_refl eq_refl)))).
Defined.

End WatchersProps.

(** * The device watchers *)
Module DevicesProps.

Import Devices.

Lemma Set_add_not_empty (cb : string) (s : list string) : Set_add cb s <> [].
Proof.
  unfold Set_add. destruct s as [|x s]; cbn; [discriminate|].
  destruct ((cb =? x) || existsb (String.eqb cb) s); cbn; discriminate.
Qed.

Lemma Set_delete_add (cb : string) (l : list string) :
  Set_delete cb (Set_add cb l) = Set_delete cb l.
Proof.
  unfold Set_add, Set_delete. destruct (existsb (String.eqb cb) l); [reflexivity|].
  rewrite filter_app. cbn. rewrite String.eqb_refl. cbn. apply app_nil_r.
Qed.

Lemma perform_listening (c : Call) (s : State) :
  listening s = negb (size (deviceWatchers s) =? 0)%nat ->
  listening (perform s c) = negb (size (deviceWatchers (perform s c)) =? 0)%nat.
Proof.
  intros H. unfold size in *. destruct c as [cb|cb]; cbn [perform].
  - unfold watchDevices, size. cbn [fst listening deviceWatchers].
    pose proof (Set_add_not_empty cb (deviceWatchers s)) as Hne.
    destruct (Set_add cb (deviceWatchers s)) as [|x l] eqn:E; [contradiction|].
    cbn [List.length Nat.eqb negb].
    destruct (List.length (deviceWatchers s) =? 0)%nat eqn:Hz; [reflexivity|].
    exact H.
  - unfold unwatch, size. cbn [fst listening deviceWatchers].
    destruct (List.length (Set_delete cb (deviceWatchers s)) =? 0)%nat eqn:Hz; [reflexivity|].
    rewrite H. cbn [negb].
    destruct (deviceWatchers s) as [|x l]; [discriminate Hz | reflexivity].
Qed.

(** X27. reportDevices is registered as the 'devicechange' listener
    exactly while somebody watches the devices: over any sequence of
    [watchDevices] calls and calls of the functions they return, from
    the empty set of the module, the listener is registered iff the set
    of callbacks is not empty. The callbacks form a Set, so a callback
    registered twice is removed by the first call of either function
    returned for it. *)
Theorem devicechange_is_listened_to_while_watched (calls : list Call) :
  let s := run calls initial in
  listening s = negb (size (deviceWatchers s) =? 0)%nat
  /\ forall cb, deviceWatchers (run [call_watchDevices cb; call_watchDevices cb;
                                     call_unwatch cb] s)
                = Set_delete cb (deviceWatchers s).
Proof.
  cbv zeta. split.
  - unfold run.
    assert (G : forall l s0,
               listening s0 = negb (size (deviceWatchers s0) =? 0)%nat ->
               listening (fold_left perform l s0)
               = negb (size (deviceWatchers (fold_left perform l s0)) =? 0)%nat).
    { induction l as [|c l IH]; intros s0 H; [exact H|].
      cbn [fold_left]. apply IH, perform_listening, H. }
    apply G. reflexivity.
  - intros cb. generalize (run calls initial). intros s.
    unfold run. cbn [fold_left perform]. unfold watchDevices, unwatch.
    cbn [fst deviceWatchers].
    rewrite !Set_delete_add. reflexivity.
Qed.

End DevicesProps.

(** * The tracks of a Media machine *)
Module MediaMachineTracks.

Import MediaMachine.
Import Examples.

Lemma track_starts_app (a b : list Action) :
  track_starts (a ++ b) = track_starts a ++ track_starts b.
Proof.
  induction a as [|x a IH]; [reflexivity|]. destruct x; cbn; rewrite IH; reflexivity.
Qed.

Lemma track_stops_app (a b : list Action) :
  track_stops (a ++ b) = track_stops a ++ track_stops b.
Proof.
  induction a as [|x a IH]; [reflexivity|]. destruct x; cbn; rewrite IH; reflexivity.
Qed.

Lemma close_has_no_track (c : Media) :
  track_starts (close c) = [] /\ track_stops (close c) = [].
Proof. unfold close. destruct (consumer c), (producer c); split; reflexivity. Qed.

Lemma deliver_tracks (r : Running) (ev : Event) :
  track_starts (actions r) = track_stops (actions r) ++ in_use r ->
  track_starts (actions (deliver r ev))
  = track_stops (actions (deliver r ev)) ++ in_use (deliver r ev).
Proof.
  destruct r as [c s acts made]. unfold in_use, deliver.
  cbn [context state actions calls]. intros H.
  destruct (close_has_no_track c) as [K1 K2].
  destruct s as [[h|]| |]; destruct ev; try destruct h;
    cbn [transition enter_stopped enter_active exit_active fst snd
         context state actions is_active];
    rewrite ?track_starts_app, ?track_stops_app, ?K1, ?K2;
    cbn [track_starts track_stops is_active app] in *;
    rewrite ?app_nil_r in *; rewrite ?H;
    try reflexivity;
    try (rewrite <- ?app_assoc; reflexivity);
    try (destruct c; reflexivity).
Qed.

(** X28. Every track a Media machine has listened to is stopped when
    the machine leaves [active]: over any sequence of events, the
    tracks the [track] service was started on are, in order, the tracks
    its clean-up has stopped, followed by the track in use if the
    machine is in [active]. So the old track is stopped as soon as a
    switch begins, whether or not replaceTrack then succeeds, and a
    stopped machine has stopped every track it used. *)
Theorem every_track_is_stopped (m : Media) (evs : list Event) :
  let r := deliver_all evs (start m) in
  track_starts (actions r) = track_stops (actions r) ++ in_use r
  /\ (is_active (state r) = false ->
      track_stops (actions r) = track_starts (actions r)).
Proof.
  cbv zeta.
  assert (G : forall l r0,
             track_starts (actions r0) = track_stops (actions r0) ++ in_use r0 ->
             track_starts (actions (deliver_all l r0))
             = track_stops (actions (deliver_all l r0)) ++ in_use (deliver_all l r0)).
  { unfold deliver_all. induction l as [|e l IH]; intros r0 H; [exact H|].
    cbn [fold_left]. apply IH, deliver_tracks, H. }
  assert (I : track_starts (actions (deliver_all evs (start m)))
              = track_stops (actions (deliver_all evs (start m)))
                ++ in_use (deliver_all evs (start m))).
  { apply G. unfold start, in_use, enter_active. cbn. reflexivity. }
  split; [exact I|].
  intros Hs. rewrite I. unfold in_use. rewrite Hs. symmetry. apply app_nil_r.
Qed.

Lemma every_track_is_stopped_witness :
  track_stops (actions (deliver_all [SWITCH webcam_a; error_platform_switch]
                                    (start a_media)))
  = track_starts (actions (deliver_all [SWITCH webcam_a; error_platform_switch]
                                       (start a_media))).
Proof.
  exact (proj2 (every_track_is_stopped a_media [SWITCH webcam_a; error_platform_switch])
               eq_refl).
Defined.

End MediaMachineTracks.

(** * What the socket hands to the Session machine *)
Module SocketProps.

Import MediaMachine.
Import RoomMachine.
Import Examples.

Lemma dropped_outside_connected (env : Environment) (r : Running) (ev : Event) :
  is_connected (RoomMachine.state r) = false ->
  match ev with REQUEST _ | NOTIFICATION _ => True | _ => False end ->
  dispatch env r ev = r.
Proof.
  destruct r as [c s a e]. cbn [RoomMachine.state]. intros Hs Hev.
  destruct ev; try contradiction;
    destruct s as [|[| |]]; try discriminate Hs;
    unfold dispatch; cbn; rewrite !app_nil_r; reflexivity.
Qed.

(** X29. The Session machine only listens to the server while it is in
    [connected]. A request that arrives in [connecting] or
    [reconnecting] (or after the machine went back to [waiting]) is
    dropped: it reaches no handler, so it is neither accepted nor
    rejected, and a notification that arrives then changes neither the
    context, nor the state, nor what the services have done. *)
Theorem the_server_is_heard_only_when_connected
        (env : Environment) (r : Running) (q : IncomingRequest) (n : Notification) :
  is_connected (RoomMachine.state r) = false ->
  on_socket_request env r q = r
  /\ (let r' := on_socket_notification env r n in
      RoomMachine.context r' = RoomMachine.context r
      /\ RoomMachine.state r' = RoomMachine.state r
      /\ actions r' = actions r
      /\ effects r' = effects r ++ socket_on_notification (RoomMachine.context r) n).
Proof.
  intros Hs. split.
  - unfold on_socket_request, socket_on_request. cbn [sent_back fold_left].
    apply dropped_outside_connected; [exact Hs | exact I].
  - cbv zeta. unfold on_socket_notification, socket_on_notification.
    destruct (existsb (String.eqb (n_name n)) DIAGNOSTIC_NOTIFICATIONS).
    + destruct (onDiagnostics (RoomMachine.context r)); cbn; repeat split.
    + cbn [sent_back fold_left].
      rewrite dropped_outside_connected; [cbn; repeat split | exact Hs | exact I].
Qed.

Lemma the_server_is_heard_only_when_connected_witness :
  on_socket_request (a_server "producer-1") reconnecting_room a_newConsumer_request
  = reconnecting_room.
Proof.
  exact (proj1 (the_server_is_heard_only_when_connected
                  (a_server "producer-1") reconnecting_room a_newConsumer_request
                  a_score eq_refl)).
Defined.

(** X30. The diagnostic notifications (downlinkBwe,
    consumerLayersChanged, consumerScore) never reach the machine: the
    socket hands them to onDiagnostics, if there is one, and sends
    nothing back, so state, context and actions are unchanged. Every
    other notification is sent to the machine and, in [connected], is
    passed on to the notification handler with the context of that
    moment. *)
Theorem diagnostics_bypass_the_machine
        (env : Environment) (r : Running) (n : Notification) :
  (In (n_name n) DIAGNOSTIC_NOTIFICATIONS ->
   on_socket_notification env r n
   = mkRunning (RoomMachine.context r) (RoomMachine.state r) (actions r)
               (effects r ++ if onDiagnostics (RoomMachine.context r)
                             then [diagnostics n] else []))
  /\ (~ In (n_name n) DIAGNOSTIC_NOTIFICATIONS ->
      is_connected (RoomMachine.state r) = true ->
      exists later,
        actions (on_socket_notification env r n)
        = actions r ++ send_to NotificationHandler (NOTIFICATION n) (RoomMachine.context r)
                       :: later).
Proof.
  split.
  - intros Hin. unfold on_socket_notification, socket_on_notification.
    assert (E : existsb (String.eqb (n_name n)) DIAGNOSTIC_NOTIFICATIONS = true).
    { apply existsb_exists. exists (n_name n). split; [exact Hin | apply String.eqb_refl]. }
    rewrite E. destruct (onDiagnostics (RoomMachine.context r)); reflexivity.
  - intros Hout Hs. unfold on_socket_notification, socket_on_notification.
    assert (E : existsb (String.eqb (n_name n)) DIAGNOSTIC_NOTIFICATIONS = false).
    { destruct (existsb (String.eqb (n_name n)) DIAGNOSTIC_NOTIFICATIONS) eqn:X;
        [|reflexivity].
      apply existsb_exists in X. destruct X as [x [Hx Hq]].
      apply String.eqb_eq in Hq. subst x. contradiction. }
    rewrite E. cbn [sent_back fold_left].
    destruct r as [c s a e]. cbn [RoomMachine.state] in Hs.
    destruct s as [|[|sub|]]; try discriminate Hs.
    unfold dispatch. cbn [RoomMachine.context RoomMachine.state actions effects].
    rewrite (RoomMachineRuns.connected_handles c sub (NOTIFICATION n) I).
    cbn [on_connected map run_service flat_map fst snd].
    assert (G : forall l r0 base,
               (exists later, actions r0 = base ++ later) ->
               exists later, actions (fold_left deliver l r0) = base ++ later).
    { induction l as [|x l IH]; intros r0 base [later H]; [exists later; exact H|].
      cbn [fold_left]. apply IH. unfold deliver.
      destruct (transition (RoomMachine.context r0) (RoomMachine.state r0) x)
        as [[c1 s1] a1].
      cbn [actions]. exists (later ++ a1). rewrite H, app_assoc. reflexivity. }
    match goal with
    | |- context [fold_left deliver ?evs ?r0] =>
        destruct (G evs r0 (a ++ [send_to NotificationHandler (NOTIFICATION n) c])
                    (ex_intro _ [] (eq_sym (app_nil_r _)))) as [later HL]
    end.
    exists later. rewrite HL, <- app_assoc. reflexivity.
Qed.

Lemma diagnostics_bypass_the_machine_witness :
  on_socket_notification (a_server "producer-1") joined_room a_score
  = mkRunning (RoomMachine.context joined_room) (RoomMachine.state joined_room)
              (actions joined_room) (effects joined_room ++ [diagnostics a_score]).
Proof.
  exact (proj1 (diagnostics_bypass_the_machine (a_server "producer-1") joined_room a_score)
               (or_intror (or_intror (or_introl eq_refl)))).
Defined.

End SocketProps.
